(** * suite-crafter: a shallow embedding of the project generator

    The first half of the file embeds the code, module by module:
    - [Js]          the built-ins of the host language the code relies on
                    (the default and the comparator [sort], [split],
                    [endsWith], [toLowerCase], the two regular-expression
                    replaces, [JSON.stringify]);
    - [Types]       [src/lib/types.ts]: the configuration model, the schema
                    and the compatibility table;
    - [FolderTree]  [src/lib/folderTree.ts]: the path planner;
    - [Templates]   [src/lib/templates.ts]: the content generator, with the
                    text of every template;
    - [TreeView]    [src/components/wizard/FolderTree.tsx]: the tree builder;
    - [Wizard]      [ConfigWizard.tsx] and the step components.

    The second half states and proves the properties: of the built-ins
    ([JsFacts], [SortFacts]), of the planner and the generator
    ([FolderTreeFacts], [PlannerFacts]), of the project name ([SlugFacts])
    and of the tree builder ([TreeFacts], [TreeShape], [TreeOrder]); the
    numbered claims of the specification stand at the end of each part.

    Strings are [String.string].  A character stands for one UTF-16 code
    unit below 256, which covers everything the code itself compares; the
    text of a template outside ASCII stands in the UTF-8 bytes of the source
    file. *)

From Stdlib Require Import Bool List String Ascii Arith NArith Lia.
From Stdlib Require Import DecimalString.
From Stdlib Require Import Sorting.Sorted Sorting.Permutation.
From Stdlib Require Import Relations.Relation_Definitions Classes.RelationClasses.
Import ListNotations.
Set Warnings "-register-all".
Open Scope string_scope.
Open Scope list_scope.

(* ================================================================== *)
(** * Host-language built-ins                                          *)
(* ================================================================== *)

Module Js.

(** [Array.prototype.sort] is a stable sort.  With a comparator that is a
    consistent total preorder its result does not depend on the algorithm,
    so a stable insertion sort stands for it.  The comparator's number is
    kept as a [comparison]: [Lt] negative, [Eq] zero, [Gt] positive. *)
Fixpoint insertBy {A : Type} (cmp : A -> A -> comparison) (x : A) (l : list A)
  : list A :=
  match l with
  | [] => [x]
  | y :: t =>
      match cmp x y with
      | Gt => y :: insertBy cmp x t
      | _ => x :: y :: t
      end
  end.

Definition sortBy {A : Type} (cmp : A -> A -> comparison) (l : list A) : list A :=
  fold_right (insertBy cmp) [] l.

(** [paths.sort()] without a comparator orders strings by code units. *)
Definition sort (l : list string) : list string := sortBy String.compare l.

(** [s.endsWith(suffix)] *)
Definition endsWith (s suffix : string) : bool :=
  let n := String.length s in
  let m := String.length suffix in
  (m <=? n)%nat && (substring (n - m) m s =? suffix)%string.

(** [s.split(sep)] for a one-character separator: the pieces between the
    separators, empty pieces included; the empty string gives [[""]]. *)
Fixpoint split (sep : ascii) (s : string) : list string :=
  match s with
  | EmptyString => [""]
  | String c rest =>
      if Ascii.eqb c sep then "" :: split sep rest
      else match split sep rest with
           | [] => [String c ""]
           | piece :: more => String c piece :: more
           end
  end.

(** [Boolean(s)] on a string: the empty string is the only falsy one. *)
Definition truthy (s : string) : bool := negb (s =? "")%string.

(** [x || fallback] where [x : string | undefined]: the fallback replaces
    both [undefined] and the empty string. *)
Definition orElse (x : option string) (fallback : string) : string :=
  match x with
  | Some s => if truthy s then s else fallback
  | None => fallback
  end.

(** [x === v] where [x] is an optional field. *)
Definition optionIs {A : Type} (eqb : A -> A -> bool) (x : option A) (v : A) : bool :=
  match x with
  | Some y => eqb y v
  | None => false
  end.

(** The double quote, the backslash and the line feed as one-character
    strings. *)
Definition dq : string := String (ascii_of_nat 34) EmptyString.
Definition bs : string := String (ascii_of_nat 92) EmptyString.
Definition nl : string := String (ascii_of_nat 10) EmptyString.

(** ** [JSON.stringify(value, null, 2)] *)

Inductive Json :=
| JString (s : string)
| JNumber (n : N)
| JBoolean (b : bool)
| JArray (items : list Json)
| JObject (props : list (string * Json)).

Definition hexDigit (n : nat) : ascii :=
  nth n (list_ascii_of_string "0123456789abcdef") "0"%char.

(** One code unit inside a JSON string: the short escapes, [\u00XX] for the
    other control characters, everything else as it is. *)
Definition quoteJSONChar (c : ascii) : string :=
  let n := nat_of_ascii c in
  if (n =? 8)%nat then (bs ++ "b")%string
  else if (n =? 9)%nat then (bs ++ "t")%string
  else if (n =? 10)%nat then (bs ++ "n")%string
  else if (n =? 12)%nat then (bs ++ "f")%string
  else if (n =? 13)%nat then (bs ++ "r")%string
  else if (n =? 34)%nat then (bs ++ dq)%string
  else if (n =? 92)%nat then (bs ++ bs)%string
  else if (n <? 32)%nat then
    (bs ++ "u00" ++ String (hexDigit (n / 16)) (String (hexDigit (n mod 16)) ""))%string
  else String c "".

Fixpoint quoteJSONBody (s : string) : string :=
  match s with
  | EmptyString => EmptyString
  | String c rest => (quoteJSONChar c ++ quoteJSONBody rest)%string
  end.

Definition quoteJSONString (s : string) : string :=
  (dq ++ quoteJSONBody s ++ dq)%string.

(** The serialisation at a given current indentation, with a gap of two
    spaces.  Members keep their insertion order. *)
Fixpoint stringifyAt (indent : string) (v : Json) {struct v} : string :=
  let inner := (indent ++ "  ")%string in
  let sep := ("," ++ nl ++ inner)%string in
  match v with
  | JString s => quoteJSONString s
  | JNumber n => NilZero.string_of_uint (N.to_uint n)
  | JBoolean b => if b then "true" else "false"
  | JArray [] => "[]"
  | JArray items =>
      ("[" ++ nl ++ inner
       ++ String.concat sep (map (stringifyAt inner) items)
       ++ nl ++ indent ++ "]")%string
  | JObject [] => "{}"
  | JObject props =>
      ("{" ++ nl ++ inner
       ++ String.concat sep
            (map (fun kv : string * Json =>
                    match kv with
                    | (k, x) => (quoteJSONString k ++ ": " ++ stringifyAt inner x)%string
                    end) props)
       ++ nl ++ indent ++ "}")%string
  end.

Definition stringify (v : Json) : string := stringifyAt "" v.

(** [xs.includes(x)] *)
Definition includes {A : Type} (eqb : A -> A -> bool) (xs : list A) (x : A) : bool :=
  existsb (eqb x) xs.

(** ** Strings: case mapping and the regular expressions of the source *)

Definition inRange (lo hi : nat) (c : ascii) : bool :=
  let n := nat_of_ascii c in (lo <=? n)%nat && (n <=? hi)%nat.

(** [toLowerCase] of one code unit below 256: the letters A-Z, and the
    Latin-1 capitals U+00C0..U+00DE without the multiplication sign U+00D7,
    move up by 32; every other code unit of that range is its own lower
    case. *)
Definition toLowerCaseChar (c : ascii) : ascii :=
  let n := nat_of_ascii c in
  if inRange 65 90 c then ascii_of_nat (n + 32)
  else if inRange 192 222 c && negb (n =? 215)%nat then ascii_of_nat (n + 32)
  else c.

Fixpoint mapString (f : ascii -> ascii) (s : string) : string :=
  match s with
  | EmptyString => EmptyString
  | String c rest => String (f c) (mapString f rest)
  end.

Fixpoint allChars (f : ascii -> bool) (s : string) : bool :=
  match s with
  | EmptyString => true
  | String c rest => f c && allChars f rest
  end.

Definition toLowerCase (s : string) : string := mapString toLowerCaseChar s.

(** The character class [[a-z0-9-]]. *)
Definition isSlugChar (c : ascii) : bool :=
  inRange 97 122 c || inRange 48 57 c || Ascii.eqb c "-".

(** [/^[a-z0-9-]+$/.test(s)] *)
Definition matchesSlug (s : string) : bool :=
  negb (s =? "")%string && allChars isSlugChar s.

(** [s.replace(/[^a-z0-9-]/g, '-')] *)
Definition replaceNonSlug (s : string) : string :=
  mapString (fun c => if isSlugChar c then c else "-"%char) s.

(** [s.replace(/-+/g, '-')]: every maximal run of hyphens becomes one. *)
Fixpoint collapseHyphens (s : string) : string :=
  match s with
  | EmptyString => EmptyString
  | String c rest =>
      if Ascii.eqb c "-" then
        match rest with
        | String c' _ =>
            if Ascii.eqb c' "-" then collapseHyphens rest
            else String c (collapseHyphens rest)
        | EmptyString => String c EmptyString
        end
      else String c (collapseHyphens rest)
  end.

End Js.

(* ================================================================== *)
(** * src/lib/types.ts                                                 *)
(* ================================================================== *)

Module Types.

Inductive Language := typescript | java | python.
Inductive BuildTool := npm | pnpm | maven | gradle | pip | poetry.
Inductive UIFramework := playwright | selenium.
Inductive APIFramework := playwright_api | axios | rest_assured | requests.
Inductive TestRunner := playwright_test | junit | testng | pytest.
Inductive ReportingOption := allure | html | junit_xml | pytest_html | surefire.

Scheme Equality for Language.
Scheme Equality for BuildTool.
Scheme Equality for UIFramework.
Scheme Equality for APIFramework.
Scheme Equality for TestRunner.
Scheme Equality for ReportingOption.

(** The string a build tool is in the source, for the templates that
    interpolate it. *)
Definition BuildTool_str (b : BuildTool) : string :=
  match b with
  | npm => "npm" | pnpm => "pnpm" | maven => "maven"
  | gradle => "gradle" | pip => "pip" | poetry => "poetry"
  end.

(** [ProjectConfig = z.infer<typeof ProjectConfigSchema>]: the optional
    fields are options, the defaulted ones are filled in. *)
Record ProjectConfig := {
  projectName : string;
  description : option string;
  author : option string;
  initGit : bool;
  includeUI : bool;
  includeAPI : bool;
  language : Language;
  buildTool : BuildTool;
  uiFramework : option UIFramework;
  apiFramework : option APIFramework;
  testRunner : TestRunner;
  reporting : list ReportingOption;
  includeEnvConfig : bool;
  includeCI : bool;
  includeDocker : bool
}.

(** One row of [validCombinations]. *)
Record Combination := {
  buildTools : list BuildTool;
  uiFrameworks : list UIFramework;
  apiFrameworks : list APIFramework;
  testRunners : list TestRunner;
  reportingOptions : list ReportingOption
}.

Definition validCombinations (l : Language) : Combination :=
  match l with
  | typescript =>
      {| buildTools := [npm; pnpm];
         uiFrameworks := [playwright];
         apiFrameworks := [playwright_api; axios];
         testRunners := [playwright_test];
         reportingOptions := [html; junit_xml] |}
  | java =>
      {| buildTools := [maven; gradle];
         uiFrameworks := [selenium];
         apiFrameworks := [rest_assured];
         testRunners := [junit; testng];
         reportingOptions := [allure; surefire; junit_xml] |}
  | python =>
      {| buildTools := [pip; poetry];
         uiFrameworks := [playwright; selenium];
         apiFrameworks := [requests];
         testRunners := [pytest];
         reportingOptions := [pytest_html; junit_xml; allure] |}
  end.

Definition isValidBuildTool (l : Language) (tool : BuildTool) : bool :=
  Js.includes BuildTool_beq (buildTools (validCombinations l)) tool.

Definition isValidUIFramework (l : Language) (framework : UIFramework) : bool :=
  Js.includes UIFramework_beq (uiFrameworks (validCombinations l)) framework.

Definition isValidAPIFramework (l : Language) (framework : APIFramework) : bool :=
  Js.includes APIFramework_beq (apiFrameworks (validCombinations l)) framework.

Definition isValidTestRunner (l : Language) (runner : TestRunner) : bool :=
  Js.includes TestRunner_beq (testRunners (validCombinations l)) runner.

Definition isValidReporting (l : Language) (option : ReportingOption) : bool :=
  Js.includes ReportingOption_beq (reportingOptions (validCombinations l)) option.

(** ** [ProjectConfigSchema]

    The schema's input type: what the schema accepts before the defaults are
    filled in ([z.input]).  The fields declared [.optional()] or
    [.default(...)] may be absent. *)
Record ProjectConfigInput := {
  in_projectName : string;
  in_description : option string;
  in_author : option string;
  in_initGit : option bool;
  in_includeUI : bool;
  in_includeAPI : bool;
  in_language : Language;
  in_buildTool : BuildTool;
  in_uiFramework : option UIFramework;
  in_apiFramework : option APIFramework;
  in_testRunner : TestRunner;
  in_reporting : list ReportingOption;
  in_includeEnvConfig : option bool;
  in_includeCI : option bool;
  in_includeDocker : option bool
}.

(** One issue of a validation error: the path of the field and the
    message. *)
Record Issue := { issuePath : list string; message : string }.

(** The result of [schema.safeParse(input)]. *)
Inductive SafeParseResult :=
| Success (data : ProjectConfig)
| Failure (issues : list Issue).

Definition issueWhen (failed : bool) (field : string) (msg : string) : list Issue :=
  if failed then [ {| issuePath := [field]; message := msg |} ] else [].

Definition optionalLength (s : option string) : nat :=
  match s with Some x => String.length x | None => 0 end.

Definition withDefault (x : option bool) (d : bool) : bool :=
  match x with Some b => b | None => d end.

(** The checks of the object schema, field by field in the order of the
    declaration.  A failing string check records its issue and the parse
    goes on. *)
Definition fieldIssues (input : ProjectConfigInput) : list Issue :=
  issueWhen (String.length (in_projectName input) <? 1)%nat
    "projectName" "Project name is required"
  ++ issueWhen (50 <? String.length (in_projectName input))%nat
       "projectName" "Project name must be less than 50 characters"
  ++ issueWhen (negb (Js.matchesSlug (in_projectName input)))
       "projectName" "Project name must be lowercase with hyphens only"
  ++ issueWhen (200 <? optionalLength (in_description input))%nat
       "description" "Description must be less than 200 characters"
  ++ issueWhen (50 <? optionalLength (in_author input))%nat
       "author" "Author name must be less than 50 characters".

(** The parsed value: the input with the defaults filled in. *)
Definition parsedData (input : ProjectConfigInput) : ProjectConfig :=
  {| projectName := in_projectName input;
     description := in_description input;
     author := in_author input;
     initGit := withDefault (in_initGit input) true;
     includeUI := in_includeUI input;
     includeAPI := in_includeAPI input;
     language := in_language input;
     buildTool := in_buildTool input;
     uiFramework := in_uiFramework input;
     apiFramework := in_apiFramework input;
     testRunner := in_testRunner input;
     reporting := in_reporting input;
     includeEnvConfig := withDefault (in_includeEnvConfig input) true;
     includeCI := withDefault (in_includeCI input) false;
     includeDocker := withDefault (in_includeDocker input) false |}.

(** [.refine((data) => data.includeUI || data.includeAPI, { message, path })]
    runs on the parsed value after the fields. *)
Definition refineIssues (data : ProjectConfig) : list Issue :=
  issueWhen (negb (includeUI data || includeAPI data))
    "includeUI" "At least one test type (UI or API) must be selected".

Definition safeParse (input : ProjectConfigInput) : SafeParseResult :=
  let data := parsedData input in
  match fieldIssues input ++ refineIssues data with
  | [] => Success data
  | issues => Failure issues
  end.

(** ** Valid configurations

    A configuration is valid for generation when it passes the schema and
    every field belongs to the row of its language in the compatibility
    table, with a framework exactly for the selected kinds of test. *)
Definition asInput (c : ProjectConfig) : ProjectConfigInput :=
  {| in_projectName := projectName c;
     in_description := description c;
     in_author := author c;
     in_initGit := Some (initGit c);
     in_includeUI := includeUI c;
     in_includeAPI := includeAPI c;
     in_language := language c;
     in_buildTool := buildTool c;
     in_uiFramework := uiFramework c;
     in_apiFramework := apiFramework c;
     in_testRunner := testRunner c;
     in_reporting := reporting c;
     in_includeEnvConfig := Some (includeEnvConfig c);
     in_includeCI := Some (includeCI c);
     in_includeDocker := Some (includeDocker c) |}.

Definition passesSchema (c : ProjectConfig) : bool :=
  match safeParse (asInput c) with
  | Success _ => true
  | Failure _ => false
  end.

Definition compatible (c : ProjectConfig) : bool :=
  isValidBuildTool (language c) (buildTool c)
  && isValidTestRunner (language c) (testRunner c)
  && negb (Nat.eqb (List.length (reporting c)) 0)
  && forallb (isValidReporting (language c)) (reporting c)
  && match uiFramework c with
     | Some f => includeUI c && isValidUIFramework (language c) f
     | None => negb (includeUI c)
     end
  && match apiFramework c with
     | Some f => includeAPI c && isValidAPIFramework (language c) f
     | None => negb (includeAPI c)
     end.

Definition validConfig (c : ProjectConfig) : bool := passesSchema c && compatible c.

End Types.

(* ================================================================== *)
(** * src/lib/folderTree.ts                                            *)
(* ================================================================== *)

Module FolderTree.
Import Types.

Record FileEntry := { path : string; content : string }.

(** The array [paths] when the function returns.  Each
    [paths.push(`${projectName}/...`)] of the source is one element; the
    [if] blocks are the conditional segments, in the source's order. *)
Definition paths (config : ProjectConfig) : list string :=
  let p := fun rest : string => (projectName config ++ "/" ++ rest)%string in
  let when := fun (b : bool) (l : list string) => if b then l else [] in
  let isLang := fun l => Language_beq (language config) l in
  (
    (* Root files *)
    [ p ""; p "README.md"; p ".env.example" ]
    ++ when (initGit config) [ p ".gitignore" ]
    ++ when (isLang typescript) (
         [ p "package.json"; p "tsconfig.json"; p "playwright.config.ts";
           (* Source structure *)
           p "src/"; p "src/utils/"; p "src/utils/config.ts";
           p "src/utils/helpers.ts" ]
         ++ when (includeUI config)
              [ p "src/pages/"; p "src/pages/BasePage.ts";
                p "src/pages/LoginPage.ts"; p "src/fixtures/";
                p "src/fixtures/base.fixture.ts" ]
         (* Tests *)
         ++ [ p "tests/" ]
         ++ when (includeUI config)
              [ p "tests/ui/"; p "tests/ui/login.spec.ts";
                p "tests/ui/home.spec.ts" ]
         ++ when (includeAPI config)
              [ p "tests/api/"; p "tests/api/users.spec.ts";
                p "tests/api/health.spec.ts" ]
         (* Config *)
         ++ [ p "config/"; p "config/dev.json"; p "config/stage.json";
              p "config/prod.json";
              (* Scripts *)
              p "scripts/"; p "scripts/run-tests.sh" ])
    ++ when (isLang java) (
         (if BuildTool_beq (buildTool config) maven
          then [ p "pom.xml" ]
          else [ p "build.gradle"; p "settings.gradle" ])
         (* Source structure *)
         ++ [ p "src/"; p "src/test/"; p "src/test/java/";
              p "src/test/java/com/"; p "src/test/java/com/automation/";
              (* Base classes *)
              p "src/test/java/com/automation/base/";
              p "src/test/java/com/automation/base/BaseTest.java";
              (* Utils *)
              p "src/test/java/com/automation/utils/";
              p "src/test/java/com/automation/utils/ConfigReader.java";
              p "src/test/java/com/automation/utils/TestUtils.java" ]
         ++ when (includeUI config)
              [ p "src/test/java/com/automation/utils/WebDriverFactory.java";
                p "src/test/java/com/automation/pages/";
                p "src/test/java/com/automation/pages/BasePage.java";
                p "src/test/java/com/automation/pages/LoginPage.java";
                p "src/test/java/com/automation/pages/HomePage.java";
                p "src/test/java/com/automation/tests/";
                p "src/test/java/com/automation/tests/LoginTest.java" ]
         ++ when (includeAPI config)
              [ p "src/test/java/com/automation/api/";
                p "src/test/java/com/automation/api/BaseApiClient.java";
                p "src/test/java/com/automation/api/UsersApiTest.java";
                p "src/test/java/com/automation/api/PostsApiTest.java" ]
         (* Resources *)
         ++ [ p "src/test/resources/";
              p "src/test/resources/config.properties";
              p "src/test/resources/log4j2.xml" ])
    ++ when (isLang python) (
         [ p "requirements.txt" ]
         ++ when (BuildTool_beq (buildTool config) poetry) [ p "pyproject.toml" ]
         ++ [ p "pytest.ini"; p "conftest.py";
              (* Source structure *)
              p "src/"; p "src/__init__.py"; p "src/utils/";
              p "src/utils/__init__.py"; p "src/utils/config.py";
              p "src/utils/api_client.py" ]
         ++ when (includeUI config)
              [ p "src/pages/"; p "src/pages/__init__.py";
                p "src/pages/base_page.py"; p "src/pages/login_page.py" ]
         (* Tests *)
         ++ [ p "tests/"; p "tests/__init__.py" ]
         ++ when (includeUI config)
              [ p "tests/ui/"; p "tests/ui/__init__.py";
                p "tests/ui/test_login.py" ]
         ++ when (includeAPI config)
              [ p "tests/api/"; p "tests/api/__init__.py";
                p "tests/api/test_users.py"; p "tests/api/test_posts.py" ])
    (* CI/CD *)
    ++ when (includeCI config)
         [ p ".github/"; p ".github/workflows/";
           p ".github/workflows/tests.yml" ]
    (* Docker *)
    ++ when (includeDocker config)
         [ p "Dockerfile"; p "docker-compose.yml" ]).

(** [return paths.sort()] *)
Definition generateFolderTree (config : ProjectConfig) : list string :=
  Js.sort (paths config).

End FolderTree.

(* ================================================================== *)
(** * src/lib/templates.ts                                             *)
(* ================================================================== *)

(** The template functions.  A template literal is the concatenation of its
    text chunks and of its interpolations; a double quote in the text is
    [dq].  Text outside ASCII stands in the UTF-8 bytes of the source file. *)

Module Templates.
Import Types FolderTree.

Local Abbreviation dq := Js.dq.

Definition generateTypeScriptPackageJson (config : ProjectConfig) : string :=
  let scripts : list (string * string) :=
    [ ("test", "npx playwright test");
      ("test:ui", "npx playwright test tests/ui");
      ("test:headed", "npx playwright test --headed");
      ("test:debug", "npx playwright test --debug");
      ("report", "npx playwright show-report") ]
    ++ (if includeAPI config
        then [ ("test:api", "npx playwright test tests/api") ] else []) in
  let dependencies : list (string * string) :=
    [ ("@playwright/test", "^1.40.0");
      ("dotenv", "^16.3.1") ]
    ++ (if Js.optionIs APIFramework_beq (apiFramework config) axios
        then [ ("axios", "^1.6.0") ] else []) in
  let record := fun kvs : list (string * string) =>
    Js.JObject (map (fun kv => (fst kv, Js.JString (snd kv))) kvs) in
  Js.stringify (Js.JObject
    [ ("name", Js.JString (projectName config));
      ("version", Js.JString "1.0.0");
      ("description",
        Js.JString (Js.orElse (description config) "Automation test framework"));
      ("author", Js.JString (Js.orElse (author config) EmptyString));
      ("scripts", record scripts);
      ("devDependencies", record dependencies) ]).

Definition generatePlaywrightConfig (config : ProjectConfig) : string :=
  ("import { defineConfig, devices } from '@playwright/test';
import dotenv from 'dotenv';

dotenv.config();

export default defineConfig({
  testDir: './tests',
  fullyParallel: true,
  forbidOnly: !!process.env.CI,
  retries: process.env.CI ? 2 : 0,
  workers: process.env.CI ? 1 : undefined,
  reporter: [
    ['html', { open: 'never' }],
    ['junit', { outputFile: 'test-results/junit.xml' }],
  ],
  use: {
    baseURL: process.env.BASE_URL || 'https://example.com',
    trace: 'on-first-retry',
    screenshot: 'only-on-failure',
    video: 'on-first-retry',
  },
  projects: [
    {
      name: 'chromium',
      use: { ...devices['Desktop Chrome'] },
    },
  ],
});
")%string.

Definition generateTsConfig : string :=
  Js.stringify (Js.JObject
    [ ("compilerOptions", Js.JObject
         [ ("target", Js.JString "ES2020");
           ("module", Js.JString "commonjs");
           ("strict", Js.JBoolean true);
           ("esModuleInterop", Js.JBoolean true);
           ("skipLibCheck", Js.JBoolean true);
           ("forceConsistentCasingInFileNames", Js.JBoolean true);
           ("baseUrl", Js.JString ".");
           ("paths", Js.JObject
              [ ("@/*", Js.JArray [ Js.JString "src/*" ]) ]) ]);
      ("include", Js.JArray [ Js.JString "src/**/*"; Js.JString "tests/**/*" ]);
      ("exclude", Js.JArray [ Js.JString "node_modules" ]) ]).

Definition generateTsBasePage : string :=
  ("import { Page, Locator } from '@playwright/test';

export abstract class BasePage {
  protected page: Page;

  constructor(page: Page) {
    this.page = page;
  }

  async navigate(path: string = '/'): Promise<void> {
    await this.page.goto(path);
  }

  async waitForPageLoad(): Promise<void> {
    await this.page.waitForLoadState('networkidle');
  }

  protected getLocator(selector: string): Locator {
    return this.page.locator(selector);
  }

  async takeScreenshot(name: string): Promise<Buffer> {
    return await this.page.screenshot({ path: `screenshots/${name}.png` });
  }
}
")%string.

Definition generateTsLoginPage : string :=
  ("import { Page, Locator, expect } from '@playwright/test';
import { BasePage } from './BasePage';

export class LoginPage extends BasePage {
  private readonly usernameInput: Locator;
  private readonly passwordInput: Locator;
  private readonly submitButton: Locator;
  private readonly errorMessage: Locator;

  constructor(page: Page) {
    super(page);
    this.usernameInput = page.locator('[data-testid=" ++ dq ++ "username" ++ dq ++ "]');
    this.passwordInput = page.locator('[data-testid=" ++ dq ++ "password" ++ dq ++ "]');
    this.submitButton = page.locator('[data-testid=" ++ dq ++ "submit" ++ dq ++ "]');
    this.errorMessage = page.locator('[data-testid=" ++ dq ++ "error-message" ++ dq ++ "]');
  }

  async login(username: string, password: string): Promise<void> {
    await this.usernameInput.fill(username);
    await this.passwordInput.fill(password);
    await this.submitButton.click();
  }

  async expectErrorMessage(message: string): Promise<void> {
    await expect(this.errorMessage).toContainText(message);
  }

  async expectLoginSuccess(): Promise<void> {
    await expect(this.page).toHaveURL(/.*dashboard/);
  }
}
")%string.

Definition generateTsLoginSpec : string :=
  ("import { test, expect } from '@playwright/test';
import { LoginPage } from '../../src/pages/LoginPage';

test.describe('Login Page Tests', () => {
  let loginPage: LoginPage;

  test.beforeEach(async ({ page }) => {
    loginPage = new LoginPage(page);
    await loginPage.navigate('/login');
  });

  test('should display login form', async ({ page }) => {
    await expect(page.locator('[data-testid=" ++ dq ++ "username" ++ dq ++ "]')).toBeVisible();
    await expect(page.locator('[data-testid=" ++ dq ++ "password" ++ dq ++ "]')).toBeVisible();
    await expect(page.locator('[data-testid=" ++ dq ++ "submit" ++ dq ++ "]')).toBeVisible();
  });

  test('should show error for invalid credentials', async () => {
    await loginPage.login('invalid@email.com', 'wrongpassword');
    await loginPage.expectErrorMessage('Invalid credentials');
  });

  test('should login successfully with valid credentials', async () => {
    await loginPage.login('test@example.com', 'password123');
    await loginPage.expectLoginSuccess();
  });
});
")%string.

Definition generateTsApiSpec : string :=
  ("import { test, expect } from '@playwright/test';

test.describe('Users API Tests', () => {
  const baseURL = process.env.API_BASE_URL || 'https://jsonplaceholder.typicode.com';

  test('GET /users - should return list of users', async ({ request }) => {
    const response = await request.get(`${baseURL}/users`);
    
    expect(response.ok()).toBeTruthy();
    expect(response.status()).toBe(200);
    
    const users = await response.json();
    expect(Array.isArray(users)).toBeTruthy();
    expect(users.length).toBeGreaterThan(0);
  });

  test('GET /users/1 - should return single user', async ({ request }) => {
    const response = await request.get(`${baseURL}/users/1`);
    
    expect(response.ok()).toBeTruthy();
    const user = await response.json();
    expect(user).toHaveProperty('id', 1);
    expect(user).toHaveProperty('name');
    expect(user).toHaveProperty('email');
  });

  test('POST /users - should create new user', async ({ request }) => {
    const newUser = {
      name: 'Test User',
      username: 'testuser',
      email: 'test@example.com',
    };

    const response = await request.post(`${baseURL}/users`, {
      data: newUser,
    });

    expect(response.ok()).toBeTruthy();
    expect(response.status()).toBe(201);
    
    const createdUser = await response.json();
    expect(createdUser).toHaveProperty('id');
    expect(createdUser.name).toBe(newUser.name);
  });

  test('DELETE /users/1 - should delete user', async ({ request }) => {
    const response = await request.delete(`${baseURL}/users/1`);
    expect(response.ok()).toBeTruthy();
  });
});
")%string.

Definition generateTsUtils : string :=
  ("import dotenv from 'dotenv';
import * as fs from 'fs';
import * as path from 'path';

dotenv.config();

interface Config {
  baseUrl: string;
  apiBaseUrl: string;
  timeout: number;
  retries: number;
  headless: boolean;
}

export function loadConfig(env: string = 'dev'): Config {
  const configPath = path.join(__dirname, '../../config', `${env}.json`);
  
  if (fs.existsSync(configPath)) {
    const fileConfig = JSON.parse(fs.readFileSync(configPath, 'utf-8'));
    return {
      baseUrl: process.env.BASE_URL || fileConfig.baseUrl,
      apiBaseUrl: process.env.API_BASE_URL || fileConfig.apiBaseUrl,
      timeout: parseInt(process.env.TIMEOUT || fileConfig.timeout || '30000'),
      retries: parseInt(process.env.RETRIES || fileConfig.retries || '0'),
      headless: process.env.HEADLESS !== 'false',
    };
  }

  return {
    baseUrl: process.env.BASE_URL || 'https://example.com',
    apiBaseUrl: process.env.API_BASE_URL || 'https://api.example.com',
    timeout: 30000,
    retries: 0,
    headless: true,
  };
}

export function sleep(ms: number): Promise<void> {
  return new Promise(resolve => setTimeout(resolve, ms));
}

export function generateRandomEmail(): string {
  return `test.${Date.now()}@example.com`;
}
")%string.

Definition generateEnvExample : string :=
  ("# Base URLs
BASE_URL=https://example.com
API_BASE_URL=https://api.example.com

# Test Configuration
TIMEOUT=30000
RETRIES=0
HEADLESS=true

# CI/CD
CI=false
")%string.

Definition generateGitignore (language : Language) : string :=
  let common := ("# Dependencies
node_modules/
.pnpm-store/

# Test Results
test-results/
playwright-report/
allure-results/
allure-report/

# Environment
.env
.env.local
.env.*.local

# IDE
.idea/
.vscode/
*.swp
*.swo

# OS
.DS_Store
Thumbs.db

# Logs
*.log
npm-debug.log*
")%string in
  if Language_beq language java then
    (common ++ "
# Java
target/
*.class
*.jar
*.war
.gradle/
build/
")%string
  else if Language_beq language python then
    (common ++ "
# Python
__pycache__/
*.py[cod]
*$py.class
.pytest_cache/
.venv/
venv/
*.egg-info/
dist/
")%string
  else common.

Definition generateReadme (config : ProjectConfig) : string :=
  let installCmd :=
    if Language_beq (language config) typescript then
      if BuildTool_beq (buildTool config) pnpm then "pnpm install" else "npm install"
    else if Language_beq (language config) java then
      if BuildTool_beq (buildTool config) maven
      then "mvn clean install -DskipTests" else "./gradlew build -x test"
    else if Language_beq (language config) python then
      if BuildTool_beq (buildTool config) poetry
      then "poetry install" else "pip install -r requirements.txt"
    else EmptyString in
  let testCmd :=
    if Language_beq (language config) typescript then
      if BuildTool_beq (buildTool config) pnpm then "pnpm test" else "npm test"
    else if Language_beq (language config) java then
      if BuildTool_beq (buildTool config) maven then "mvn test" else "./gradlew test"
    else if Language_beq (language config) python then "pytest"
    else EmptyString in
  ("# "
  ++ (projectName config)
  ++ "

"
  ++ (Js.orElse (description config) "Automation test framework generated by SuiteMate")
  ++ "

## Prerequisites

"
  ++ (if (Language_beq (language config) typescript) then "- Node.js 18+ and npm/pnpm" else EmptyString)
  ++ "
"
  ++ (if (Language_beq (language config) java) then "- Java 17+ and Maven/Gradle" else EmptyString)
  ++ "
"
  ++ (if (Language_beq (language config) python) then "- Python 3.9+ and pip/poetry" else EmptyString)
  ++ "
"
  ++ (if (includeUI config) then "- Chrome browser installed" else EmptyString)
  ++ "

## Installation

```bash
"
  ++ installCmd
  ++ "
"
  ++ (if ((Language_beq (language config) typescript) && (includeUI config)) then "npx playwright install" else EmptyString)
  ++ "
```

## Configuration

1. Copy `.env.example` to `.env`
2. Update the values as needed

## Running Tests

### Run all tests
```bash
"
  ++ testCmd
  ++ "
```

"
  ++ (if (includeUI config) then ("### Run UI tests only
```bash
"
  ++ (if (Language_beq (language config) typescript) then "npm run test:ui" else (testCmd ++ " -Dgroups=ui"))
  ++ "
```") else EmptyString)
  ++ "

"
  ++ (if (includeAPI config) then ("### Run API tests only
```bash
"
  ++ (if (Language_beq (language config) typescript) then "npm run test:api" else (testCmd ++ " -Dgroups=api"))
  ++ "
```") else EmptyString)
  ++ "

### Run in headed mode (UI tests)
```bash
"
  ++ (if (Language_beq (language config) typescript) then "npm run test:headed" else (testCmd ++ " -Dheadless=false"))
  ++ "
```

## Reports

"
  ++ (if (Language_beq (language config) typescript) then ("View HTML report:
```bash
npm run report
```") else EmptyString)
  ++ "

"
  ++ (if (Language_beq (language config) java) then ("Surefire reports: `target/surefire-reports/`") else EmptyString)
  ++ "

## Project Structure

```
"
  ++ (projectName config)
  ++ "/
├── "
  ++ (if (Language_beq (language config) typescript) then "src/" else "src/test/")
  ++ "
│   ├── "
  ++ (if (includeUI config) then (if (Language_beq (language config) typescript) then "pages/" else "java/com/automation/pages/") else EmptyString)
  ++ "
│   └── "
  ++ (if (Language_beq (language config) typescript) then "utils/" else "java/com/automation/utils/")
  ++ "
├── tests/
│   "
  ++ (if (includeUI config) then "├── ui/" else EmptyString)
  ++ "
│   "
  ++ (if (includeAPI config) then "└── api/" else EmptyString)
  ++ "
└── config/
```

"
  ++ (if (includeDocker config) then ("## Docker

Build and run tests in Docker:
```bash
docker-compose up --build
```") else EmptyString)
  ++ "

## Environment Configuration

Configuration files are in the `config/` directory:
- `dev.json` - Development environment
- `stage.json` - Staging environment  
- `prod.json` - Production environment

---
Generated by [SuiteMate](https://suitemate.dev)
")%string.

Definition generateConfigJson (env : string) : string :=
  let baseUrls : list (string * (string * string)) :=
    [ ("dev", ("https://dev.example.com", "https://api.dev.example.com"));
      ("stage", ("https://stage.example.com", "https://api.stage.example.com"));
      ("prod", ("https://example.com", "https://api.example.com")) ] in
  let entry := option_map snd (find (fun kv => (fst kv =? env)%string) baseUrls) in
  Js.stringify (Js.JObject
    [ ("baseUrl",
        Js.JString (Js.orElse (option_map fst entry) "https://example.com"));
      ("apiBaseUrl",
        Js.JString (Js.orElse (option_map snd entry) "https://api.example.com"));
      ("timeout", Js.JNumber 30000);
      ("retries", Js.JNumber (if (env =? "prod")%string then 2 else 0)) ]).

Definition generateGitHubWorkflow (config : ProjectConfig) : string :=
  if Language_beq (language config) typescript then
    ("name: Tests

on:
  push:
    branches: [main, develop]
  pull_request:
    branches: [main]

jobs:
  test:
    runs-on: ubuntu-latest
    
    steps:
      - uses: actions/checkout@v4
      
      - name: Setup Node.js
        uses: actions/setup-node@v4
        with:
          node-version: '20'
          cache: '"
  ++ (BuildTool_str (buildTool config))
  ++ "'
      
      - name: Install dependencies
        run: "
  ++ (BuildTool_str (buildTool config))
  ++ " install
      
"
  ++ (if (includeUI config) then ("      - name: Install Playwright browsers
        run: npx playwright install --with-deps chromium
") else EmptyString)
  ++ "
      - name: Run tests
        run: "
  ++ (BuildTool_str (buildTool config))
  ++ " test
      
      - name: Upload test results
        if: always()
        uses: actions/upload-artifact@v4
        with:
          name: test-results
          path: |
            playwright-report/
            test-results/
")%string
  else if Language_beq (language config) java then
    ("name: Tests

on:
  push:
    branches: [main, develop]
  pull_request:
    branches: [main]

jobs:
  test:
    runs-on: ubuntu-latest
    
    steps:
      - uses: actions/checkout@v4
      
      - name: Setup Java
        uses: actions/setup-java@v4
        with:
          java-version: '17'
          distribution: 'temurin'
          cache: '"
  ++ (BuildTool_str (buildTool config))
  ++ "'
      
      - name: Run tests
        run: "
  ++ (if (BuildTool_beq (buildTool config) maven) then "mvn test" else "./gradlew test")
  ++ "
      
      - name: Upload test results
        if: always()
        uses: actions/upload-artifact@v4
        with:
          name: test-results
          path: target/surefire-reports/
")%string
  else
    ("name: Tests

on:
  push:
    branches: [main, develop]
  pull_request:
    branches: [main]

jobs:
  test:
    runs-on: ubuntu-latest
    
    steps:
      - uses: actions/checkout@v4
      
      - name: Setup Python
        uses: actions/setup-python@v5
        with:
          python-version: '3.11'
          cache: 'pip'
      
      - name: Install dependencies
        run: pip install -r requirements.txt
      
      - name: Run tests
        run: pytest --junitxml=test-results/junit.xml
      
      - name: Upload test results
        if: always()
        uses: actions/upload-artifact@v4
        with:
          name: test-results
          path: test-results/
")%string.

Definition generateDockerfile (config : ProjectConfig) : string :=
  if Language_beq (language config) typescript then
    ("FROM mcr.microsoft.com/playwright:v1.40.0-jammy

WORKDIR /app

COPY package*.json ./
RUN npm ci

COPY . .

CMD [" ++ dq ++ "npm" ++ dq ++ ", " ++ dq ++ "test" ++ dq ++ "]
")%string
  else if Language_beq (language config) java then
    ("FROM maven:3.9-eclipse-temurin-17

WORKDIR /app

COPY pom.xml ./
RUN mvn dependency:go-offline

COPY . .

CMD [" ++ dq ++ "mvn" ++ dq ++ ", " ++ dq ++ "test" ++ dq ++ "]
")%string
  else
    ("FROM python:3.11-slim

WORKDIR /app

RUN apt-get update && apt-get install -y \
    chromium \
    chromium-driver \
    && rm -rf /var/lib/apt/lists/*

COPY requirements.txt ./
RUN pip install --no-cache-dir -r requirements.txt

COPY . .

ENV HEADLESS=true

CMD [" ++ dq ++ "pytest" ++ dq ++ "]
")%string.

Definition generateDockerCompose (config : ProjectConfig) : string :=
  ("version: '3.8'

services:
  tests:
    build: .
    environment:
      - CI=true
      - HEADLESS=true
      - BASE_URL=${BASE_URL:-https://example.com}
    volumes:
      - ./test-results:/app/test-results
      - ./playwright-report:/app/playwright-report
")%string.

Definition generateRunScript : string :=
  ("#!/bin/bash

# Run all tests
run_all() {
    npm test
}

# Run UI tests only
run_ui() {
    npm run test:ui
}

# Run API tests only
run_api() {
    npm run test:api
}

# Run in headed mode
run_headed() {
    npm run test:headed
}

# Show report
show_report() {
    npm run report
}

case " ++ dq ++ "$1" ++ dq ++ " in
    all)
        run_all
        ;;
    ui)
        run_ui
        ;;
    api)
        run_api
        ;;
    headed)
        run_headed
        ;;
    report)
        show_report
        ;;
    *)
        echo " ++ dq ++ "Usage: $0 {all|ui|api|headed|report}" ++ dq ++ "
        exit 1
        ;;
esac
")%string.

Definition generateTsFixture : string :=
  ("import { test as base } from '@playwright/test';
import { LoginPage } from '../pages/LoginPage';

type Fixtures = {
  loginPage: LoginPage;
};

export const test = base.extend<Fixtures>({
  loginPage: async ({ page }, use) => {
    const loginPage = new LoginPage(page);
    await use(loginPage);
  },
});

export { expect } from '@playwright/test';
")%string.

Definition generateTsHelpers : string :=
  ("/**
 * Utility helper functions for tests
 */

export function generateRandomString(length: number = 10): string {
  const chars = 'abcdefghijklmnopqrstuvwxyz0123456789';
  let result = '';
  for (let i = 0; i < length; i++) {
    result += chars.charAt(Math.floor(Math.random() * chars.length));
  }
  return result;
}

export function formatDate(date: Date): string {
  return date.toISOString().split('T')[0];
}

export async function retry<T>(
  fn: () => Promise<T>,
  maxAttempts: number = 3,
  delayMs: number = 1000
): Promise<T> {
  let lastError: Error | undefined;
  
  for (let attempt = 1; attempt <= maxAttempts; attempt++) {
    try {
      return await fn();
    } catch (error) {
      lastError = error as Error;
      if (attempt < maxAttempts) {
        await new Promise(resolve => setTimeout(resolve, delayMs));
      }
    }
  }
  
  throw lastError;
}
")%string.

Definition generateTsHomeSpec : string :=
  ("import { test, expect } from '@playwright/test';

test.describe('Home Page Tests', () => {
  test.beforeEach(async ({ page }) => {
    await page.goto('/');
  });

  test('should load the home page', async ({ page }) => {
    await expect(page).toHaveTitle(/Example/);
  });

  test('should have main navigation', async ({ page }) => {
    const nav = page.locator('nav');
    await expect(nav).toBeVisible();
  });

  test('should display hero section', async ({ page }) => {
    const hero = page.locator('[data-testid=" ++ dq ++ "hero" ++ dq ++ "]').or(page.locator('h1').first());
    await expect(hero).toBeVisible();
  });
});
")%string.

Definition generateTsHealthSpec : string :=
  ("import { test, expect } from '@playwright/test';

test.describe('Health Check API Tests', () => {
  const baseURL = process.env.API_BASE_URL || 'https://jsonplaceholder.typicode.com';

  test('API should be reachable', async ({ request }) => {
    const response = await request.get(`${baseURL}/posts/1`);
    expect(response.ok()).toBeTruthy();
  });

  test('API should return valid JSON', async ({ request }) => {
    const response = await request.get(`${baseURL}/posts/1`);
    const contentType = response.headers()['content-type'];
    expect(contentType).toContain('application/json');
  });

  test('API should handle not found gracefully', async ({ request }) => {
    const response = await request.get(`${baseURL}/posts/999999`);
    expect(response.status()).toBe(404);
  });
});
")%string.

Definition generateJavaPom (config : ProjectConfig) : string :=
  let includeAllure := Js.includes ReportingOption_beq (reporting config) allure in
  ("<?xml version=" ++ dq ++ "1.0" ++ dq ++ " encoding=" ++ dq ++ "UTF-8" ++ dq ++ "?>
<project xmlns=" ++ dq ++ "http://maven.apache.org/POM/4.0.0" ++ dq ++ "
         xmlns:xsi=" ++ dq ++ "http://www.w3.org/2001/XMLSchema-instance" ++ dq ++ "
         xsi:schemaLocation=" ++ dq ++ "http://maven.apache.org/POM/4.0.0 http://maven.apache.org/xsd/maven-4.0.0.xsd" ++ dq ++ ">
    <modelVersion>4.0.0</modelVersion>

    <groupId>com.automation</groupId>
    <artifactId>"
  ++ (projectName config)
  ++ "</artifactId>
    <version>1.0.0</version>
    <packaging>jar</packaging>

    <name>"
  ++ (projectName config)
  ++ "</name>
    <description>"
  ++ (Js.orElse (description config) "Automation test framework")
  ++ "</description>

    <properties>
        <maven.compiler.source>17</maven.compiler.source>
        <maven.compiler.target>17</maven.compiler.target>
        <project.build.sourceEncoding>UTF-8</project.build.sourceEncoding>
        <selenium.version>4.15.0</selenium.version>
        <webdrivermanager.version>5.6.2</webdrivermanager.version>
        <junit.version>5.10.1</junit.version>
        <restassured.version>5.3.2</restassured.version>
        <log4j.version>2.22.0</log4j.version>
        <allure.version>2.24.0</allure.version>
        <aspectj.version>1.9.20.1</aspectj.version>
    </properties>

    <dependencies>
        <!-- JUnit 5 -->
        <dependency>
            <groupId>org.junit.jupiter</groupId>
            <artifactId>junit-jupiter</artifactId>
            <version>${junit.version}</version>
            <scope>test</scope>
        </dependency>
        <dependency>
            <groupId>org.junit.jupiter</groupId>
            <artifactId>junit-jupiter-params</artifactId>
            <version>${junit.version}</version>
            <scope>test</scope>
        </dependency>

"
  ++ (if (includeUI config) then ("        <!-- Selenium WebDriver -->
        <dependency>
            <groupId>org.seleniumhq.selenium</groupId>
            <artifactId>selenium-java</artifactId>
            <version>${selenium.version}</version>
        </dependency>

        <!-- WebDriverManager for automatic driver management -->
        <dependency>
            <groupId>io.github.bonigarcia</groupId>
            <artifactId>webdrivermanager</artifactId>
            <version>${webdrivermanager.version}</version>
        </dependency>
") else EmptyString)
  ++ "
"
  ++ (if (includeAPI config) then ("        <!-- REST Assured for API Testing -->
        <dependency>
            <groupId>io.rest-assured</groupId>
            <artifactId>rest-assured</artifactId>
            <version>${restassured.version}</version>
            <scope>test</scope>
        </dependency>
        <dependency>
            <groupId>io.rest-assured</groupId>
            <artifactId>json-path</artifactId>
            <version>${restassured.version}</version>
            <scope>test</scope>
        </dependency>
        <dependency>
            <groupId>io.rest-assured</groupId>
            <artifactId>json-schema-validator</artifactId>
            <version>${restassured.version}</version>
            <scope>test</scope>
        </dependency>
") else EmptyString)
  ++ "
"
  ++ (if includeAllure then ("        <!-- Allure Reporting -->
        <dependency>
            <groupId>io.qameta.allure</groupId>
            <artifactId>allure-junit5</artifactId>
            <version>${allure.version}</version>
            <scope>test</scope>
        </dependency>
") else EmptyString)
  ++ "
        <!-- Logging -->
        <dependency>
            <groupId>org.apache.logging.log4j</groupId>
            <artifactId>log4j-core</artifactId>
            <version>${log4j.version}</version>
        </dependency>
        <dependency>
            <groupId>org.apache.logging.log4j</groupId>
            <artifactId>log4j-api</artifactId>
            <version>${log4j.version}</version>
        </dependency>

        <!-- AssertJ for fluent assertions -->
        <dependency>
            <groupId>org.assertj</groupId>
            <artifactId>assertj-core</artifactId>
            <version>3.24.2</version>
            <scope>test</scope>
        </dependency>
    </dependencies>

    <build>
        <plugins>
            <plugin>
                <groupId>org.apache.maven.plugins</groupId>
                <artifactId>maven-compiler-plugin</artifactId>
                <version>3.11.0</version>
                <configuration>
                    <source>17</source>
                    <target>17</target>
                </configuration>
            </plugin>
            <plugin>
                <groupId>org.apache.maven.plugins</groupId>
                <artifactId>maven-surefire-plugin</artifactId>
                <version>3.2.2</version>
                <configuration>
                    <testFailureIgnore>false</testFailureIgnore>
                    <argLine>
                        -javaagent:" ++ dq ++ "${settings.localRepository}/org/aspectj/aspectjweaver/${aspectj.version}/aspectjweaver-${aspectj.version}.jar" ++ dq ++ "
                    </argLine>
                    <systemPropertyVariables>
                        <allure.results.directory>${project.build.directory}/allure-results</allure.results.directory>
                    </systemPropertyVariables>
                </configuration>
                <dependencies>
                    <dependency>
                        <groupId>org.aspectj</groupId>
                        <artifactId>aspectjweaver</artifactId>
                        <version>${aspectj.version}</version>
                    </dependency>
                </dependencies>
            </plugin>
"
  ++ (if includeAllure then ("            <plugin>
                <groupId>io.qameta.allure</groupId>
                <artifactId>allure-maven</artifactId>
                <version>2.12.0</version>
                <configuration>
                    <reportVersion>${allure.version}</reportVersion>
                </configuration>
            </plugin>
") else EmptyString)
  ++ "
        </plugins>
    </build>
</project>
")%string.

Definition generateJavaBaseTest (config : ProjectConfig) : string :=
  ("package com.automation.base;

import org.junit.jupiter.api.AfterEach;
import org.junit.jupiter.api.BeforeEach;
import org.apache.logging.log4j.LogManager;
import org.apache.logging.log4j.Logger;
"
  ++ (if (includeUI config) then ("import org.openqa.selenium.WebDriver;
import com.automation.utils.WebDriverFactory;
import com.automation.utils.ConfigReader;") else ("import com.automation.utils.ConfigReader;"))
  ++ "

/**
 * Base test class providing common setup and teardown functionality.
 * All test classes should extend this class.
 */
public abstract class BaseTest {

    protected static final Logger logger = LogManager.getLogger(BaseTest.class);
    protected ConfigReader config;
"
  ++ (if (includeUI config) then ("    protected WebDriver driver;") else EmptyString)
  ++ "

    @BeforeEach
    public void setUp() {
        logger.info(" ++ dq ++ "Setting up test..." ++ dq ++ ");
        config = new ConfigReader();
"
  ++ (if (includeUI config) then ("        
        String browser = config.getProperty(" ++ dq ++ "browser" ++ dq ++ ", " ++ dq ++ "chrome" ++ dq ++ ");
        boolean headless = Boolean.parseBoolean(config.getProperty(" ++ dq ++ "headless" ++ dq ++ ", " ++ dq ++ "true" ++ dq ++ "));
        
        driver = WebDriverFactory.createDriver(browser, headless);
        driver.manage().window().maximize();
        
        String baseUrl = config.getProperty(" ++ dq ++ "baseUrl" ++ dq ++ ", " ++ dq ++ "https://example.com" ++ dq ++ ");
        driver.get(baseUrl);
        logger.info(" ++ dq ++ "Navigated to: {}" ++ dq ++ ", baseUrl);") else EmptyString)
  ++ "
    }

    @AfterEach
    public void tearDown() {
        logger.info(" ++ dq ++ "Tearing down test..." ++ dq ++ ");
"
  ++ (if (includeUI config) then ("        if (driver != null) {
            driver.quit();
            logger.info(" ++ dq ++ "Browser closed" ++ dq ++ ");
        }") else EmptyString)
  ++ "
    }
}
")%string.

Definition generateJavaConfigReader : string :=
  ("package com.automation.utils;

import java.io.FileInputStream;
import java.io.IOException;
import java.util.Properties;
import org.apache.logging.log4j.LogManager;
import org.apache.logging.log4j.Logger;

/**
 * Configuration reader that loads properties from config.properties
 * and supports environment variable overrides.
 */
public class ConfigReader {

    private static final Logger logger = LogManager.getLogger(ConfigReader.class);
    private final Properties properties;

    public ConfigReader() {
        properties = new Properties();
        loadProperties();
    }

    private void loadProperties() {
        try (FileInputStream fis = new FileInputStream(" ++ dq ++ "src/test/resources/config.properties" ++ dq ++ ")) {
            properties.load(fis);
            logger.info(" ++ dq ++ "Configuration loaded successfully" ++ dq ++ ");
        } catch (IOException e) {
            logger.warn(" ++ dq ++ "Could not load config.properties: {}" ++ dq ++ ", e.getMessage());
        }
    }

    /**
     * Get property value with environment variable override support.
     * Environment variables take precedence over properties file.
     */
    public String getProperty(String key) {
        // Convert property key to env var format (e.g., base.url -> BASE_URL)
        String envKey = key.toUpperCase().replace(" ++ dq ++ "." ++ dq ++ ", " ++ dq ++ "_" ++ dq ++ ");
        String envValue = System.getenv(envKey);
        
        if (envValue != null && !envValue.isEmpty()) {
            return envValue;
        }
        return properties.getProperty(key);
    }

    /**
     * Get property value with default fallback.
     */
    public String getProperty(String key, String defaultValue) {
        String value = getProperty(key);
        return value != null ? value : defaultValue;
    }

    /**
     * Get property as integer.
     */
    public int getIntProperty(String key, int defaultValue) {
        String value = getProperty(key);
        try {
            return value != null ? Integer.parseInt(value) : defaultValue;
        } catch (NumberFormatException e) {
            return defaultValue;
        }
    }

    /**
     * Get property as boolean.
     */
    public boolean getBooleanProperty(String key, boolean defaultValue) {
        String value = getProperty(key);
        return value != null ? Boolean.parseBoolean(value) : defaultValue;
    }
}
")%string.

Definition generateJavaWebDriverFactory : string :=
  ("package com.automation.utils;

import io.github.bonigarcia.wdm.WebDriverManager;
import org.openqa.selenium.WebDriver;
import org.openqa.selenium.chrome.ChromeDriver;
import org.openqa.selenium.chrome.ChromeOptions;
import org.openqa.selenium.firefox.FirefoxDriver;
import org.openqa.selenium.firefox.FirefoxOptions;
import org.openqa.selenium.edge.EdgeDriver;
import org.openqa.selenium.edge.EdgeOptions;
import org.apache.logging.log4j.LogManager;
import org.apache.logging.log4j.Logger;

import java.time.Duration;

/**
 * Factory class for creating WebDriver instances.
 * Supports Chrome, Firefox, and Edge browsers.
 */
public class WebDriverFactory {

    private static final Logger logger = LogManager.getLogger(WebDriverFactory.class);
    private static final int DEFAULT_TIMEOUT = 10;

    private WebDriverFactory() {
        // Prevent instantiation
    }

    /**
     * Create a WebDriver instance for the specified browser.
     */
    public static WebDriver createDriver(String browser, boolean headless) {
        WebDriver driver;
        
        switch (browser.toLowerCase()) {
            case " ++ dq ++ "firefox" ++ dq ++ ":
                driver = createFirefoxDriver(headless);
                break;
            case " ++ dq ++ "edge" ++ dq ++ ":
                driver = createEdgeDriver(headless);
                break;
            case " ++ dq ++ "chrome" ++ dq ++ ":
            default:
                driver = createChromeDriver(headless);
                break;
        }
        
        configureDriver(driver);
        return driver;
    }

    private static WebDriver createChromeDriver(boolean headless) {
        logger.info(" ++ dq ++ "Initializing Chrome driver (headless: {})" ++ dq ++ ", headless);
        WebDriverManager.chromedriver().setup();
        
        ChromeOptions options = new ChromeOptions();
        if (headless) {
            options.addArguments(" ++ dq ++ "--headless=new" ++ dq ++ ");
        }
        options.addArguments(" ++ dq ++ "--no-sandbox" ++ dq ++ ");
        options.addArguments(" ++ dq ++ "--disable-dev-shm-usage" ++ dq ++ ");
        options.addArguments(" ++ dq ++ "--disable-gpu" ++ dq ++ ");
        options.addArguments(" ++ dq ++ "--window-size=1920,1080" ++ dq ++ ");
        options.addArguments(" ++ dq ++ "--remote-allow-origins=*" ++ dq ++ ");
        
        return new ChromeDriver(options);
    }

    private static WebDriver createFirefoxDriver(boolean headless) {
        logger.info(" ++ dq ++ "Initializing Firefox driver (headless: {})" ++ dq ++ ", headless);
        WebDriverManager.firefoxdriver().setup();
        
        FirefoxOptions options = new FirefoxOptions();
        if (headless) {
            options.addArguments(" ++ dq ++ "--headless" ++ dq ++ ");
        }
        options.addArguments(" ++ dq ++ "--width=1920" ++ dq ++ ");
        options.addArguments(" ++ dq ++ "--height=1080" ++ dq ++ ");
        
        return new FirefoxDriver(options);
    }

    private static WebDriver createEdgeDriver(boolean headless) {
        logger.info(" ++ dq ++ "Initializing Edge driver (headless: {})" ++ dq ++ ", headless);
        WebDriverManager.edgedriver().setup();
        
        EdgeOptions options = new EdgeOptions();
        if (headless) {
            options.addArguments(" ++ dq ++ "--headless=new" ++ dq ++ ");
        }
        options.addArguments(" ++ dq ++ "--no-sandbox" ++ dq ++ ");
        options.addArguments(" ++ dq ++ "--disable-dev-shm-usage" ++ dq ++ ");
        
        return new EdgeDriver(options);
    }

    private static void configureDriver(WebDriver driver) {
        driver.manage().timeouts().implicitlyWait(Duration.ofSeconds(DEFAULT_TIMEOUT));
        driver.manage().timeouts().pageLoadTimeout(Duration.ofSeconds(30));
        driver.manage().timeouts().scriptTimeout(Duration.ofSeconds(30));
    }
}
")%string.

Definition generateJavaBasePage : string :=
  ("package com.automation.pages;

import org.openqa.selenium.By;
import org.openqa.selenium.WebDriver;
import org.openqa.selenium.WebElement;
import org.openqa.selenium.support.ui.ExpectedConditions;
import org.openqa.selenium.support.ui.WebDriverWait;
import org.openqa.selenium.support.ui.Select;
import org.openqa.selenium.JavascriptExecutor;
import org.apache.logging.log4j.LogManager;
import org.apache.logging.log4j.Logger;

import java.time.Duration;
import java.util.List;

/**
 * Base page object class providing common web interactions.
 * All page objects should extend this class.
 */
public abstract class BasePage {

    protected static final Logger logger = LogManager.getLogger(BasePage.class);
    protected final WebDriver driver;
    protected final WebDriverWait wait;
    private static final int DEFAULT_TIMEOUT = 10;

    public BasePage(WebDriver driver) {
        this.driver = driver;
        this.wait = new WebDriverWait(driver, Duration.ofSeconds(DEFAULT_TIMEOUT));
    }

    // ============ Wait Methods ============

    protected WebElement waitForElement(By locator) {
        logger.debug(" ++ dq ++ "Waiting for element: {}" ++ dq ++ ", locator);
        return wait.until(ExpectedConditions.visibilityOfElementLocated(locator));
    }

    protected WebElement waitForClickable(By locator) {
        logger.debug(" ++ dq ++ "Waiting for clickable element: {}" ++ dq ++ ", locator);
        return wait.until(ExpectedConditions.elementToBeClickable(locator));
    }

    protected List<WebElement> waitForElements(By locator) {
        wait.until(ExpectedConditions.presenceOfAllElementsLocatedBy(locator));
        return driver.findElements(locator);
    }

    // ============ Interaction Methods ============

    protected void click(By locator) {
        logger.info(" ++ dq ++ "Clicking element: {}" ++ dq ++ ", locator);
        waitForClickable(locator).click();
    }

    protected void type(By locator, String text) {
        logger.info(" ++ dq ++ "Typing '{}' into element: {}" ++ dq ++ ", text, locator);
        WebElement element = waitForElement(locator);
        element.clear();
        element.sendKeys(text);
    }

    protected void clearAndType(By locator, String text) {
        WebElement element = waitForElement(locator);
        element.clear();
        element.sendKeys(text);
    }

    protected String getText(By locator) {
        String text = waitForElement(locator).getText();
        logger.debug(" ++ dq ++ "Got text '{}' from element: {}" ++ dq ++ ", text, locator);
        return text;
    }

    protected String getAttribute(By locator, String attribute) {
        return waitForElement(locator).getAttribute(attribute);
    }

    protected boolean isDisplayed(By locator) {
        try {
            return driver.findElement(locator).isDisplayed();
        } catch (Exception e) {
            return false;
        }
    }

    protected boolean isEnabled(By locator) {
        return waitForElement(locator).isEnabled();
    }

    // ============ Select Methods ============

    protected void selectByVisibleText(By locator, String text) {
        logger.info(" ++ dq ++ "Selecting '{}' from dropdown: {}" ++ dq ++ ", text, locator);
        Select select = new Select(waitForElement(locator));
        select.selectByVisibleText(text);
    }

    protected void selectByValue(By locator, String value) {
        Select select = new Select(waitForElement(locator));
        select.selectByValue(value);
    }

    protected void selectByIndex(By locator, int index) {
        Select select = new Select(waitForElement(locator));
        select.selectByIndex(index);
    }

    // ============ JavaScript Methods ============

    protected void scrollToElement(By locator) {
        WebElement element = waitForElement(locator);
        ((JavascriptExecutor) driver).executeScript(" ++ dq ++ "arguments[0].scrollIntoView(true);" ++ dq ++ ", element);
    }

    protected void clickWithJS(By locator) {
        WebElement element = waitForElement(locator);
        ((JavascriptExecutor) driver).executeScript(" ++ dq ++ "arguments[0].click();" ++ dq ++ ", element);
    }

    // ============ Navigation Methods ============

    protected void navigateTo(String url) {
        logger.info(" ++ dq ++ "Navigating to: {}" ++ dq ++ ", url);
        driver.get(url);
    }

    protected String getCurrentUrl() {
        return driver.getCurrentUrl();
    }

    protected String getTitle() {
        return driver.getTitle();
    }

    protected void refreshPage() {
        driver.navigate().refresh();
    }
}
")%string.

Definition generateJavaLoginPage : string :=
  ("package com.automation.pages;

import org.openqa.selenium.By;
import org.openqa.selenium.WebDriver;

/**
 * Page Object for the Login Page.
 * Encapsulates all login page interactions.
 */
public class LoginPage extends BasePage {

    // ============ Locators ============
    private final By usernameField = By.cssSelector(" ++ dq ++ "[data-testid='username']" ++ dq ++ ");
    private final By passwordField = By.cssSelector(" ++ dq ++ "[data-testid='password']" ++ dq ++ ");
    private final By submitButton = By.cssSelector(" ++ dq ++ "[data-testid='submit']" ++ dq ++ ");
    private final By errorMessage = By.cssSelector(" ++ dq ++ "[data-testid='error-message']" ++ dq ++ ");
    private final By forgotPasswordLink = By.cssSelector(" ++ dq ++ "[data-testid='forgot-password']" ++ dq ++ ");
    private final By rememberMeCheckbox = By.cssSelector(" ++ dq ++ "[data-testid='remember-me']" ++ dq ++ ");

    public LoginPage(WebDriver driver) {
        super(driver);
    }

    // ============ Actions ============

    /**
     * Enter username into the username field.
     */
    public LoginPage enterUsername(String username) {
        type(usernameField, username);
        return this;
    }

    /**
     * Enter password into the password field.
     */
    public LoginPage enterPassword(String password) {
        type(passwordField, password);
        return this;
    }

    /**
     * Click the submit/login button.
     */
    public void clickSubmit() {
        click(submitButton);
    }

    /**
     * Perform complete login with username and password.
     */
    public void login(String username, String password) {
        logger.info(" ++ dq ++ "Attempting login with username: {}" ++ dq ++ ", username);
        enterUsername(username);
        enterPassword(password);
        clickSubmit();
    }

    /**
     * Check the " ++ dq ++ "Remember Me" ++ dq ++ " checkbox.
     */
    public LoginPage checkRememberMe() {
        click(rememberMeCheckbox);
        return this;
    }

    /**
     * Click " ++ dq ++ "Forgot Password" ++ dq ++ " link.
     */
    public void clickForgotPassword() {
        click(forgotPasswordLink);
    }

    // ============ Verifications ============

    /**
     * Get the error message text.
     */
    public String getErrorMessage() {
        return getText(errorMessage);
    }

    /**
     * Check if error message is displayed.
     */
    public boolean isErrorDisplayed() {
        return isDisplayed(errorMessage);
    }

    /**
     * Check if login was successful by verifying URL contains dashboard.
     */
    public boolean isLoginSuccessful() {
        return getCurrentUrl().contains(" ++ dq ++ "dashboard" ++ dq ++ ");
    }

    /**
     * Check if username field is displayed.
     */
    public boolean isUsernameFieldDisplayed() {
        return isDisplayed(usernameField);
    }

    /**
     * Check if password field is displayed.
     */
    public boolean isPasswordFieldDisplayed() {
        return isDisplayed(passwordField);
    }

    /**
     * Check if submit button is enabled.
     */
    public boolean isSubmitButtonEnabled() {
        return isEnabled(submitButton);
    }
}
")%string.

Definition generateJavaHomePage : string :=
  ("package com.automation.pages;

import org.openqa.selenium.By;
import org.openqa.selenium.WebDriver;

/**
 * Page Object for the Home/Dashboard Page.
 */
public class HomePage extends BasePage {

    // ============ Locators ============
    private final By welcomeMessage = By.cssSelector(" ++ dq ++ "[data-testid='welcome-message']" ++ dq ++ ");
    private final By userMenu = By.cssSelector(" ++ dq ++ "[data-testid='user-menu']" ++ dq ++ ");
    private final By logoutButton = By.cssSelector(" ++ dq ++ "[data-testid='logout']" ++ dq ++ ");
    private final By navigationMenu = By.cssSelector(" ++ dq ++ "nav" ++ dq ++ ");

    public HomePage(WebDriver driver) {
        super(driver);
    }

    // ============ Actions ============

    /**
     * Click on user menu to open dropdown.
     */
    public HomePage openUserMenu() {
        click(userMenu);
        return this;
    }

    /**
     * Perform logout.
     */
    public void logout() {
        openUserMenu();
        click(logoutButton);
    }

    // ============ Verifications ============

    /**
     * Get welcome message text.
     */
    public String getWelcomeMessage() {
        return getText(welcomeMessage);
    }

    /**
     * Check if navigation menu is displayed.
     */
    public boolean isNavigationDisplayed() {
        return isDisplayed(navigationMenu);
    }

    /**
     * Check if user is on the home page.
     */
    public boolean isOnHomePage() {
        return getCurrentUrl().contains(" ++ dq ++ "dashboard" ++ dq ++ ") || getCurrentUrl().contains(" ++ dq ++ "home" ++ dq ++ ");
    }
}
")%string.

Definition generateJavaLoginTest : string :=
  ("package com.automation.tests;

import com.automation.base.BaseTest;
import com.automation.pages.LoginPage;
import org.junit.jupiter.api.BeforeEach;
import org.junit.jupiter.api.Test;
import org.junit.jupiter.api.DisplayName;
import org.junit.jupiter.api.Tag;

import static org.assertj.core.api.Assertions.*;

/**
 * Test class for Login functionality.
 */
@Tag(" ++ dq ++ "ui" ++ dq ++ ")
@Tag(" ++ dq ++ "login" ++ dq ++ ")
public class LoginTest extends BaseTest {

    private LoginPage loginPage;

    @BeforeEach
    public void setUpPage() {
        loginPage = new LoginPage(driver);
        driver.get(config.getProperty(" ++ dq ++ "baseUrl" ++ dq ++ ") + " ++ dq ++ "/login" ++ dq ++ ");
    }

    @Test
    @DisplayName(" ++ dq ++ "Login form should be visible" ++ dq ++ ")
    @Tag(" ++ dq ++ "smoke" ++ dq ++ ")
    public void testLoginFormIsVisible() {
        assertThat(loginPage.isUsernameFieldDisplayed())
            .as(" ++ dq ++ "Username field should be visible" ++ dq ++ ")
            .isTrue();
        
        assertThat(loginPage.isPasswordFieldDisplayed())
            .as(" ++ dq ++ "Password field should be visible" ++ dq ++ ")
            .isTrue();
        
        assertThat(loginPage.isSubmitButtonEnabled())
            .as(" ++ dq ++ "Submit button should be enabled" ++ dq ++ ")
            .isTrue();
    }

    @Test
    @DisplayName(" ++ dq ++ "Should show error for invalid credentials" ++ dq ++ ")
    public void testInvalidCredentialsShowError() {
        loginPage.login(" ++ dq ++ "invalid@email.com" ++ dq ++ ", " ++ dq ++ "wrongpassword" ++ dq ++ ");
        
        assertThat(loginPage.isErrorDisplayed())
            .as(" ++ dq ++ "Error message should be displayed" ++ dq ++ ")
            .isTrue();
        
        assertThat(loginPage.getErrorMessage())
            .as(" ++ dq ++ "Error message should indicate invalid credentials" ++ dq ++ ")
            .containsIgnoringCase(" ++ dq ++ "invalid" ++ dq ++ ");
    }

    @Test
    @DisplayName(" ++ dq ++ "Should show error for empty username" ++ dq ++ ")
    public void testEmptyUsernameShowsError() {
        loginPage.enterPassword(" ++ dq ++ "somepassword" ++ dq ++ ");
        loginPage.clickSubmit();
        
        assertThat(loginPage.isErrorDisplayed())
            .as(" ++ dq ++ "Error should be shown for empty username" ++ dq ++ ")
            .isTrue();
    }

    @Test
    @DisplayName(" ++ dq ++ "Should show error for empty password" ++ dq ++ ")
    public void testEmptyPasswordShowsError() {
        loginPage.enterUsername(" ++ dq ++ "test@example.com" ++ dq ++ ");
        loginPage.clickSubmit();
        
        assertThat(loginPage.isErrorDisplayed())
            .as(" ++ dq ++ "Error should be shown for empty password" ++ dq ++ ")
            .isTrue();
    }

    @Test
    @DisplayName(" ++ dq ++ "Should login successfully with valid credentials" ++ dq ++ ")
    @Tag(" ++ dq ++ "smoke" ++ dq ++ ")
    public void testValidCredentialsLogin() {
        String username = config.getProperty(" ++ dq ++ "testUsername" ++ dq ++ ", " ++ dq ++ "test@example.com" ++ dq ++ ");
        String password = config.getProperty(" ++ dq ++ "testPassword" ++ dq ++ ", " ++ dq ++ "password123" ++ dq ++ ");
        
        loginPage.login(username, password);
        
        assertThat(loginPage.isLoginSuccessful())
            .as(" ++ dq ++ "Should navigate to dashboard after successful login" ++ dq ++ ")
            .isTrue();
    }
}
")%string.

Definition generateJavaBaseApiClient : string :=
  ("package com.automation.api;

import io.restassured.RestAssured;
import io.restassured.http.ContentType;
import io.restassured.response.Response;
import io.restassured.specification.RequestSpecification;
import org.apache.logging.log4j.LogManager;
import org.apache.logging.log4j.Logger;

import java.util.Map;

/**
 * Base API client providing common REST operations.
 * All API test classes should use this client.
 */
public class BaseApiClient {

    protected static final Logger logger = LogManager.getLogger(BaseApiClient.class);
    protected final RequestSpecification requestSpec;
    protected final String baseUrl;

    public BaseApiClient() {
        this.baseUrl = System.getenv().getOrDefault(" ++ dq ++ "API_BASE_URL" ++ dq ++ ", " ++ dq ++ "https://jsonplaceholder.typicode.com" ++ dq ++ ");
        RestAssured.baseURI = baseUrl;
        
        this.requestSpec = RestAssured.given()
            .contentType(ContentType.JSON)
            .accept(ContentType.JSON)
            .log().ifValidationFails();
        
        logger.info(" ++ dq ++ "API Client initialized with base URL: {}" ++ dq ++ ", baseUrl);
    }

    public BaseApiClient(String baseUrl) {
        this.baseUrl = baseUrl;
        RestAssured.baseURI = baseUrl;
        
        this.requestSpec = RestAssured.given()
            .contentType(ContentType.JSON)
            .accept(ContentType.JSON)
            .log().ifValidationFails();
    }

    // ============ HTTP Methods ============

    public Response get(String endpoint) {
        logger.info(" ++ dq ++ "GET {}" ++ dq ++ ", endpoint);
        return requestSpec.get(endpoint);
    }

    public Response get(String endpoint, Map<String, ?> queryParams) {
        logger.info(" ++ dq ++ "GET {} with params: {}" ++ dq ++ ", endpoint, queryParams);
        return requestSpec.queryParams(queryParams).get(endpoint);
    }

    public Response post(String endpoint, Object body) {
        logger.info(" ++ dq ++ "POST {} with body: {}" ++ dq ++ ", endpoint, body);
        return requestSpec.body(body).post(endpoint);
    }

    public Response put(String endpoint, Object body) {
        logger.info(" ++ dq ++ "PUT {} with body: {}" ++ dq ++ ", endpoint, body);
        return requestSpec.body(body).put(endpoint);
    }

    public Response patch(String endpoint, Object body) {
        logger.info(" ++ dq ++ "PATCH {} with body: {}" ++ dq ++ ", endpoint, body);
        return requestSpec.body(body).patch(endpoint);
    }

    public Response delete(String endpoint) {
        logger.info(" ++ dq ++ "DELETE {}" ++ dq ++ ", endpoint);
        return requestSpec.delete(endpoint);
    }

    // ============ Helper Methods ============

    public RequestSpecification withAuth(String token) {
        return requestSpec.header(" ++ dq ++ "Authorization" ++ dq ++ ", " ++ dq ++ "Bearer " ++ dq ++ " + token);
    }

    public RequestSpecification withHeaders(Map<String, String> headers) {
        return requestSpec.headers(headers);
    }
}
")%string.

Definition generateJavaUsersApiTest : string :=
  ("package com.automation.api;

import io.restassured.response.Response;
import org.junit.jupiter.api.BeforeEach;
import org.junit.jupiter.api.Test;
import org.junit.jupiter.api.DisplayName;
import org.junit.jupiter.api.Tag;
import org.junit.jupiter.api.Nested;

import java.util.HashMap;
import java.util.Map;

import static org.assertj.core.api.Assertions.*;
import static org.hamcrest.Matchers.*;

/**
 * API tests for Users endpoints.
 */
@Tag(" ++ dq ++ "api" ++ dq ++ ")
@Tag(" ++ dq ++ "users" ++ dq ++ ")
public class UsersApiTest {

    private BaseApiClient apiClient;

    @BeforeEach
    public void setUp() {
        apiClient = new BaseApiClient();
    }

    @Nested
    @DisplayName(" ++ dq ++ "GET /users" ++ dq ++ ")
    class GetUsers {

        @Test
        @DisplayName(" ++ dq ++ "Should return list of users" ++ dq ++ ")
        @Tag(" ++ dq ++ "smoke" ++ dq ++ ")
        public void testGetAllUsers() {
            Response response = apiClient.get(" ++ dq ++ "/users" ++ dq ++ ");
            
            assertThat(response.getStatusCode())
                .as(" ++ dq ++ "Status code should be 200" ++ dq ++ ")
                .isEqualTo(200);
            
            assertThat(response.jsonPath().getList(" ++ dq ++ "$" ++ dq ++ "))
                .as(" ++ dq ++ "Should return a non-empty list" ++ dq ++ ")
                .isNotEmpty();
        }

        @Test
        @DisplayName(" ++ dq ++ "Should return users with correct structure" ++ dq ++ ")
        public void testUsersHaveCorrectStructure() {
            Response response = apiClient.get(" ++ dq ++ "/users" ++ dq ++ ");
            
            response.then()
                .body(" ++ dq ++ "[0].id" ++ dq ++ ", notNullValue())
                .body(" ++ dq ++ "[0].name" ++ dq ++ ", notNullValue())
                .body(" ++ dq ++ "[0].email" ++ dq ++ ", notNullValue())
                .body(" ++ dq ++ "[0].username" ++ dq ++ ", notNullValue());
        }
    }

    @Nested
    @DisplayName(" ++ dq ++ "GET /users/{id}" ++ dq ++ ")
    class GetUserById {

        @Test
        @DisplayName(" ++ dq ++ "Should return single user by ID" ++ dq ++ ")
        @Tag(" ++ dq ++ "smoke" ++ dq ++ ")
        public void testGetUserById() {
            Response response = apiClient.get(" ++ dq ++ "/users/1" ++ dq ++ ");
            
            assertThat(response.getStatusCode()).isEqualTo(200);
            assertThat(response.jsonPath().getInt(" ++ dq ++ "id" ++ dq ++ ")).isEqualTo(1);
            assertThat(response.jsonPath().getString(" ++ dq ++ "name" ++ dq ++ ")).isNotEmpty();
            assertThat(response.jsonPath().getString(" ++ dq ++ "email" ++ dq ++ ")).contains(" ++ dq ++ "@" ++ dq ++ ");
        }

        @Test
        @DisplayName(" ++ dq ++ "Should return 404 for non-existent user" ++ dq ++ ")
        public void testGetNonExistentUser() {
            Response response = apiClient.get(" ++ dq ++ "/users/999999" ++ dq ++ ");
            
            assertThat(response.getStatusCode()).isEqualTo(404);
        }
    }

    @Nested
    @DisplayName(" ++ dq ++ "POST /users" ++ dq ++ ")
    class CreateUser {

        @Test
        @DisplayName(" ++ dq ++ "Should create new user" ++ dq ++ ")
        @Tag(" ++ dq ++ "smoke" ++ dq ++ ")
        public void testCreateUser() {
            Map<String, Object> newUser = new HashMap<>();
            newUser.put(" ++ dq ++ "name" ++ dq ++ ", " ++ dq ++ "Test User" ++ dq ++ ");
            newUser.put(" ++ dq ++ "username" ++ dq ++ ", " ++ dq ++ "testuser" ++ dq ++ ");
            newUser.put(" ++ dq ++ "email" ++ dq ++ ", " ++ dq ++ "test@example.com" ++ dq ++ ");
            newUser.put(" ++ dq ++ "phone" ++ dq ++ ", " ++ dq ++ "1-234-567-8900" ++ dq ++ ");

            Response response = apiClient.post(" ++ dq ++ "/users" ++ dq ++ ", newUser);
            
            assertThat(response.getStatusCode()).isEqualTo(201);
            assertThat(response.jsonPath().getInt(" ++ dq ++ "id" ++ dq ++ ")).isPositive();
            assertThat(response.jsonPath().getString(" ++ dq ++ "name" ++ dq ++ ")).isEqualTo(" ++ dq ++ "Test User" ++ dq ++ ");
            assertThat(response.jsonPath().getString(" ++ dq ++ "email" ++ dq ++ ")).isEqualTo(" ++ dq ++ "test@example.com" ++ dq ++ ");
        }

        @Test
        @DisplayName(" ++ dq ++ "Should create user with all fields" ++ dq ++ ")
        public void testCreateUserWithAllFields() {
            Map<String, Object> address = new HashMap<>();
            address.put(" ++ dq ++ "street" ++ dq ++ ", " ++ dq ++ "123 Test St" ++ dq ++ ");
            address.put(" ++ dq ++ "city" ++ dq ++ ", " ++ dq ++ "Test City" ++ dq ++ ");
            address.put(" ++ dq ++ "zipcode" ++ dq ++ ", " ++ dq ++ "12345" ++ dq ++ ");

            Map<String, Object> newUser = new HashMap<>();
            newUser.put(" ++ dq ++ "name" ++ dq ++ ", " ++ dq ++ "Complete User" ++ dq ++ ");
            newUser.put(" ++ dq ++ "username" ++ dq ++ ", " ++ dq ++ "completeuser" ++ dq ++ ");
            newUser.put(" ++ dq ++ "email" ++ dq ++ ", " ++ dq ++ "complete@example.com" ++ dq ++ ");
            newUser.put(" ++ dq ++ "address" ++ dq ++ ", address);

            Response response = apiClient.post(" ++ dq ++ "/users" ++ dq ++ ", newUser);
            
            assertThat(response.getStatusCode()).isEqualTo(201);
            assertThat(response.jsonPath().getString(" ++ dq ++ "name" ++ dq ++ ")).isEqualTo(" ++ dq ++ "Complete User" ++ dq ++ ");
        }
    }

    @Nested
    @DisplayName(" ++ dq ++ "PUT /users/{id}" ++ dq ++ ")
    class UpdateUser {

        @Test
        @DisplayName(" ++ dq ++ "Should update existing user" ++ dq ++ ")
        public void testUpdateUser() {
            Map<String, Object> updatedUser = new HashMap<>();
            updatedUser.put(" ++ dq ++ "name" ++ dq ++ ", " ++ dq ++ "Updated Name" ++ dq ++ ");
            updatedUser.put(" ++ dq ++ "email" ++ dq ++ ", " ++ dq ++ "updated@example.com" ++ dq ++ ");

            Response response = apiClient.put(" ++ dq ++ "/users/1" ++ dq ++ ", updatedUser);
            
            assertThat(response.getStatusCode()).isEqualTo(200);
            assertThat(response.jsonPath().getString(" ++ dq ++ "name" ++ dq ++ ")).isEqualTo(" ++ dq ++ "Updated Name" ++ dq ++ ");
        }
    }

    @Nested
    @DisplayName(" ++ dq ++ "DELETE /users/{id}" ++ dq ++ ")
    class DeleteUser {

        @Test
        @DisplayName(" ++ dq ++ "Should delete existing user" ++ dq ++ ")
        public void testDeleteUser() {
            Response response = apiClient.delete(" ++ dq ++ "/users/1" ++ dq ++ ");
            
            assertThat(response.getStatusCode()).isEqualTo(200);
        }
    }
}
")%string.

Definition generateJavaPostsApiTest : string :=
  ("package com.automation.api;

import io.restassured.response.Response;
import org.junit.jupiter.api.BeforeEach;
import org.junit.jupiter.api.Test;
import org.junit.jupiter.api.DisplayName;
import org.junit.jupiter.api.Tag;

import java.util.HashMap;
import java.util.Map;

import static org.assertj.core.api.Assertions.*;

/**
 * API tests for Posts endpoints.
 */
@Tag(" ++ dq ++ "api" ++ dq ++ ")
@Tag(" ++ dq ++ "posts" ++ dq ++ ")
public class PostsApiTest {

    private BaseApiClient apiClient;

    @BeforeEach
    public void setUp() {
        apiClient = new BaseApiClient();
    }

    @Test
    @DisplayName(" ++ dq ++ "GET /posts - Should return list of posts" ++ dq ++ ")
    @Tag(" ++ dq ++ "smoke" ++ dq ++ ")
    public void testGetAllPosts() {
        Response response = apiClient.get(" ++ dq ++ "/posts" ++ dq ++ ");
        
        assertThat(response.getStatusCode()).isEqualTo(200);
        assertThat(response.jsonPath().getList(" ++ dq ++ "$" ++ dq ++ ")).hasSizeGreaterThan(0);
    }

    @Test
    @DisplayName(" ++ dq ++ "GET /posts/1 - Should return single post" ++ dq ++ ")
    public void testGetPostById() {
        Response response = apiClient.get(" ++ dq ++ "/posts/1" ++ dq ++ ");
        
        assertThat(response.getStatusCode()).isEqualTo(200);
        assertThat(response.jsonPath().getInt(" ++ dq ++ "id" ++ dq ++ ")).isEqualTo(1);
        assertThat(response.jsonPath().getInt(" ++ dq ++ "userId" ++ dq ++ ")).isPositive();
        assertThat(response.jsonPath().getString(" ++ dq ++ "title" ++ dq ++ ")).isNotEmpty();
        assertThat(response.jsonPath().getString(" ++ dq ++ "body" ++ dq ++ ")).isNotEmpty();
    }

    @Test
    @DisplayName(" ++ dq ++ "GET /posts?userId=1 - Should filter posts by user" ++ dq ++ ")
    public void testGetPostsByUser() {
        Map<String, Integer> params = new HashMap<>();
        params.put(" ++ dq ++ "userId" ++ dq ++ ", 1);
        
        Response response = apiClient.get(" ++ dq ++ "/posts" ++ dq ++ ", params);
        
        assertThat(response.getStatusCode()).isEqualTo(200);
        assertThat(response.jsonPath().getList(" ++ dq ++ "$" ++ dq ++ ")).isNotEmpty();
        
        // Verify all returned posts belong to userId 1
        response.jsonPath().getList(" ++ dq ++ "userId" ++ dq ++ ", Integer.class)
            .forEach(userId -> assertThat(userId).isEqualTo(1));
    }

    @Test
    @DisplayName(" ++ dq ++ "POST /posts - Should create new post" ++ dq ++ ")
    public void testCreatePost() {
        Map<String, Object> newPost = new HashMap<>();
        newPost.put(" ++ dq ++ "title" ++ dq ++ ", " ++ dq ++ "Test Post Title" ++ dq ++ ");
        newPost.put(" ++ dq ++ "body" ++ dq ++ ", " ++ dq ++ "This is the body of the test post." ++ dq ++ ");
        newPost.put(" ++ dq ++ "userId" ++ dq ++ ", 1);

        Response response = apiClient.post(" ++ dq ++ "/posts" ++ dq ++ ", newPost);
        
        assertThat(response.getStatusCode()).isEqualTo(201);
        assertThat(response.jsonPath().getInt(" ++ dq ++ "id" ++ dq ++ ")).isPositive();
        assertThat(response.jsonPath().getString(" ++ dq ++ "title" ++ dq ++ ")).isEqualTo(" ++ dq ++ "Test Post Title" ++ dq ++ ");
    }
}
")%string.

Definition generateJavaConfigProperties : string :=
  ("# ============================================
# Test Configuration Properties
# ============================================

# Base URLs
baseUrl=https://example.com
apiBaseUrl=https://api.example.com

# Browser Configuration
browser=chrome
headless=true

# Timeouts (in seconds)
implicitWait=10
pageLoadTimeout=30
scriptTimeout=30

# Test Credentials (override with environment variables in CI)
testUsername=test@example.com
testPassword=password123

# Retry Configuration
maxRetries=2
retryDelayMs=1000
")%string.

Definition generateJavaLog4j : string :=
  ("<?xml version=" ++ dq ++ "1.0" ++ dq ++ " encoding=" ++ dq ++ "UTF-8" ++ dq ++ "?>
<Configuration status=" ++ dq ++ "WARN" ++ dq ++ ">
    <Properties>
        <Property name=" ++ dq ++ "LOG_PATTERN" ++ dq ++ ">%d{yyyy-MM-dd HH:mm:ss.SSS} [%t] %-5level %logger{36} - %msg%n</Property>
        <Property name=" ++ dq ++ "LOG_DIR" ++ dq ++ ">target/logs</Property>
    </Properties>

    <Appenders>
        <!-- Console Appender -->
        <Console name=" ++ dq ++ "Console" ++ dq ++ " target=" ++ dq ++ "SYSTEM_OUT" ++ dq ++ ">
            <PatternLayout pattern=" ++ dq ++ "${LOG_PATTERN}" ++ dq ++ "/>
        </Console>

        <!-- File Appender -->
        <RollingFile name=" ++ dq ++ "FileAppender" ++ dq ++ " 
                     fileName=" ++ dq ++ "${LOG_DIR}/test-automation.log" ++ dq ++ "
                     filePattern=" ++ dq ++ "${LOG_DIR}/test-automation-%d{yyyy-MM-dd}-%i.log.gz" ++ dq ++ ">
            <PatternLayout pattern=" ++ dq ++ "${LOG_PATTERN}" ++ dq ++ "/>
            <Policies>
                <TimeBasedTriggeringPolicy interval=" ++ dq ++ "1" ++ dq ++ "/>
                <SizeBasedTriggeringPolicy size=" ++ dq ++ "10MB" ++ dq ++ "/>
            </Policies>
            <DefaultRolloverStrategy max=" ++ dq ++ "10" ++ dq ++ "/>
        </RollingFile>
    </Appenders>

    <Loggers>
        <!-- Application Logger -->
        <Logger name=" ++ dq ++ "com.automation" ++ dq ++ " level=" ++ dq ++ "DEBUG" ++ dq ++ " additivity=" ++ dq ++ "false" ++ dq ++ ">
            <AppenderRef ref=" ++ dq ++ "Console" ++ dq ++ "/>
            <AppenderRef ref=" ++ dq ++ "FileAppender" ++ dq ++ "/>
        </Logger>

        <!-- Selenium Logger - reduce noise -->
        <Logger name=" ++ dq ++ "org.openqa.selenium" ++ dq ++ " level=" ++ dq ++ "WARN" ++ dq ++ "/>
        
        <!-- REST Assured Logger -->
        <Logger name=" ++ dq ++ "io.restassured" ++ dq ++ " level=" ++ dq ++ "WARN" ++ dq ++ "/>

        <!-- Root Logger -->
        <Root level=" ++ dq ++ "INFO" ++ dq ++ ">
            <AppenderRef ref=" ++ dq ++ "Console" ++ dq ++ "/>
            <AppenderRef ref=" ++ dq ++ "FileAppender" ++ dq ++ "/>
        </Root>
    </Loggers>
</Configuration>
")%string.

Definition generateJavaTestUtils : string :=
  ("package com.automation.utils;

import org.openqa.selenium.OutputType;
import org.openqa.selenium.TakesScreenshot;
import org.openqa.selenium.WebDriver;
import org.apache.logging.log4j.LogManager;
import org.apache.logging.log4j.Logger;

import java.io.File;
import java.io.IOException;
import java.nio.file.Files;
import java.nio.file.Path;
import java.nio.file.Paths;
import java.time.LocalDateTime;
import java.time.format.DateTimeFormatter;
import java.util.Random;

/**
 * Utility class providing common test helper methods.
 */
public class TestUtils {

    private static final Logger logger = LogManager.getLogger(TestUtils.class);
    private static final Random random = new Random();

    private TestUtils() {
        // Prevent instantiation
    }

    /**
     * Take a screenshot and save to specified directory.
     */
    public static String takeScreenshot(WebDriver driver, String testName) {
        try {
            File screenshot = ((TakesScreenshot) driver).getScreenshotAs(OutputType.FILE);
            String timestamp = LocalDateTime.now().format(DateTimeFormatter.ofPattern(" ++ dq ++ "yyyyMMdd_HHmmss" ++ dq ++ "));
            String fileName = String.format(" ++ dq ++ "%s_%s.png" ++ dq ++ ", testName, timestamp);
            
            Path screenshotDir = Paths.get(" ++ dq ++ "target" ++ dq ++ ", " ++ dq ++ "screenshots" ++ dq ++ ");
            Files.createDirectories(screenshotDir);
            
            Path destination = screenshotDir.resolve(fileName);
            Files.copy(screenshot.toPath(), destination);
            
            logger.info(" ++ dq ++ "Screenshot saved: {}" ++ dq ++ ", destination);
            return destination.toString();
        } catch (IOException e) {
            logger.error(" ++ dq ++ "Failed to save screenshot: {}" ++ dq ++ ", e.getMessage());
            return null;
        }
    }

    /**
     * Generate a random email address.
     */
    public static String generateRandomEmail() {
        return String.format(" ++ dq ++ "test.%d@example.com" ++ dq ++ ", System.currentTimeMillis());
    }

    /**
     * Generate a random string of specified length.
     */
    public static String generateRandomString(int length) {
        String chars = " ++ dq ++ "abcdefghijklmnopqrstuvwxyz0123456789" ++ dq ++ ";
        StringBuilder sb = new StringBuilder(length);
        for (int i = 0; i < length; i++) {
            sb.append(chars.charAt(random.nextInt(chars.length())));
        }
        return sb.toString();
    }

    /**
     * Wait for specified milliseconds.
     */
    public static void sleep(long milliseconds) {
        try {
            Thread.sleep(milliseconds);
        } catch (InterruptedException e) {
            Thread.currentThread().interrupt();
        }
    }

    /**
     * Get current timestamp as formatted string.
     */
    public static String getTimestamp() {
        return LocalDateTime.now().format(DateTimeFormatter.ofPattern(" ++ dq ++ "yyyy-MM-dd HH:mm:ss" ++ dq ++ "));
    }
}
")%string.

Definition generatePythonPyprojectToml (config : ProjectConfig) : string :=
  let isSelenium := Js.optionIs UIFramework_beq (uiFramework config) selenium in
  ("[tool.poetry]
name = " ++ dq
  ++ (projectName config)
  ++ dq ++ "
version = " ++ dq ++ "1.0.0" ++ dq ++ "
description = " ++ dq
  ++ (Js.orElse (description config) "Automation test framework")
  ++ dq ++ "
authors = [" ++ dq
  ++ (Js.orElse (author config) "Test Automation Team")
  ++ dq ++ "]
readme = " ++ dq ++ "README.md" ++ dq ++ "

[tool.poetry.dependencies]
python = " ++ dq ++ "^3.9" ++ dq ++ "
pytest = " ++ dq ++ "^7.4.0" ++ dq ++ "
pytest-html = " ++ dq ++ "^4.1.0" ++ dq ++ "
pytest-xdist = " ++ dq ++ "^3.5.0" ++ dq ++ "
python-dotenv = " ++ dq ++ "^1.0.0" ++ dq ++ "
requests = " ++ dq ++ "^2.31.0" ++ dq ++ "
"
  ++ (if (includeUI config) then (if isSelenium then ("selenium = " ++ dq ++ "^4.15.0" ++ dq ++ "
webdriver-manager = " ++ dq ++ "^4.0.0" ++ dq) else ("playwright = " ++ dq ++ "^1.40.0" ++ dq)) else EmptyString)
  ++ "

[tool.poetry.group.dev.dependencies]
black = " ++ dq ++ "^23.0.0" ++ dq ++ "
flake8 = " ++ dq ++ "^6.0.0" ++ dq ++ "
mypy = " ++ dq ++ "^1.7.0" ++ dq ++ "

[build-system]
requires = [" ++ dq ++ "poetry-core" ++ dq ++ "]
build-backend = " ++ dq ++ "poetry.core.masonry.api" ++ dq ++ "

[tool.pytest.ini_options]
testpaths = [" ++ dq ++ "tests" ++ dq ++ "]
python_files = [" ++ dq ++ "test_*.py" ++ dq ++ "]
python_classes = [" ++ dq ++ "Test*" ++ dq ++ "]
python_functions = [" ++ dq ++ "test_*" ++ dq ++ "]
addopts = " ++ dq ++ "-v --tb=short" ++ dq ++ "
markers = [
    " ++ dq ++ "ui: UI tests" ++ dq ++ ",
    " ++ dq ++ "api: API tests" ++ dq ++ ",
    " ++ dq ++ "smoke: Smoke tests" ++ dq ++ ",
]
")%string.

Definition generatePythonRequirements (config : ProjectConfig) : string :=
  let isSelenium := Js.optionIs UIFramework_beq (uiFramework config) selenium in
  ("# Core Testing
pytest>=7.4.0
pytest-html>=4.1.0
pytest-xdist>=3.5.0

# Environment
python-dotenv>=1.0.0

# API Testing
requests>=2.31.0

"
  ++ (if (includeUI config) then (if isSelenium then ("# UI Testing (Selenium)
selenium>=4.15.0
webdriver-manager>=4.0.0") else ("# UI Testing (Playwright)
playwright>=1.40.0")) else EmptyString)
  ++ "

# Utilities
Faker>=22.0.0

# Linting/Formatting (dev)
black>=23.0.0
flake8>=6.0.0
mypy>=1.7.0
")%string.

Definition generatePythonPytestIni : string :=
  ("[pytest]
testpaths = tests
python_files = test_*.py
python_classes = Test*
python_functions = test_*
addopts = -v --tb=short --html=reports/report.html --self-contained-html
markers =
    ui: UI tests
    api: API tests  
    smoke: Smoke tests
    regression: Regression tests
filterwarnings =
    ignore::DeprecationWarning
")%string.

Definition generatePythonConftest (config : ProjectConfig) : string :=
  let isSelenium := Js.optionIs UIFramework_beq (uiFramework config) selenium in
  if isSelenium && includeUI config then
    (dq ++ dq ++ dq ++ "
Pytest configuration and fixtures for Selenium.
" ++ dq ++ dq ++ dq ++ "
import pytest
import os
from dotenv import load_dotenv
from selenium import webdriver
from selenium.webdriver.chrome.service import Service
from selenium.webdriver.chrome.options import Options
from webdriver_manager.chrome import ChromeDriverManager

# Load environment variables
load_dotenv()


def pytest_configure(config):
    " ++ dq ++ dq ++ dq ++ "Configure pytest with custom markers and settings." ++ dq ++ dq ++ dq ++ "
    config.addinivalue_line(" ++ dq ++ "markers" ++ dq ++ ", " ++ dq ++ "ui: UI tests" ++ dq ++ ")
    config.addinivalue_line(" ++ dq ++ "markers" ++ dq ++ ", " ++ dq ++ "api: API tests" ++ dq ++ ")
    config.addinivalue_line(" ++ dq ++ "markers" ++ dq ++ ", " ++ dq ++ "smoke: Smoke tests" ++ dq ++ ")
    config.addinivalue_line(" ++ dq ++ "markers" ++ dq ++ ", " ++ dq ++ "regression: Regression tests" ++ dq ++ ")


def pytest_html_report_title(report):
    " ++ dq ++ dq ++ dq ++ "Customize HTML report title." ++ dq ++ dq ++ dq ++ "
    report.title = " ++ dq
  ++ (projectName config)
  ++ " Test Report" ++ dq ++ "


@pytest.fixture(scope=" ++ dq ++ "session" ++ dq ++ ")
def base_url():
    " ++ dq ++ dq ++ dq ++ "Get base URL from environment." ++ dq ++ dq ++ dq ++ "
    return os.getenv(" ++ dq ++ "BASE_URL" ++ dq ++ ", " ++ dq ++ "https://example.com" ++ dq ++ ")


@pytest.fixture(scope=" ++ dq ++ "session" ++ dq ++ ")
def api_base_url():
    " ++ dq ++ dq ++ dq ++ "Get API base URL from environment." ++ dq ++ dq ++ dq ++ "
    return os.getenv(" ++ dq ++ "API_BASE_URL" ++ dq ++ ", " ++ dq ++ "https://jsonplaceholder.typicode.com" ++ dq ++ ")


@pytest.fixture(scope=" ++ dq ++ "function" ++ dq ++ ")
def driver(base_url):
    " ++ dq ++ dq ++ dq ++ "Create WebDriver instance for each test." ++ dq ++ dq ++ dq ++ "
    chrome_options = Options()
    
    if os.getenv(" ++ dq ++ "HEADLESS" ++ dq ++ ", " ++ dq ++ "true" ++ dq ++ ").lower() == " ++ dq ++ "true" ++ dq ++ ":
        chrome_options.add_argument(" ++ dq ++ "--headless=new" ++ dq ++ ")
    
    chrome_options.add_argument(" ++ dq ++ "--no-sandbox" ++ dq ++ ")
    chrome_options.add_argument(" ++ dq ++ "--disable-dev-shm-usage" ++ dq ++ ")
    chrome_options.add_argument(" ++ dq ++ "--window-size=1920,1080" ++ dq ++ ")
    
    service = Service(ChromeDriverManager().install())
    driver = webdriver.Chrome(service=service, options=chrome_options)
    driver.implicitly_wait(10)
    driver.get(base_url)
    
    yield driver
    
    driver.quit()


@pytest.fixture(scope=" ++ dq ++ "session" ++ dq ++ ")
def api_session():
    " ++ dq ++ dq ++ dq ++ "Create requests session for API tests." ++ dq ++ dq ++ dq ++ "
    import requests
    session = requests.Session()
    session.headers.update({
        " ++ dq ++ "Content-Type" ++ dq ++ ": " ++ dq ++ "application/json" ++ dq ++ ",
        " ++ dq ++ "Accept" ++ dq ++ ": " ++ dq ++ "application/json" ++ dq ++ ",
    })
    yield session
    session.close()
")%string
  else
    (dq ++ dq ++ dq ++ "
Pytest configuration and fixtures.
" ++ dq ++ dq ++ dq ++ "
import pytest
import os
from dotenv import load_dotenv
"
  ++ (if (includeUI config) then ("from playwright.sync_api import sync_playwright, Browser, Page, BrowserContext") else EmptyString)
  ++ "

# Load environment variables
load_dotenv()


def pytest_configure(config):
    " ++ dq ++ dq ++ dq ++ "Configure pytest with custom markers and settings." ++ dq ++ dq ++ dq ++ "
    config.addinivalue_line(" ++ dq ++ "markers" ++ dq ++ ", " ++ dq ++ "ui: UI tests" ++ dq ++ ")
    config.addinivalue_line(" ++ dq ++ "markers" ++ dq ++ ", " ++ dq ++ "api: API tests" ++ dq ++ ")
    config.addinivalue_line(" ++ dq ++ "markers" ++ dq ++ ", " ++ dq ++ "smoke: Smoke tests" ++ dq ++ ")
    config.addinivalue_line(" ++ dq ++ "markers" ++ dq ++ ", " ++ dq ++ "regression: Regression tests" ++ dq ++ ")


def pytest_html_report_title(report):
    " ++ dq ++ dq ++ dq ++ "Customize HTML report title." ++ dq ++ dq ++ dq ++ "
    report.title = " ++ dq
  ++ (projectName config)
  ++ " Test Report" ++ dq ++ "


@pytest.fixture(scope=" ++ dq ++ "session" ++ dq ++ ")
def base_url():
    " ++ dq ++ dq ++ dq ++ "Get base URL from environment." ++ dq ++ dq ++ dq ++ "
    return os.getenv(" ++ dq ++ "BASE_URL" ++ dq ++ ", " ++ dq ++ "https://example.com" ++ dq ++ ")


@pytest.fixture(scope=" ++ dq ++ "session" ++ dq ++ ")
def api_base_url():
    " ++ dq ++ dq ++ dq ++ "Get API base URL from environment." ++ dq ++ dq ++ dq ++ "
    return os.getenv(" ++ dq ++ "API_BASE_URL" ++ dq ++ ", " ++ dq ++ "https://jsonplaceholder.typicode.com" ++ dq ++ ")

"
  ++ (if (includeUI config) then ("
@pytest.fixture(scope=" ++ dq ++ "session" ++ dq ++ ")
def browser():
    " ++ dq ++ dq ++ dq ++ "Create browser instance for the test session." ++ dq ++ dq ++ dq ++ "
    with sync_playwright() as p:
        browser = p.chromium.launch(
            headless=os.getenv(" ++ dq ++ "HEADLESS" ++ dq ++ ", " ++ dq ++ "true" ++ dq ++ ").lower() == " ++ dq ++ "true" ++ dq ++ "
        )
        yield browser
        browser.close()


@pytest.fixture(scope=" ++ dq ++ "function" ++ dq ++ ")
def context(browser: Browser):
    " ++ dq ++ dq ++ dq ++ "Create new browser context for each test." ++ dq ++ dq ++ dq ++ "
    context = browser.new_context(
        viewport={" ++ dq ++ "width" ++ dq ++ ": 1920, " ++ dq ++ "height" ++ dq ++ ": 1080},
        record_video_dir=" ++ dq ++ "test-results/videos" ++ dq ++ " if os.getenv(" ++ dq ++ "RECORD_VIDEO" ++ dq ++ ") else None,
    )
    yield context
    context.close()


@pytest.fixture(scope=" ++ dq ++ "function" ++ dq ++ ")
def page(context: BrowserContext, base_url: str):
    " ++ dq ++ dq ++ dq ++ "Create new page for each test." ++ dq ++ dq ++ dq ++ "
    page = context.new_page()
    page.set_default_timeout(30000)
    page.goto(base_url)
    yield page
    page.close()
") else EmptyString)
  ++ "

@pytest.fixture(scope=" ++ dq ++ "session" ++ dq ++ ")
def api_session():
    " ++ dq ++ dq ++ dq ++ "Create requests session for API tests." ++ dq ++ dq ++ dq ++ "
    import requests
    session = requests.Session()
    session.headers.update({
        " ++ dq ++ "Content-Type" ++ dq ++ ": " ++ dq ++ "application/json" ++ dq ++ ",
        " ++ dq ++ "Accept" ++ dq ++ ": " ++ dq ++ "application/json" ++ dq ++ ",
    })
    yield session
    session.close()
")%string.

Definition generatePythonConfig : string :=
  (dq ++ dq ++ dq ++ "
Configuration management module.
" ++ dq ++ dq ++ dq ++ "
import os
from dataclasses import dataclass
from typing import Optional
from dotenv import load_dotenv

load_dotenv()


@dataclass
class Config:
    " ++ dq ++ dq ++ dq ++ "Test configuration settings." ++ dq ++ dq ++ dq ++ "
    base_url: str
    api_base_url: str
    timeout: int
    headless: bool
    browser: str
    retries: int
    
    @classmethod
    def from_env(cls, env: str = " ++ dq ++ "dev" ++ dq ++ ") -> " ++ dq ++ "Config" ++ dq ++ ":
        " ++ dq ++ dq ++ dq ++ "Load configuration from environment variables." ++ dq ++ dq ++ dq ++ "
        return cls(
            base_url=os.getenv(" ++ dq ++ "BASE_URL" ++ dq ++ ", " ++ dq ++ "https://example.com" ++ dq ++ "),
            api_base_url=os.getenv(" ++ dq ++ "API_BASE_URL" ++ dq ++ ", " ++ dq ++ "https://api.example.com" ++ dq ++ "),
            timeout=int(os.getenv(" ++ dq ++ "TIMEOUT" ++ dq ++ ", " ++ dq ++ "30000" ++ dq ++ ")),
            headless=os.getenv(" ++ dq ++ "HEADLESS" ++ dq ++ ", " ++ dq ++ "true" ++ dq ++ ").lower() == " ++ dq ++ "true" ++ dq ++ ",
            browser=os.getenv(" ++ dq ++ "BROWSER" ++ dq ++ ", " ++ dq ++ "chromium" ++ dq ++ "),
            retries=int(os.getenv(" ++ dq ++ "RETRIES" ++ dq ++ ", " ++ dq ++ "0" ++ dq ++ ")),
        )


# Default config instance
config = Config.from_env()


def get_config(env: Optional[str] = None) -> Config:
    " ++ dq ++ dq ++ dq ++ "Get configuration for specified environment." ++ dq ++ dq ++ dq ++ "
    return Config.from_env(env or os.getenv(" ++ dq ++ "ENV" ++ dq ++ ", " ++ dq ++ "dev" ++ dq ++ "))
")%string.

Definition generatePythonBasePage (config : ProjectConfig) : string :=
  let isSelenium := Js.optionIs UIFramework_beq (uiFramework config) selenium in
  if isSelenium then
    (dq ++ dq ++ dq ++ "
Base page object class providing common web interactions for Selenium.
" ++ dq ++ dq ++ dq ++ "
from selenium.webdriver.remote.webdriver import WebDriver
from selenium.webdriver.remote.webelement import WebElement
from selenium.webdriver.common.by import By
from selenium.webdriver.support.ui import WebDriverWait
from selenium.webdriver.support import expected_conditions as EC
from selenium.webdriver.support.ui import Select
from typing import Optional, List
import logging

logger = logging.getLogger(__name__)


class BasePage:
    " ++ dq ++ dq ++ dq ++ "
    Base page object class for Selenium.
    All page objects should inherit from this class.
    " ++ dq ++ dq ++ dq ++ "

    def __init__(self, driver: WebDriver):
        self.driver = driver
        self.wait = WebDriverWait(driver, 10)

    # ============ Navigation ============

    def navigate(self, url: str) -> None:
        " ++ dq ++ dq ++ dq ++ "Navigate to a URL." ++ dq ++ dq ++ dq ++ "
        logger.info(f" ++ dq ++ "Navigating to: {url}" ++ dq ++ ")
        self.driver.get(url)

    def get_current_url(self) -> str:
        " ++ dq ++ dq ++ dq ++ "Get current page URL." ++ dq ++ dq ++ dq ++ "
        return self.driver.current_url

    def reload(self) -> None:
        " ++ dq ++ dq ++ dq ++ "Reload the current page." ++ dq ++ dq ++ dq ++ "
        self.driver.refresh()

    # ============ Wait Methods ============

    def wait_for_element(self, locator: tuple, timeout: int = 10) -> WebElement:
        " ++ dq ++ dq ++ dq ++ "Wait for element to be visible." ++ dq ++ dq ++ dq ++ "
        wait = WebDriverWait(self.driver, timeout)
        return wait.until(EC.visibility_of_element_located(locator))

    def wait_for_clickable(self, locator: tuple, timeout: int = 10) -> WebElement:
        " ++ dq ++ dq ++ dq ++ "Wait for element to be clickable." ++ dq ++ dq ++ dq ++ "
        wait = WebDriverWait(self.driver, timeout)
        return wait.until(EC.element_to_be_clickable(locator))

    def wait_for_url_contains(self, text: str, timeout: int = 10) -> bool:
        " ++ dq ++ dq ++ dq ++ "Wait for URL to contain text." ++ dq ++ dq ++ dq ++ "
        wait = WebDriverWait(self.driver, timeout)
        return wait.until(EC.url_contains(text))

    # ============ Interaction Methods ============

    def click(self, locator: tuple) -> None:
        " ++ dq ++ dq ++ dq ++ "Click on an element." ++ dq ++ dq ++ dq ++ "
        logger.debug(f" ++ dq ++ "Clicking: {locator}" ++ dq ++ ")
        element = self.wait_for_clickable(locator)
        element.click()

    def fill(self, locator: tuple, text: str) -> None:
        " ++ dq ++ dq ++ dq ++ "Fill text into an input field." ++ dq ++ dq ++ dq ++ "
        logger.debug(f" ++ dq ++ "Filling '{text}' into: {locator}" ++ dq ++ ")
        element = self.wait_for_element(locator)
        element.clear()
        element.send_keys(text)

    def clear(self, locator: tuple) -> None:
        " ++ dq ++ dq ++ dq ++ "Clear an input field." ++ dq ++ dq ++ dq ++ "
        element = self.wait_for_element(locator)
        element.clear()

    def select_option(self, locator: tuple, value: str) -> None:
        " ++ dq ++ dq ++ dq ++ "Select option from dropdown by value." ++ dq ++ dq ++ dq ++ "
        element = self.wait_for_element(locator)
        Select(element).select_by_value(value)

    # ============ Element State ============

    def is_visible(self, locator: tuple) -> bool:
        " ++ dq ++ dq ++ dq ++ "Check if element is visible." ++ dq ++ dq ++ dq ++ "
        try:
            element = self.driver.find_element(*locator)
            return element.is_displayed()
        except Exception:
            return False

    def is_enabled(self, locator: tuple) -> bool:
        " ++ dq ++ dq ++ dq ++ "Check if element is enabled." ++ dq ++ dq ++ dq ++ "
        try:
            element = self.driver.find_element(*locator)
            return element.is_enabled()
        except Exception:
            return False

    def get_text(self, locator: tuple) -> str:
        " ++ dq ++ dq ++ dq ++ "Get text content of element." ++ dq ++ dq ++ dq ++ "
        element = self.wait_for_element(locator)
        return element.text

    def get_attribute(self, locator: tuple, attribute: str) -> Optional[str]:
        " ++ dq ++ dq ++ dq ++ "Get attribute value of element." ++ dq ++ dq ++ dq ++ "
        element = self.wait_for_element(locator)
        return element.get_attribute(attribute)

    # ============ Screenshots ============

    def take_screenshot(self, name: str) -> bool:
        " ++ dq ++ dq ++ dq ++ "Take a screenshot." ++ dq ++ dq ++ dq ++ "
        return self.driver.save_screenshot(f" ++ dq ++ "screenshots/{name}.png" ++ dq ++ ")
")%string
  else
    (dq ++ dq ++ dq ++ "
Base page object class providing common web interactions.
" ++ dq ++ dq ++ dq ++ "
from playwright.sync_api import Page, Locator, expect
from typing import Optional
import logging

logger = logging.getLogger(__name__)


class BasePage:
    " ++ dq ++ dq ++ dq ++ "
    Base page object class.
    All page objects should inherit from this class.
    " ++ dq ++ dq ++ dq ++ "

    def __init__(self, page: Page):
        self.page = page

    # ============ Navigation ============

    def navigate(self, path: str = " ++ dq ++ "/" ++ dq ++ ") -> None:
        " ++ dq ++ dq ++ dq ++ "Navigate to a specific path." ++ dq ++ dq ++ dq ++ "
        logger.info(f" ++ dq ++ "Navigating to: {path}" ++ dq ++ ")
        self.page.goto(path)

    def get_current_url(self) -> str:
        " ++ dq ++ dq ++ dq ++ "Get current page URL." ++ dq ++ dq ++ dq ++ "
        return self.page.url

    def reload(self) -> None:
        " ++ dq ++ dq ++ dq ++ "Reload the current page." ++ dq ++ dq ++ dq ++ "
        self.page.reload()

    # ============ Wait Methods ============

    def wait_for_element(self, selector: str, timeout: int = 10000) -> Locator:
        " ++ dq ++ dq ++ dq ++ "Wait for element to be visible." ++ dq ++ dq ++ dq ++ "
        locator = self.page.locator(selector)
        locator.wait_for(state=" ++ dq ++ "visible" ++ dq ++ ", timeout=timeout)
        return locator

    def wait_for_url(self, url_pattern: str, timeout: int = 10000) -> None:
        " ++ dq ++ dq ++ dq ++ "Wait for URL to match pattern." ++ dq ++ dq ++ dq ++ "
        self.page.wait_for_url(url_pattern, timeout=timeout)

    def wait_for_load_state(self, state: str = " ++ dq ++ "networkidle" ++ dq ++ ") -> None:
        " ++ dq ++ dq ++ dq ++ "Wait for page load state." ++ dq ++ dq ++ dq ++ "
        self.page.wait_for_load_state(state)

    # ============ Interaction Methods ============

    def click(self, selector: str) -> None:
        " ++ dq ++ dq ++ dq ++ "Click on an element." ++ dq ++ dq ++ dq ++ "
        logger.debug(f" ++ dq ++ "Clicking: {selector}" ++ dq ++ ")
        self.page.click(selector)

    def fill(self, selector: str, text: str) -> None:
        " ++ dq ++ dq ++ dq ++ "Fill text into an input field." ++ dq ++ dq ++ dq ++ "
        logger.debug(f" ++ dq ++ "Filling '{text}' into: {selector}" ++ dq ++ ")
        self.page.fill(selector, text)

    def type_text(self, selector: str, text: str, delay: int = 50) -> None:
        " ++ dq ++ dq ++ dq ++ "Type text character by character." ++ dq ++ dq ++ dq ++ "
        self.page.type(selector, text, delay=delay)

    def clear(self, selector: str) -> None:
        " ++ dq ++ dq ++ dq ++ "Clear an input field." ++ dq ++ dq ++ dq ++ "
        self.page.fill(selector, " ++ dq ++ dq ++ ")

    def select_option(self, selector: str, value: str) -> None:
        " ++ dq ++ dq ++ dq ++ "Select option from dropdown." ++ dq ++ dq ++ dq ++ "
        self.page.select_option(selector, value)

    def check(self, selector: str) -> None:
        " ++ dq ++ dq ++ dq ++ "Check a checkbox." ++ dq ++ dq ++ dq ++ "
        self.page.check(selector)

    def uncheck(self, selector: str) -> None:
        " ++ dq ++ dq ++ dq ++ "Uncheck a checkbox." ++ dq ++ dq ++ dq ++ "
        self.page.uncheck(selector)

    # ============ Element State ============

    def is_visible(self, selector: str) -> bool:
        " ++ dq ++ dq ++ dq ++ "Check if element is visible." ++ dq ++ dq ++ dq ++ "
        return self.page.locator(selector).is_visible()

    def is_enabled(self, selector: str) -> bool:
        " ++ dq ++ dq ++ dq ++ "Check if element is enabled." ++ dq ++ dq ++ dq ++ "
        return self.page.locator(selector).is_enabled()

    def get_text(self, selector: str) -> str:
        " ++ dq ++ dq ++ dq ++ "Get text content of element." ++ dq ++ dq ++ dq ++ "
        return self.page.locator(selector).text_content() or " ++ dq ++ dq ++ "

    def get_input_value(self, selector: str) -> str:
        " ++ dq ++ dq ++ dq ++ "Get value of input field." ++ dq ++ dq ++ dq ++ "
        return self.page.locator(selector).input_value()

    def get_attribute(self, selector: str, attribute: str) -> Optional[str]:
        " ++ dq ++ dq ++ dq ++ "Get attribute value of element." ++ dq ++ dq ++ dq ++ "
        return self.page.locator(selector).get_attribute(attribute)

    # ============ Assertions ============

    def expect_visible(self, selector: str) -> None:
        " ++ dq ++ dq ++ dq ++ "Assert element is visible." ++ dq ++ dq ++ dq ++ "
        expect(self.page.locator(selector)).to_be_visible()

    def expect_hidden(self, selector: str) -> None:
        " ++ dq ++ dq ++ dq ++ "Assert element is hidden." ++ dq ++ dq ++ dq ++ "
        expect(self.page.locator(selector)).to_be_hidden()

    def expect_text(self, selector: str, text: str) -> None:
        " ++ dq ++ dq ++ dq ++ "Assert element contains text." ++ dq ++ dq ++ dq ++ "
        expect(self.page.locator(selector)).to_contain_text(text)

    def expect_url(self, url_pattern: str) -> None:
        " ++ dq ++ dq ++ dq ++ "Assert current URL matches pattern." ++ dq ++ dq ++ dq ++ "
        expect(self.page).to_have_url(url_pattern)

    # ============ Screenshots ============

    def take_screenshot(self, name: str) -> bytes:
        " ++ dq ++ dq ++ dq ++ "Take a screenshot." ++ dq ++ dq ++ dq ++ "
        return self.page.screenshot(path=f" ++ dq ++ "screenshots/{name}.png" ++ dq ++ ")
")%string.

Definition generatePythonLoginPage (config : ProjectConfig) : string :=
  let isSelenium := Js.optionIs UIFramework_beq (uiFramework config) selenium in
  if isSelenium then
    (dq ++ dq ++ dq ++ "
Login page object for Selenium.
" ++ dq ++ dq ++ dq ++ "
from selenium.webdriver.remote.webdriver import WebDriver
from selenium.webdriver.common.by import By
from src.pages.base_page import BasePage
import logging

logger = logging.getLogger(__name__)


class LoginPage(BasePage):
    " ++ dq ++ dq ++ dq ++ "
    Page object for the Login page (Selenium).
    " ++ dq ++ dq ++ dq ++ "

    # Locators (By.CSS_SELECTOR)
    USERNAME_INPUT = (By.CSS_SELECTOR, '[data-testid=" ++ dq ++ "username" ++ dq ++ "]')
    PASSWORD_INPUT = (By.CSS_SELECTOR, '[data-testid=" ++ dq ++ "password" ++ dq ++ "]')
    SUBMIT_BUTTON = (By.CSS_SELECTOR, '[data-testid=" ++ dq ++ "submit" ++ dq ++ "]')
    ERROR_MESSAGE = (By.CSS_SELECTOR, '[data-testid=" ++ dq ++ "error-message" ++ dq ++ "]')
    REMEMBER_ME_CHECKBOX = (By.CSS_SELECTOR, '[data-testid=" ++ dq ++ "remember-me" ++ dq ++ "]')
    FORGOT_PASSWORD_LINK = (By.CSS_SELECTOR, '[data-testid=" ++ dq ++ "forgot-password" ++ dq ++ "]')

    def __init__(self, driver: WebDriver):
        super().__init__(driver)

    # ============ Actions ============

    def enter_username(self, username: str) -> " ++ dq ++ "LoginPage" ++ dq ++ ":
        " ++ dq ++ dq ++ dq ++ "Enter username." ++ dq ++ dq ++ dq ++ "
        logger.info(f" ++ dq ++ "Entering username: {username}" ++ dq ++ ")
        self.fill(self.USERNAME_INPUT, username)
        return self

    def enter_password(self, password: str) -> " ++ dq ++ "LoginPage" ++ dq ++ ":
        " ++ dq ++ dq ++ dq ++ "Enter password." ++ dq ++ dq ++ dq ++ "
        logger.info(" ++ dq ++ "Entering password" ++ dq ++ ")
        self.fill(self.PASSWORD_INPUT, password)
        return self

    def click_submit(self) -> None:
        " ++ dq ++ dq ++ dq ++ "Click the submit button." ++ dq ++ dq ++ dq ++ "
        logger.info(" ++ dq ++ "Clicking submit button" ++ dq ++ ")
        self.click(self.SUBMIT_BUTTON)

    def login(self, username: str, password: str) -> None:
        " ++ dq ++ dq ++ dq ++ "Perform complete login flow." ++ dq ++ dq ++ dq ++ "
        logger.info(f" ++ dq ++ "Logging in as: {username}" ++ dq ++ ")
        self.enter_username(username)
        self.enter_password(password)
        self.click_submit()

    # ============ Validations ============

    def is_username_field_displayed(self) -> bool:
        " ++ dq ++ dq ++ dq ++ "Check if username field is visible." ++ dq ++ dq ++ dq ++ "
        return self.is_visible(self.USERNAME_INPUT)

    def is_password_field_displayed(self) -> bool:
        " ++ dq ++ dq ++ dq ++ "Check if password field is visible." ++ dq ++ dq ++ dq ++ "
        return self.is_visible(self.PASSWORD_INPUT)

    def is_submit_button_enabled(self) -> bool:
        " ++ dq ++ dq ++ dq ++ "Check if submit button is enabled." ++ dq ++ dq ++ dq ++ "
        return self.is_enabled(self.SUBMIT_BUTTON)

    def is_error_displayed(self) -> bool:
        " ++ dq ++ dq ++ dq ++ "Check if error message is displayed." ++ dq ++ dq ++ dq ++ "
        return self.is_visible(self.ERROR_MESSAGE)

    def get_error_message(self) -> str:
        " ++ dq ++ dq ++ dq ++ "Get error message text." ++ dq ++ dq ++ dq ++ "
        return self.get_text(self.ERROR_MESSAGE)

    def is_login_successful(self) -> bool:
        " ++ dq ++ dq ++ dq ++ "Check if login was successful (redirected to dashboard)." ++ dq ++ dq ++ dq ++ "
        return " ++ dq ++ "dashboard" ++ dq ++ " in self.get_current_url() or " ++ dq ++ "home" ++ dq ++ " in self.get_current_url()
")%string
  else
    (dq ++ dq ++ dq ++ "
Login page object.
" ++ dq ++ dq ++ dq ++ "
from playwright.sync_api import Page, expect
from src.pages.base_page import BasePage
import logging

logger = logging.getLogger(__name__)


class LoginPage(BasePage):
    " ++ dq ++ dq ++ dq ++ "
    Page object for the Login page.
    " ++ dq ++ dq ++ dq ++ "

    # Selectors
    USERNAME_INPUT = '[data-testid=" ++ dq ++ "username" ++ dq ++ "]'
    PASSWORD_INPUT = '[data-testid=" ++ dq ++ "password" ++ dq ++ "]'
    SUBMIT_BUTTON = '[data-testid=" ++ dq ++ "submit" ++ dq ++ "]'
    ERROR_MESSAGE = '[data-testid=" ++ dq ++ "error-message" ++ dq ++ "]'
    REMEMBER_ME_CHECKBOX = '[data-testid=" ++ dq ++ "remember-me" ++ dq ++ "]'
    FORGOT_PASSWORD_LINK = '[data-testid=" ++ dq ++ "forgot-password" ++ dq ++ "]'

    def __init__(self, page: Page):
        super().__init__(page)

    # ============ Actions ============

    def enter_username(self, username: str) -> " ++ dq ++ "LoginPage" ++ dq ++ ":
        " ++ dq ++ dq ++ dq ++ "Enter username." ++ dq ++ dq ++ dq ++ "
        logger.info(f" ++ dq ++ "Entering username: {username}" ++ dq ++ ")
        self.fill(self.USERNAME_INPUT, username)
        return self

    def enter_password(self, password: str) -> " ++ dq ++ "LoginPage" ++ dq ++ ":
        " ++ dq ++ dq ++ dq ++ "Enter password." ++ dq ++ dq ++ dq ++ "
        logger.info(" ++ dq ++ "Entering password" ++ dq ++ ")
        self.fill(self.PASSWORD_INPUT, password)
        return self

    def click_submit(self) -> None:
        " ++ dq ++ dq ++ dq ++ "Click the submit button." ++ dq ++ dq ++ dq ++ "
        logger.info(" ++ dq ++ "Clicking submit button" ++ dq ++ ")
        self.click(self.SUBMIT_BUTTON)

    def login(self, username: str, password: str) -> None:
        " ++ dq ++ dq ++ dq ++ "Perform complete login flow." ++ dq ++ dq ++ dq ++ "
        logger.info(f" ++ dq ++ "Logging in as: {username}" ++ dq ++ ")
        self.enter_username(username)
        self.enter_password(password)
        self.click_submit()

    def check_remember_me(self) -> " ++ dq ++ "LoginPage" ++ dq ++ ":
        " ++ dq ++ dq ++ dq ++ "Check the remember me checkbox." ++ dq ++ dq ++ dq ++ "
        self.check(self.REMEMBER_ME_CHECKBOX)
        return self

    def click_forgot_password(self) -> None:
        " ++ dq ++ dq ++ dq ++ "Click forgot password link." ++ dq ++ dq ++ dq ++ "
        self.click(self.FORGOT_PASSWORD_LINK)

    # ============ Validations ============

    def is_username_field_displayed(self) -> bool:
        " ++ dq ++ dq ++ dq ++ "Check if username field is visible." ++ dq ++ dq ++ dq ++ "
        return self.is_visible(self.USERNAME_INPUT)

    def is_password_field_displayed(self) -> bool:
        " ++ dq ++ dq ++ dq ++ "Check if password field is visible." ++ dq ++ dq ++ dq ++ "
        return self.is_visible(self.PASSWORD_INPUT)

    def is_submit_button_enabled(self) -> bool:
        " ++ dq ++ dq ++ dq ++ "Check if submit button is enabled." ++ dq ++ dq ++ dq ++ "
        return self.is_enabled(self.SUBMIT_BUTTON)

    def is_error_displayed(self) -> bool:
        " ++ dq ++ dq ++ dq ++ "Check if error message is displayed." ++ dq ++ dq ++ dq ++ "
        return self.is_visible(self.ERROR_MESSAGE)

    def get_error_message(self) -> str:
        " ++ dq ++ dq ++ dq ++ "Get error message text." ++ dq ++ dq ++ dq ++ "
        return self.get_text(self.ERROR_MESSAGE)

    def is_login_successful(self) -> bool:
        " ++ dq ++ dq ++ dq ++ "Check if login was successful (redirected to dashboard)." ++ dq ++ dq ++ dq ++ "
        return " ++ dq ++ "dashboard" ++ dq ++ " in self.get_current_url() or " ++ dq ++ "home" ++ dq ++ " in self.get_current_url()

    # ============ Assertions ============

    def expect_error_message(self, message: str) -> None:
        " ++ dq ++ dq ++ dq ++ "Assert error message contains text." ++ dq ++ dq ++ dq ++ "
        self.expect_text(self.ERROR_MESSAGE, message)

    def expect_login_success(self) -> None:
        " ++ dq ++ dq ++ dq ++ "Assert successful login (URL contains dashboard)." ++ dq ++ dq ++ dq ++ "
        expect(self.page).to_have_url(r" ++ dq ++ ".*dashboard.*" ++ dq ++ ")
")%string.

Definition generatePythonLoginTest (config : ProjectConfig) : string :=
  let isSelenium := Js.optionIs UIFramework_beq (uiFramework config) selenium in
  if isSelenium then
    (dq ++ dq ++ dq ++ "
Login page UI tests for Selenium.
" ++ dq ++ dq ++ dq ++ "
import pytest
from src.pages.login_page import LoginPage


@pytest.mark.ui
class TestLogin:
    " ++ dq ++ dq ++ dq ++ "Test class for Login functionality." ++ dq ++ dq ++ dq ++ "

    @pytest.fixture(autouse=True)
    def setup(self, driver, base_url):
        " ++ dq ++ dq ++ dq ++ "Set up login page for each test." ++ dq ++ dq ++ dq ++ "
        self.login_page = LoginPage(driver)
        driver.get(f" ++ dq ++ "{base_url}/login" ++ dq ++ ")

    @pytest.mark.smoke
    def test_login_form_is_visible(self):
        " ++ dq ++ dq ++ dq ++ "Test that login form elements are visible." ++ dq ++ dq ++ dq ++ "
        assert self.login_page.is_username_field_displayed(), \
            " ++ dq ++ "Username field should be visible" ++ dq ++ "
        assert self.login_page.is_password_field_displayed(), \
            " ++ dq ++ "Password field should be visible" ++ dq ++ "
        assert self.login_page.is_submit_button_enabled(), \
            " ++ dq ++ "Submit button should be enabled" ++ dq ++ "

    def test_invalid_credentials_shows_error(self):
        " ++ dq ++ dq ++ dq ++ "Test that invalid credentials show error message." ++ dq ++ dq ++ dq ++ "
        self.login_page.login(" ++ dq ++ "invalid@email.com" ++ dq ++ ", " ++ dq ++ "wrongpassword" ++ dq ++ ")
        
        assert self.login_page.is_error_displayed(), \
            " ++ dq ++ "Error message should be displayed" ++ dq ++ "
        error_text = self.login_page.get_error_message().lower()
        assert " ++ dq ++ "invalid" ++ dq ++ " in error_text or " ++ dq ++ "incorrect" ++ dq ++ " in error_text, \
            " ++ dq ++ "Error should mention invalid credentials" ++ dq ++ "

    def test_empty_username_shows_error(self):
        " ++ dq ++ dq ++ dq ++ "Test that empty username shows error." ++ dq ++ dq ++ dq ++ "
        self.login_page.enter_password(" ++ dq ++ "somepassword" ++ dq ++ ")
        self.login_page.click_submit()
        
        assert self.login_page.is_error_displayed(), \
            " ++ dq ++ "Error should be shown for empty username" ++ dq ++ "

    @pytest.mark.smoke
    def test_valid_credentials_login(self):
        " ++ dq ++ dq ++ dq ++ "Test successful login with valid credentials." ++ dq ++ dq ++ dq ++ "
        self.login_page.login(" ++ dq ++ "test@example.com" ++ dq ++ ", " ++ dq ++ "password123" ++ dq ++ ")
        
        assert self.login_page.is_login_successful(), \
            " ++ dq ++ "Should navigate to dashboard after successful login" ++ dq ++ "
")%string
  else
    (dq ++ dq ++ dq ++ "
Login page UI tests.
" ++ dq ++ dq ++ dq ++ "
import pytest
from src.pages.login_page import LoginPage


@pytest.mark.ui
class TestLogin:
    " ++ dq ++ dq ++ dq ++ "Test class for Login functionality." ++ dq ++ dq ++ dq ++ "

    @pytest.fixture(autouse=True)
    def setup(self, page, base_url):
        " ++ dq ++ dq ++ dq ++ "Set up login page for each test." ++ dq ++ dq ++ dq ++ "
        self.login_page = LoginPage(page)
        page.goto(f" ++ dq ++ "{base_url}/login" ++ dq ++ ")

    @pytest.mark.smoke
    def test_login_form_is_visible(self):
        " ++ dq ++ dq ++ dq ++ "Test that login form elements are visible." ++ dq ++ dq ++ dq ++ "
        assert self.login_page.is_username_field_displayed(), \
            " ++ dq ++ "Username field should be visible" ++ dq ++ "
        assert self.login_page.is_password_field_displayed(), \
            " ++ dq ++ "Password field should be visible" ++ dq ++ "
        assert self.login_page.is_submit_button_enabled(), \
            " ++ dq ++ "Submit button should be enabled" ++ dq ++ "

    def test_invalid_credentials_shows_error(self):
        " ++ dq ++ dq ++ dq ++ "Test that invalid credentials show error message." ++ dq ++ dq ++ dq ++ "
        self.login_page.login(" ++ dq ++ "invalid@email.com" ++ dq ++ ", " ++ dq ++ "wrongpassword" ++ dq ++ ")
        
        assert self.login_page.is_error_displayed(), \
            " ++ dq ++ "Error message should be displayed" ++ dq ++ "
        error_text = self.login_page.get_error_message().lower()
        assert " ++ dq ++ "invalid" ++ dq ++ " in error_text or " ++ dq ++ "incorrect" ++ dq ++ " in error_text, \
            " ++ dq ++ "Error should mention invalid credentials" ++ dq ++ "

    def test_empty_username_shows_error(self):
        " ++ dq ++ dq ++ dq ++ "Test that empty username shows error." ++ dq ++ dq ++ dq ++ "
        self.login_page.enter_password(" ++ dq ++ "somepassword" ++ dq ++ ")
        self.login_page.click_submit()
        
        assert self.login_page.is_error_displayed(), \
            " ++ dq ++ "Error should be shown for empty username" ++ dq ++ "

    def test_empty_password_shows_error(self):
        " ++ dq ++ dq ++ dq ++ "Test that empty password shows error." ++ dq ++ dq ++ dq ++ "
        self.login_page.enter_username(" ++ dq ++ "test@example.com" ++ dq ++ ")
        self.login_page.click_submit()
        
        assert self.login_page.is_error_displayed(), \
            " ++ dq ++ "Error should be shown for empty password" ++ dq ++ "

    @pytest.mark.smoke
    def test_valid_credentials_login(self):
        " ++ dq ++ dq ++ dq ++ "Test successful login with valid credentials." ++ dq ++ dq ++ dq ++ "
        # Use test credentials from environment or defaults
        self.login_page.login(" ++ dq ++ "test@example.com" ++ dq ++ ", " ++ dq ++ "password123" ++ dq ++ ")
        
        assert self.login_page.is_login_successful(), \
            " ++ dq ++ "Should navigate to dashboard after successful login" ++ dq ++ "
")%string.

Definition generatePythonApiClient : string :=
  (dq ++ dq ++ dq ++ "
Base API client for making HTTP requests.
" ++ dq ++ dq ++ dq ++ "
import requests
from typing import Any, Dict, Optional
import logging
import os

logger = logging.getLogger(__name__)


class BaseApiClient:
    " ++ dq ++ dq ++ dq ++ "
    Base API client providing common REST operations.
    All API clients should inherit from this class.
    " ++ dq ++ dq ++ dq ++ "

    def __init__(self, base_url: Optional[str] = None):
        self.base_url = base_url or os.getenv(
            " ++ dq ++ "API_BASE_URL" ++ dq ++ ", " ++ dq ++ "https://jsonplaceholder.typicode.com" ++ dq ++ "
        )
        self.session = requests.Session()
        self.session.headers.update({
            " ++ dq ++ "Content-Type" ++ dq ++ ": " ++ dq ++ "application/json" ++ dq ++ ",
            " ++ dq ++ "Accept" ++ dq ++ ": " ++ dq ++ "application/json" ++ dq ++ ",
        })
        logger.info(f" ++ dq ++ "API Client initialized with base URL: {self.base_url}" ++ dq ++ ")

    # ============ HTTP Methods ============

    def get(
        self,
        endpoint: str,
        params: Optional[Dict[str, Any]] = None,
        headers: Optional[Dict[str, str]] = None,
    ) -> requests.Response:
        " ++ dq ++ dq ++ dq ++ "Send GET request." ++ dq ++ dq ++ dq ++ "
        url = f" ++ dq ++ "{self.base_url}{endpoint}" ++ dq ++ "
        logger.info(f" ++ dq ++ "GET {url}" ++ dq ++ ")
        return self.session.get(url, params=params, headers=headers)

    def post(
        self,
        endpoint: str,
        data: Optional[Dict[str, Any]] = None,
        json: Optional[Dict[str, Any]] = None,
        headers: Optional[Dict[str, str]] = None,
    ) -> requests.Response:
        " ++ dq ++ dq ++ dq ++ "Send POST request." ++ dq ++ dq ++ dq ++ "
        url = f" ++ dq ++ "{self.base_url}{endpoint}" ++ dq ++ "
        logger.info(f" ++ dq ++ "POST {url}" ++ dq ++ ")
        return self.session.post(url, data=data, json=json, headers=headers)

    def put(
        self,
        endpoint: str,
        data: Optional[Dict[str, Any]] = None,
        json: Optional[Dict[str, Any]] = None,
        headers: Optional[Dict[str, str]] = None,
    ) -> requests.Response:
        " ++ dq ++ dq ++ dq ++ "Send PUT request." ++ dq ++ dq ++ dq ++ "
        url = f" ++ dq ++ "{self.base_url}{endpoint}" ++ dq ++ "
        logger.info(f" ++ dq ++ "PUT {url}" ++ dq ++ ")
        return self.session.put(url, data=data, json=json, headers=headers)

    def patch(
        self,
        endpoint: str,
        data: Optional[Dict[str, Any]] = None,
        json: Optional[Dict[str, Any]] = None,
        headers: Optional[Dict[str, str]] = None,
    ) -> requests.Response:
        " ++ dq ++ dq ++ dq ++ "Send PATCH request." ++ dq ++ dq ++ dq ++ "
        url = f" ++ dq ++ "{self.base_url}{endpoint}" ++ dq ++ "
        logger.info(f" ++ dq ++ "PATCH {url}" ++ dq ++ ")
        return self.session.patch(url, data=data, json=json, headers=headers)

    def delete(
        self,
        endpoint: str,
        headers: Optional[Dict[str, str]] = None,
    ) -> requests.Response:
        " ++ dq ++ dq ++ dq ++ "Send DELETE request." ++ dq ++ dq ++ dq ++ "
        url = f" ++ dq ++ "{self.base_url}{endpoint}" ++ dq ++ "
        logger.info(f" ++ dq ++ "DELETE {url}" ++ dq ++ ")
        return self.session.delete(url, headers=headers)

    # ============ Helper Methods ============

    def set_auth_token(self, token: str) -> None:
        " ++ dq ++ dq ++ dq ++ "Set authorization bearer token." ++ dq ++ dq ++ dq ++ "
        self.session.headers[" ++ dq ++ "Authorization" ++ dq ++ "] = f" ++ dq ++ "Bearer {token}" ++ dq ++ "

    def set_headers(self, headers: Dict[str, str]) -> None:
        " ++ dq ++ dq ++ dq ++ "Update session headers." ++ dq ++ dq ++ dq ++ "
        self.session.headers.update(headers)

    def close(self) -> None:
        " ++ dq ++ dq ++ dq ++ "Close the session." ++ dq ++ dq ++ dq ++ "
        self.session.close()
")%string.

Definition generatePythonUsersApiTest : string :=
  (dq ++ dq ++ dq ++ "
Users API tests.
" ++ dq ++ dq ++ dq ++ "
import pytest
from src.utils.api_client import BaseApiClient


@pytest.mark.api
class TestUsersApi:
    " ++ dq ++ dq ++ dq ++ "Test class for Users API endpoints." ++ dq ++ dq ++ dq ++ "

    @pytest.fixture(autouse=True)
    def setup(self, api_base_url):
        " ++ dq ++ dq ++ dq ++ "Set up API client for each test." ++ dq ++ dq ++ dq ++ "
        self.api = BaseApiClient(api_base_url)

    def teardown_method(self):
        " ++ dq ++ dq ++ dq ++ "Clean up after each test." ++ dq ++ dq ++ dq ++ "
        self.api.close()

    @pytest.mark.smoke
    def test_get_all_users(self):
        " ++ dq ++ dq ++ dq ++ "Test GET /users returns list of users." ++ dq ++ dq ++ dq ++ "
        response = self.api.get(" ++ dq ++ "/users" ++ dq ++ ")
        
        assert response.status_code == 200, \
            f" ++ dq ++ "Expected 200, got {response.status_code}" ++ dq ++ "
        
        users = response.json()
        assert isinstance(users, list), " ++ dq ++ "Response should be a list" ++ dq ++ "
        assert len(users) > 0, " ++ dq ++ "Should return at least one user" ++ dq ++ "

    def test_users_have_correct_structure(self):
        " ++ dq ++ dq ++ dq ++ "Test that users have required fields." ++ dq ++ dq ++ dq ++ "
        response = self.api.get(" ++ dq ++ "/users" ++ dq ++ ")
        users = response.json()
        
        required_fields = [" ++ dq ++ "id" ++ dq ++ ", " ++ dq ++ "name" ++ dq ++ ", " ++ dq ++ "email" ++ dq ++ ", " ++ dq ++ "username" ++ dq ++ "]
        first_user = users[0]
        
        for field in required_fields:
            assert field in first_user, f" ++ dq ++ "User should have '{field}' field" ++ dq ++ "

    @pytest.mark.smoke
    def test_get_user_by_id(self):
        " ++ dq ++ dq ++ dq ++ "Test GET /users/{id} returns single user." ++ dq ++ dq ++ dq ++ "
        response = self.api.get(" ++ dq ++ "/users/1" ++ dq ++ ")
        
        assert response.status_code == 200
        user = response.json()
        assert user[" ++ dq ++ "id" ++ dq ++ "] == 1
        assert " ++ dq ++ "name" ++ dq ++ " in user
        assert " ++ dq ++ "@" ++ dq ++ " in user[" ++ dq ++ "email" ++ dq ++ "]

    def test_get_non_existent_user(self):
        " ++ dq ++ dq ++ dq ++ "Test GET /users/{id} returns 404 for non-existent user." ++ dq ++ dq ++ dq ++ "
        response = self.api.get(" ++ dq ++ "/users/999999" ++ dq ++ ")
        
        assert response.status_code == 404

    @pytest.mark.smoke
    def test_create_user(self):
        " ++ dq ++ dq ++ dq ++ "Test POST /users creates new user." ++ dq ++ dq ++ dq ++ "
        new_user = {
            " ++ dq ++ "name" ++ dq ++ ": " ++ dq ++ "Test User" ++ dq ++ ",
            " ++ dq ++ "username" ++ dq ++ ": " ++ dq ++ "testuser" ++ dq ++ ",
            " ++ dq ++ "email" ++ dq ++ ": " ++ dq ++ "test@example.com" ++ dq ++ ",
            " ++ dq ++ "phone" ++ dq ++ ": " ++ dq ++ "1-234-567-8900" ++ dq ++ ",
        }
        
        response = self.api.post(" ++ dq ++ "/users" ++ dq ++ ", json=new_user)
        
        assert response.status_code == 201
        created_user = response.json()
        assert " ++ dq ++ "id" ++ dq ++ " in created_user
        assert created_user[" ++ dq ++ "name" ++ dq ++ "] == new_user[" ++ dq ++ "name" ++ dq ++ "]
        assert created_user[" ++ dq ++ "email" ++ dq ++ "] == new_user[" ++ dq ++ "email" ++ dq ++ "]

    def test_update_user(self):
        " ++ dq ++ dq ++ dq ++ "Test PUT /users/{id} updates existing user." ++ dq ++ dq ++ dq ++ "
        updated_data = {
            " ++ dq ++ "name" ++ dq ++ ": " ++ dq ++ "Updated Name" ++ dq ++ ",
            " ++ dq ++ "email" ++ dq ++ ": " ++ dq ++ "updated@example.com" ++ dq ++ ",
        }
        
        response = self.api.put(" ++ dq ++ "/users/1" ++ dq ++ ", json=updated_data)
        
        assert response.status_code == 200
        user = response.json()
        assert user[" ++ dq ++ "name" ++ dq ++ "] == updated_data[" ++ dq ++ "name" ++ dq ++ "]

    def test_delete_user(self):
        " ++ dq ++ dq ++ dq ++ "Test DELETE /users/{id} deletes user." ++ dq ++ dq ++ dq ++ "
        response = self.api.delete(" ++ dq ++ "/users/1" ++ dq ++ ")
        
        assert response.status_code == 200
")%string.

Definition generatePythonPostsApiTest : string :=
  (dq ++ dq ++ dq ++ "
Posts API tests.
" ++ dq ++ dq ++ dq ++ "
import pytest
from src.utils.api_client import BaseApiClient


@pytest.mark.api
class TestPostsApi:
    " ++ dq ++ dq ++ dq ++ "Test class for Posts API endpoints." ++ dq ++ dq ++ dq ++ "

    @pytest.fixture(autouse=True)
    def setup(self, api_base_url):
        " ++ dq ++ dq ++ dq ++ "Set up API client for each test." ++ dq ++ dq ++ dq ++ "
        self.api = BaseApiClient(api_base_url)

    def teardown_method(self):
        " ++ dq ++ dq ++ dq ++ "Clean up after each test." ++ dq ++ dq ++ dq ++ "
        self.api.close()

    @pytest.mark.smoke
    def test_get_all_posts(self):
        " ++ dq ++ dq ++ dq ++ "Test GET /posts returns list of posts." ++ dq ++ dq ++ dq ++ "
        response = self.api.get(" ++ dq ++ "/posts" ++ dq ++ ")
        
        assert response.status_code == 200
        posts = response.json()
        assert len(posts) > 0, " ++ dq ++ "Should return posts" ++ dq ++ "

    def test_get_post_by_id(self):
        " ++ dq ++ dq ++ dq ++ "Test GET /posts/{id} returns single post." ++ dq ++ dq ++ dq ++ "
        response = self.api.get(" ++ dq ++ "/posts/1" ++ dq ++ ")
        
        assert response.status_code == 200
        post = response.json()
        assert post[" ++ dq ++ "id" ++ dq ++ "] == 1
        assert " ++ dq ++ "title" ++ dq ++ " in post
        assert " ++ dq ++ "body" ++ dq ++ " in post
        assert " ++ dq ++ "userId" ++ dq ++ " in post

    def test_filter_posts_by_user(self):
        " ++ dq ++ dq ++ dq ++ "Test GET /posts with userId filter." ++ dq ++ dq ++ dq ++ "
        response = self.api.get(" ++ dq ++ "/posts" ++ dq ++ ", params={" ++ dq ++ "userId" ++ dq ++ ": 1})
        
        assert response.status_code == 200
        posts = response.json()
        assert all(post[" ++ dq ++ "userId" ++ dq ++ "] == 1 for post in posts), \
            " ++ dq ++ "All posts should belong to userId 1" ++ dq ++ "

    def test_create_post(self):
        " ++ dq ++ dq ++ dq ++ "Test POST /posts creates new post." ++ dq ++ dq ++ dq ++ "
        new_post = {
            " ++ dq ++ "title" ++ dq ++ ": " ++ dq ++ "Test Post Title" ++ dq ++ ",
            " ++ dq ++ "body" ++ dq ++ ": " ++ dq ++ "This is the body of the test post." ++ dq ++ ",
            " ++ dq ++ "userId" ++ dq ++ ": 1,
        }
        
        response = self.api.post(" ++ dq ++ "/posts" ++ dq ++ ", json=new_post)
        
        assert response.status_code == 201
        created_post = response.json()
        assert " ++ dq ++ "id" ++ dq ++ " in created_post
        assert created_post[" ++ dq ++ "title" ++ dq ++ "] == new_post[" ++ dq ++ "title" ++ dq ++ "]
")%string.

Definition generatePythonInit : string :=
  (dq ++ dq ++ dq ++ "
Package initialization.
" ++ dq ++ dq ++ dq ++ "
")%string.

(** Main generator function.  Each [files.push({ path, content })] of the
    source is one element, in the source's order. *)
Definition generateFiles (config : ProjectConfig) : list FileEntry :=
  let p := fun rest : string => (projectName config ++ "/" ++ rest)%string in
  let file := fun (rest : string) (text : string) =>
    {| path := p rest; content := text |} in
  let when := fun (b : bool) (l : list FileEntry) => if b then l else [] in
  let isLang := fun l => Language_beq (language config) l in
  (* Common files *)
  [ file "README.md" (generateReadme config);
    file ".env.example" generateEnvExample ]
  ++ when (initGit config)
       [ file ".gitignore" (generateGitignore (language config)) ]
  (* TypeScript specific files *)
  ++ when (isLang typescript) (
       [ file "package.json" (generateTypeScriptPackageJson config);
         file "tsconfig.json" generateTsConfig;
         file "playwright.config.ts" (generatePlaywrightConfig config);
         file "src/utils/config.ts" generateTsUtils;
         file "src/utils/helpers.ts" generateTsHelpers ]
       ++ when (includeUI config)
            [ file "src/pages/BasePage.ts" generateTsBasePage;
              file "src/pages/LoginPage.ts" generateTsLoginPage;
              file "src/fixtures/base.fixture.ts" generateTsFixture;
              file "tests/ui/login.spec.ts" generateTsLoginSpec;
              file "tests/ui/home.spec.ts" generateTsHomeSpec ]
       ++ when (includeAPI config)
            [ file "tests/api/users.spec.ts" generateTsApiSpec;
              file "tests/api/health.spec.ts" generateTsHealthSpec ]
       ++ [ file "config/dev.json" (generateConfigJson "dev");
            file "config/stage.json" (generateConfigJson "stage");
            file "config/prod.json" (generateConfigJson "prod");
            file "scripts/run-tests.sh" generateRunScript ])
  (* Java specific files *)
  ++ when (isLang java) (
       [ file "pom.xml" (generateJavaPom config);
         file "src/test/java/com/automation/base/BaseTest.java"
           (generateJavaBaseTest config);
         file "src/test/java/com/automation/utils/ConfigReader.java"
           generateJavaConfigReader;
         file "src/test/java/com/automation/utils/TestUtils.java"
           generateJavaTestUtils ]
       ++ when (includeUI config)
            [ file "src/test/java/com/automation/utils/WebDriverFactory.java"
                generateJavaWebDriverFactory;
              file "src/test/java/com/automation/pages/BasePage.java"
                generateJavaBasePage;
              file "src/test/java/com/automation/pages/LoginPage.java"
                generateJavaLoginPage;
              file "src/test/java/com/automation/pages/HomePage.java"
                generateJavaHomePage;
              file "src/test/java/com/automation/tests/LoginTest.java"
                generateJavaLoginTest ]
       ++ when (includeAPI config)
            [ file "src/test/java/com/automation/api/BaseApiClient.java"
                generateJavaBaseApiClient;
              file "src/test/java/com/automation/api/UsersApiTest.java"
                generateJavaUsersApiTest;
              file "src/test/java/com/automation/api/PostsApiTest.java"
                generateJavaPostsApiTest ]
       ++ [ file "src/test/resources/config.properties"
              generateJavaConfigProperties;
            file "src/test/resources/log4j2.xml" generateJavaLog4j ])
  (* Python specific files *)
  ++ when (isLang python) (
       [ file "requirements.txt" (generatePythonRequirements config) ]
       ++ when (BuildTool_beq (buildTool config) poetry)
            [ file "pyproject.toml" (generatePythonPyprojectToml config) ]
       ++ [ file "pytest.ini" generatePythonPytestIni;
            file "conftest.py" (generatePythonConftest config);
            (* Source structure *)
            file "src/__init__.py" generatePythonInit;
            file "src/utils/__init__.py" generatePythonInit;
            file "src/utils/config.py" generatePythonConfig;
            file "src/utils/api_client.py" generatePythonApiClient ]
       ++ when (includeUI config)
            [ file "src/pages/__init__.py" generatePythonInit;
              file "src/pages/base_page.py" (generatePythonBasePage config);
              file "src/pages/login_page.py" (generatePythonLoginPage config) ]
       (* Tests *)
       ++ [ file "tests/__init__.py" generatePythonInit ]
       ++ when (includeUI config)
            [ file "tests/ui/__init__.py" generatePythonInit;
              file "tests/ui/test_login.py" (generatePythonLoginTest config) ]
       ++ when (includeAPI config)
            [ file "tests/api/__init__.py" generatePythonInit;
              file "tests/api/test_users.py" generatePythonUsersApiTest;
              file "tests/api/test_posts.py" generatePythonPostsApiTest ])
  (* CI/CD *)
  ++ when (includeCI config)
       [ file ".github/workflows/tests.yml" (generateGitHubWorkflow config) ]
  (* Docker *)
  ++ when (includeDocker config)
       [ file "Dockerfile" (generateDockerfile config);
         file "docker-compose.yml" (generateDockerCompose config) ].

End Templates.

(* ================================================================== *)
(** * src/components/wizard/FolderTree.tsx                             *)
(* ================================================================== *)

Module TreeView.

Inductive TreeNode :=
| Node (name : string) (isFolder : bool) (children : list TreeNode).

Definition name (n : TreeNode) : string :=
  match n with Node x _ _ => x end.
Definition isFolder (n : TreeNode) : bool :=
  match n with Node _ b _ => b end.
Definition children (n : TreeNode) : list TreeNode :=
  match n with Node _ _ l => l end.

(** [path.split('/').filter(Boolean)] *)
Definition pathParts (path : string) : list string :=
  filter Js.truthy (Js.split "/" path).

(** One round of the inner loop on the list [current]:
    [current.find(n => n.name === part)] takes the first node of that name
    and the loop goes on in its children ([continue_]); when there is none a
    node [{ name: part, isFolder, children: [] }] is pushed at the end and
    the loop goes on in its (empty) children.  A node that is found keeps
    its [isFolder]. *)
Fixpoint visit (part : string) (folder : bool)
    (continue_ : list TreeNode -> list TreeNode) (current : list TreeNode)
  : list TreeNode :=
  match current with
  | [] => [ Node part folder (continue_ []) ]
  | n :: more =>
      if (name n =? part)%string
      then Node (name n) (isFolder n) (continue_ (children n)) :: more
      else n :: visit part folder continue_ more
  end.

(** The inner loop over [parts] from index [i] on: [rest] are the parts
    after [parts[i]], so [i < parts.length - 1] says that [rest] is not
    empty; [trailing] is [path.endsWith('/')]. *)
Fixpoint addParts (trailing : bool) (parts : list string) (current : list TreeNode)
  : list TreeNode :=
  match parts with
  | [] => current
  | part :: rest =>
      let folder := negb (Nat.eqb (List.length rest) 0) || trailing in
      visit part folder (addParts trailing rest) current
  end.

Definition addPath (root : list TreeNode) (path : string) : list TreeNode :=
  addParts (Js.endsWith path "/") (pathParts path) root.

(** The tree before it is sorted: the outer loop over [paths]. *)
Definition insertAll (paths : list string) : list TreeNode :=
  fold_left addPath paths [].

Section Sorting.

(** [a.localeCompare(b)] is the collation of the platform, which the
    repository does not fix: the tree builder takes it as a parameter. *)
Variable localeCompare : string -> string -> comparison.

(** The comparator of [sortNodes]: folders first, then by name. *)
Definition compareNodes (a b : TreeNode) : comparison :=
  if isFolder a && negb (isFolder b) then Lt
  else if negb (isFolder a) && isFolder b then Gt
  else localeCompare (name a) (name b).

Fixpoint sortNode (n : TreeNode) : TreeNode :=
  match n with
  | Node x b l => Node x b (Js.sortBy compareNodes (map sortNode l))
  end.

Definition sortNodes (nodes : list TreeNode) : list TreeNode :=
  Js.sortBy compareNodes (map sortNode nodes).

Definition buildTree (paths : list string) : list TreeNode :=
  sortNodes (insertAll paths).

End Sorting.

End TreeView.

(* ================================================================== *)
(** * The wizard: ConfigWizard.tsx and its steps                       *)
(* ================================================================== *)

Module Wizard.
Import Types.

(** [Partial<ProjectConfig>]: every field may be absent. *)
Record PartialConfig := {
  projectName_ : option string;
  description_ : option string;
  author_ : option string;
  initGit_ : option bool;
  includeUI_ : option bool;
  includeAPI_ : option bool;
  language_ : option Language;
  buildTool_ : option BuildTool;
  uiFramework_ : option UIFramework;
  apiFramework_ : option APIFramework;
  testRunner_ : option TestRunner;
  reporting_ : option (list ReportingOption);
  includeEnvConfig_ : option bool;
  includeCI_ : option bool;
  includeDocker_ : option bool
}.

Definition noUpdates : PartialConfig :=
  {| projectName_ := None; description_ := None; author_ := None;
     initGit_ := None; includeUI_ := None; includeAPI_ := None;
     language_ := None; buildTool_ := None; uiFramework_ := None;
     apiFramework_ := None; testRunner_ := None; reporting_ := None;
     includeEnvConfig_ := None; includeCI_ := None; includeDocker_ := None |}.

(** [defaultConfig] of types.ts. *)
Definition defaultConfig : PartialConfig :=
  {| projectName_ := Some EmptyString;
     description_ := Some EmptyString;
     author_ := Some EmptyString;
     initGit_ := Some true;
     includeUI_ := Some true;
     includeAPI_ := Some false;
     language_ := Some typescript;
     buildTool_ := Some npm;
     uiFramework_ := Some playwright;
     apiFramework_ := None;
     testRunner_ := Some playwright_test;
     reporting_ := Some [html];
     includeEnvConfig_ := Some true;
     includeCI_ := Some false;
     includeDocker_ := Some false |}.

(** A flag read in a condition: an absent flag is falsy. *)
Definition flag (b : option bool) : bool :=
  match b with Some true => true | _ => false end.

Definition over {A : Type} (update prev : option A) : option A :=
  match update with Some x => Some x | None => prev end.

(** [updateConfig]: the shallow merge [{ ...prev, ...updates }]. *)
Definition updateConfig (prev updates : PartialConfig) : PartialConfig :=
  {| projectName_ := over (projectName_ updates) (projectName_ prev);
     description_ := over (description_ updates) (description_ prev);
     author_ := over (author_ updates) (author_ prev);
     initGit_ := over (initGit_ updates) (initGit_ prev);
     includeUI_ := over (includeUI_ updates) (includeUI_ prev);
     includeAPI_ := over (includeAPI_ updates) (includeAPI_ prev);
     language_ := over (language_ updates) (language_ prev);
     buildTool_ := over (buildTool_ updates) (buildTool_ prev);
     uiFramework_ := over (uiFramework_ updates) (uiFramework_ prev);
     apiFramework_ := over (apiFramework_ updates) (apiFramework_ prev);
     testRunner_ := over (testRunner_ updates) (testRunner_ prev);
     reporting_ := over (reporting_ updates) (reporting_ prev);
     includeEnvConfig_ := over (includeEnvConfig_ updates) (includeEnvConfig_ prev);
     includeCI_ := over (includeCI_ updates) (includeCI_ prev);
     includeDocker_ := over (includeDocker_ updates) (includeDocker_ prev) |}.

(** ** StepBasics: [handleNameChange] *)

(** [value.toLowerCase().replace(/[^a-z0-9-]/g, '-').replace(/-+/g, '-')] *)
Definition slug (value : string) : string :=
  Js.collapseHyphens (Js.replaceNonSlug (Js.toLowerCase value)).

(** The updates [handleNameChange] hands to [onChange]. *)
Definition handleNameChange (value : string) : PartialConfig :=
  {| projectName_ := Some (slug value);
     description_ := None; author_ := None;
     initGit_ := None; includeUI_ := None; includeAPI_ := None;
     language_ := None; buildTool_ := None; uiFramework_ := None;
     apiFramework_ := None; testRunner_ := None; reporting_ := None;
     includeEnvConfig_ := None; includeCI_ := None; includeDocker_ := None |}.

(** ** StepLanguage: [handleLanguageChange] *)

(** [xs[0]] *)
Definition first {A : Type} (xs : list A) : option A := hd_error xs.

(** The updates [handleLanguageChange] hands to [onChange]: the dependent
    options are reset to the first valid choice; the two frameworks only
    under their coverage flag. *)
Definition handleLanguageChange (config : PartialConfig) (newLanguage : Language)
  : PartialConfig :=
  let newOptions := validCombinations newLanguage in
  {| projectName_ := None; description_ := None; author_ := None;
     initGit_ := None; includeUI_ := None; includeAPI_ := None;
     language_ := Some newLanguage;
     buildTool_ := first (buildTools newOptions);
     uiFramework_ :=
       if flag (includeUI_ config) then first (uiFrameworks newOptions) else None;
     apiFramework_ :=
       if flag (includeAPI_ config) then first (apiFrameworks newOptions) else None;
     testRunner_ := first (testRunners newOptions);
     reporting_ := option_map (fun r => [r]) (first (reportingOptions newOptions));
     includeEnvConfig_ := None; includeCI_ := None; includeDocker_ := None |}.

(** ** ConfigWizard: [validateStep] *)

(** [newErrors]: a map from field names to messages, as the list of its
    entries. *)
Definition validateStep (currentStep : nat) (config : PartialConfig)
  : list (string * string) :=
  (if Nat.eqb currentStep 1 then
     match projectName_ config with
     | None => [ ("projectName", "Project name is required") ]
     | Some name =>
         if (String.length name <? 1)%nat
         then [ ("projectName", "Project name is required") ]
         else if negb (Js.matchesSlug name)
         then [ ("projectName", "Must be lowercase with hyphens only") ]
         else []
     end
   else [])
  ++ (if Nat.eqb currentStep 2 then
        if negb (flag (includeUI_ config)) && negb (flag (includeAPI_ config))
        then [ ("includeUI", "Select at least one test type") ]
        else []
      else []).

End Wizard.

(* ================================================================== *)
(** * The footer of the preview                                        *)
(* ================================================================== *)

Module Preview.

(** [paths.filter(p => !p.endsWith('/')).length], the number the
    [FolderTree] component shows as the count of files. *)
Definition fileCount (paths : list string) : nat :=
  List.length (filter (fun p => negb (Js.endsWith p "/")) paths).

End Preview.

(* ================================================================== *)
(** * The wizard as a whole: ConfigWizard.tsx with its steps           *)
(* ================================================================== *)

Module WizardFlow.
Import Types Wizard.

(** ** The updates the controls hand to [onChange]

    [only_f v] is the object literal with the single field [f]. *)

Definition only_description (v : string) : PartialConfig :=
  {| projectName_ := None; description_ := Some v; author_ := None;
     initGit_ := None; includeUI_ := None; includeAPI_ := None;
     language_ := None; buildTool_ := None; uiFramework_ := None;
     apiFramework_ := None; testRunner_ := None; reporting_ := None;
     includeEnvConfig_ := None; includeCI_ := None;
     includeDocker_ := None |}.

Definition only_author (v : string) : PartialConfig :=
  {| projectName_ := None; description_ := None; author_ := Some v;
     initGit_ := None; includeUI_ := None; includeAPI_ := None;
     language_ := None; buildTool_ := None; uiFramework_ := None;
     apiFramework_ := None; testRunner_ := None; reporting_ := None;
     includeEnvConfig_ := None; includeCI_ := None;
     includeDocker_ := None |}.

Definition only_initGit (v : bool) : PartialConfig :=
  {| projectName_ := None; description_ := None; author_ := None;
     initGit_ := Some v; includeUI_ := None; includeAPI_ := None;
     language_ := None; buildTool_ := None; uiFramework_ := None;
     apiFramework_ := None; testRunner_ := None; reporting_ := None;
     includeEnvConfig_ := None; includeCI_ := None;
     includeDocker_ := None |}.

Definition only_includeUI (v : bool) : PartialConfig :=
  {| projectName_ := None; description_ := None; author_ := None;
     initGit_ := None; includeUI_ := Some v; includeAPI_ := None;
     language_ := None; buildTool_ := None; uiFramework_ := None;
     apiFramework_ := None; testRunner_ := None; reporting_ := None;
     includeEnvConfig_ := None; includeCI_ := None;
     includeDocker_ := None |}.

Definition only_includeAPI (v : bool) : PartialConfig :=
  {| projectName_ := None; description_ := None; author_ := None;
     initGit_ := None; includeUI_ := None; includeAPI_ := Some v;
     language_ := None; buildTool_ := None; uiFramework_ := None;
     apiFramework_ := None; testRunner_ := None; reporting_ := None;
     includeEnvConfig_ := None; includeCI_ := None;
     includeDocker_ := None |}.

Definition only_buildTool (v : BuildTool) : PartialConfig :=
  {| projectName_ := None; description_ := None; author_ := None;
     initGit_ := None; includeUI_ := None; includeAPI_ := None;
     language_ := None; buildTool_ := Some v; uiFramework_ := None;
     apiFramework_ := None; testRunner_ := None; reporting_ := None;
     includeEnvConfig_ := None; includeCI_ := None;
     includeDocker_ := None |}.

Definition only_uiFramework (v : UIFramework) : PartialConfig :=
  {| projectName_ := None; description_ := None; author_ := None;
     initGit_ := None; includeUI_ := None; includeAPI_ := None;
     language_ := None; buildTool_ := None; uiFramework_ := Some v;
     apiFramework_ := None; testRunner_ := None; reporting_ := None;
     includeEnvConfig_ := None; includeCI_ := None;
     includeDocker_ := None |}.

Definition only_apiFramework (v : APIFramework) : PartialConfig :=
  {| projectName_ := None; description_ := None; author_ := None;
     initGit_ := None; includeUI_ := None; includeAPI_ := None;
     language_ := None; buildTool_ := None; uiFramework_ := None;
     apiFramework_ := Some v; testRunner_ := None; reporting_ := None;
     includeEnvConfig_ := None; includeCI_ := None;
     includeDocker_ := None |}.

Definition only_testRunner (v : TestRunner) : PartialConfig :=
  {| projectName_ := None; description_ := None; author_ := None;
     initGit_ := None; includeUI_ := None; includeAPI_ := None;
     language_ := None; buildTool_ := None; uiFramework_ := None;
     apiFramework_ := None; testRunner_ := Some v; reporting_ := None;
     includeEnvConfig_ := None; includeCI_ := None;
     includeDocker_ := None |}.

Definition only_reporting (v : list ReportingOption) : PartialConfig :=
  {| projectName_ := None; description_ := None; author_ := None;
     initGit_ := None; includeUI_ := None; includeAPI_ := None;
     language_ := None; buildTool_ := None; uiFramework_ := None;
     apiFramework_ := None; testRunner_ := None; reporting_ := Some v;
     includeEnvConfig_ := None; includeCI_ := None;
     includeDocker_ := None |}.

Definition only_includeEnvConfig (v : bool) : PartialConfig :=
  {| projectName_ := None; description_ := None; author_ := None;
     initGit_ := None; includeUI_ := None; includeAPI_ := None;
     language_ := None; buildTool_ := None; uiFramework_ := None;
     apiFramework_ := None; testRunner_ := None; reporting_ := None;
     includeEnvConfig_ := Some v; includeCI_ := None;
     includeDocker_ := None |}.

Definition only_includeCI (v : bool) : PartialConfig :=
  {| projectName_ := None; description_ := None; author_ := None;
     initGit_ := None; includeUI_ := None; includeAPI_ := None;
     language_ := None; buildTool_ := None; uiFramework_ := None;
     apiFramework_ := None; testRunner_ := None; reporting_ := None;
     includeEnvConfig_ := None; includeCI_ := Some v;
     includeDocker_ := None |}.

Definition only_includeDocker (v : bool) : PartialConfig :=
  {| projectName_ := None; description_ := None; author_ := None;
     initGit_ := None; includeUI_ := None; includeAPI_ := None;
     language_ := None; buildTool_ := None; uiFramework_ := None;
     apiFramework_ := None; testRunner_ := None; reporting_ := None;
     includeEnvConfig_ := None; includeCI_ := None;
     includeDocker_ := Some v |}.

(** [x ?? d], and [x || d] for a field whose values are all truthy. *)
Definition orDefault {A : Type} (x : option A) (d : A) : A :=
  match x with Some v => v | None => d end.

(** ** StepOptions: [toggleReporting]

    The update that is handed to [onChange], or none when the toggle would
    leave no reporting option. *)
Definition toggleReporting (config : PartialConfig) (opt : ReportingOption)
  : option PartialConfig :=
  let current := orDefault (reporting_ config) [] in
  let updated :=
    if Js.includes ReportingOption_beq current opt
    then filter (fun r => negb (ReportingOption_beq r opt)) current
    else current ++ [ opt ] in
  if (0 <? List.length updated)%nat then Some (only_reporting updated) else None.

(** ** ConfigWizard: [completeConfig]

    [xs[0]] of a row of the compatibility table stands as [hd d xs]: no row
    is empty, so the [d] is never the result. *)
Definition completeConfig (config : PartialConfig) : ProjectConfig :=
  let language := orDefault (language_ config) typescript in
  let validOptions := validCombinations language in
  {| projectName := Js.orElse (projectName_ config) "my-project";
     description := Some (Js.orElse (description_ config) EmptyString);
     author := Some (Js.orElse (author_ config) EmptyString);
     initGit := orDefault (initGit_ config) true;
     includeUI := orDefault (includeUI_ config) true;
     includeAPI := orDefault (includeAPI_ config) false;
     language := language;
     buildTool := orDefault (buildTool_ config) (hd npm (buildTools validOptions));
     uiFramework :=
       if flag (includeUI_ config)
       then over (uiFramework_ config) (first (uiFrameworks validOptions))
       else None;
     apiFramework :=
       if flag (includeAPI_ config)
       then over (apiFramework_ config) (first (apiFrameworks validOptions))
       else None;
     testRunner :=
       orDefault (testRunner_ config) (hd playwright_test (testRunners validOptions));
     reporting :=
       orDefault (reporting_ config)
         [ hd html (reportingOptions validOptions) ];
     includeEnvConfig := orDefault (includeEnvConfig_ config) true;
     includeCI := orDefault (includeCI_ config) false;
     includeDocker := orDefault (includeDocker_ config) false |}.

(** ** ConfigWizard: the state and its handlers *)

Record WizardState := {
  currentStep : nat;
  config : PartialConfig;
  errors : list (string * string)
}.

(** [useState(1)], [useState(defaultConfig)], [useState({})]. *)
Definition initialState : WizardState :=
  {| currentStep := 1; config := defaultConfig; errors := [] |}.

Definition present {A : Type} (x : option A) (key : string) : list string :=
  match x with Some _ => [ key ] | None => [] end.

(** [Object.keys(updates)] *)
Definition keysOf (updates : PartialConfig) : list string :=
  []
  ++ present (projectName_ updates) "projectName"
  ++ present (description_ updates) "description"
  ++ present (author_ updates) "author"
  ++ present (initGit_ updates) "initGit"
  ++ present (includeUI_ updates) "includeUI"
  ++ present (includeAPI_ updates) "includeAPI"
  ++ present (language_ updates) "language"
  ++ present (buildTool_ updates) "buildTool"
  ++ present (uiFramework_ updates) "uiFramework"
  ++ present (apiFramework_ updates) "apiFramework"
  ++ present (testRunner_ updates) "testRunner"
  ++ present (reporting_ updates) "reporting"
  ++ present (includeEnvConfig_ updates) "includeEnvConfig"
  ++ present (includeCI_ updates) "includeCI"
  ++ present (includeDocker_ updates) "includeDocker".

(** [updateConfig] with both of its effects: the shallow merge into the
    configuration, and the errors of the updated fields deleted. *)
Definition applyUpdates (s : WizardState) (updates : PartialConfig) : WizardState :=
  {| currentStep := currentStep s;
     config := updateConfig (config s) updates;
     errors :=
       filter (fun e => negb (existsb (String.eqb (fst e)) (keysOf updates)))
         (errors s) |}.

(** [canProceed], which disables the button Continue. *)
Definition canProceed (s : WizardState) : bool :=
  if Nat.eqb (currentStep s) 1 then
    match projectName_ (config s) with
    | Some name =>
        Js.truthy name && (0 <? String.length name)%nat && Js.matchesSlug name
    | None => false
    end
  else if Nat.eqb (currentStep s) 2 then
    flag (includeUI_ (config s)) || flag (includeAPI_ (config s))
  else true.

(** [handleNext]: [validateStep] stores its errors, and the step advances
    when there are none and the step is below 5. *)
Definition handleNext (s : WizardState) : WizardState :=
  let newErrors := validateStep (currentStep s) (config s) in
  {| currentStep :=
       if Nat.eqb (List.length newErrors) 0 && (currentStep s <? 5)%nat
       then currentStep s + 1 else currentStep s;
     config := config s;
     errors := newErrors |}.

Definition handleBack (s : WizardState) : WizardState :=
  {| currentStep := if (1 <? currentStep s)%nat then currentStep s - 1 else currentStep s;
     config := config s;
     errors := errors s |}.

Definition handleStepClick (s : WizardState) (step : nat) : WizardState :=
  {| currentStep := if (step <? currentStep s)%nat then step else currentStep s;
     config := config s;
     errors := errors s |}.

(** ** What the user can do

    One constructor for each control of the five steps and of the
    navigation. *)
Inductive Event :=
| NameChange (value : string)
| DescriptionChange (value : string)
| AuthorChange (value : string)
| InitGitChange (checked : bool)
| ToggleUI
| ToggleAPI
| LanguageClick (l : Language)
| BuildToolClick (tool : BuildTool)
| UIFrameworkClick (framework : UIFramework)
| APIFrameworkClick (framework : APIFramework)
| TestRunnerClick (runner : TestRunner)
| ReportingClick (opt : ReportingOption)
| EnvConfigChange (checked : bool)
| CIChange (checked : bool)
| DockerChange (checked : bool)
| ContinueClick
| BackClick
| StepperClick (step : nat).

(** The state after an event.  Only the component of the current step is
    rendered, with one card for each option of the language's row of the
    table; the buttons Back and Continue are rendered below step 5, Back
    disabled at step 1 and Continue while [canProceed] is false; the stepper
    has the steps 1 to 5 and a step can be clicked when the current one is
    beyond it.  An event whose control is not there, or is disabled, leaves
    the state as it is. *)
Definition dispatch (s : WizardState) (e : Event) : WizardState :=
  let at_ := fun n => Nat.eqb (currentStep s) n in
  let validOptions :=
    validCombinations (orDefault (language_ (config s)) typescript) in
  let when := fun (b : bool) (s' : WizardState) => if b then s' else s in
  match e with
  | NameChange value => when (at_ 1) (applyUpdates s (handleNameChange value))
  | DescriptionChange value => when (at_ 1) (applyUpdates s (only_description value))
  | AuthorChange value => when (at_ 1) (applyUpdates s (only_author value))
  | InitGitChange checked => when (at_ 1) (applyUpdates s (only_initGit checked))
  | ToggleUI =>
      when (at_ 2)
        (applyUpdates s (only_includeUI (negb (flag (includeUI_ (config s))))))
  | ToggleAPI =>
      when (at_ 2)
        (applyUpdates s (only_includeAPI (negb (flag (includeAPI_ (config s))))))
  | LanguageClick l =>
      when (at_ 3) (applyUpdates s (handleLanguageChange (config s) l))
  | BuildToolClick tool =>
      when (at_ 3 && Js.includes BuildTool_beq (buildTools validOptions) tool)
        (applyUpdates s (only_buildTool tool))
  | UIFrameworkClick framework =>
      when (at_ 3 && flag (includeUI_ (config s))
            && Js.includes UIFramework_beq (uiFrameworks validOptions) framework)
        (applyUpdates s (only_uiFramework framework))
  | APIFrameworkClick framework =>
      when (at_ 3 && flag (includeAPI_ (config s))
            && Js.includes APIFramework_beq (apiFrameworks validOptions) framework)
        (applyUpdates s (only_apiFramework framework))
  | TestRunnerClick runner =>
      when (at_ 4 && Js.includes TestRunner_beq (testRunners validOptions) runner)
        (applyUpdates s (only_testRunner runner))
  | ReportingClick opt =>
      when (at_ 4
            && Js.includes ReportingOption_beq (reportingOptions validOptions) opt)
        match toggleReporting (config s) opt with
        | Some updates => applyUpdates s updates
        | None => s
        end
  | EnvConfigChange checked =>
      when (at_ 4) (applyUpdates s (only_includeEnvConfig checked))
  | CIChange checked => when (at_ 4) (applyUpdates s (only_includeCI checked))
  | DockerChange checked => when (at_ 4) (applyUpdates s (only_includeDocker checked))
  | ContinueClick =>
      when ((currentStep s <? 5)%nat && canProceed s) (handleNext s)
  | BackClick =>
      when ((currentStep s <? 5)%nat && negb (at_ 1)) (handleBack s)
  | StepperClick step =>
      when ((1 <=? step)%nat && (step <=? 5)%nat && (step <? currentStep s)%nat)
        (handleStepClick s step)
  end.

(** A session: the events in the order they happen. *)
Definition run (events : list Event) (s : WizardState) : WizardState :=
  fold_left dispatch events s.

End WizardFlow.

(* ================================================================== *)
(** * The last step: StepGenerate.tsx                                  *)
(* ================================================================== *)

Module Generate.
Import Types.

(** The command of the third of the next steps, shown after the
    download. *)
Definition installCommand (config : ProjectConfig) : string :=
  if BuildTool_beq (buildTool config) npm || BuildTool_beq (buildTool config) pnpm
  then BuildTool_str (buildTool config) ++ " install"
  else if BuildTool_beq (buildTool config) maven
  then "mvn clean install -DskipTests"
  else "pip install -r requirements.txt".

End Generate.

(* ================================================================== *)
(** * Properties of the host-language built-ins                        *)
(* ================================================================== *)

Module JsFacts.
Import Js.

Section SortBy.

Context {A : Type} (cmp : A -> A -> comparison).

(** The order a comparator induces: [a] may stand before [b]. *)
Definition notAfter (a b : A) : Prop := cmp a b <> Gt.

Lemma insertBy_perm (x : A) (l : list A) : Permutation (insertBy cmp x l) (x :: l).
Proof.
  induction l as [|y t IH]; simpl.
  - apply Permutation_refl.
  - destruct (cmp x y).
    + apply Permutation_refl.
    + apply Permutation_refl.
    + eapply perm_trans; [apply perm_skip, IH | apply perm_swap].
Qed.

Lemma sortBy_perm (l : list A) : Permutation (sortBy cmp l) l.
Proof.
  induction l as [|x t IH]; simpl.
  - constructor.
  - eapply perm_trans; [apply insertBy_perm | apply perm_skip, IH].
Qed.

Lemma sortBy_In (l : list A) (x : A) : In x (sortBy cmp l) <-> In x l.
Proof.
  split; apply Permutation_in;
    [apply sortBy_perm | apply Permutation_sym, sortBy_perm].
Qed.

(** A comparator that never answers [Gt] both ways. *)
Hypothesis cmp_total : forall a b, cmp a b = Gt -> cmp b a <> Gt.

Lemma insertBy_hd (x y : A) (l : list A) :
  notAfter y x -> HdRel notAfter y l -> HdRel notAfter y (insertBy cmp x l).
Proof.
  intros Hyx Hl. destruct l as [|z t]; simpl.
  - constructor. exact Hyx.
  - inversion Hl; subst. destruct (cmp x z); constructor; assumption.
Qed.

Lemma insertBy_sorted (x : A) (l : list A) :
  Sorted notAfter l -> Sorted notAfter (insertBy cmp x l).
Proof.
  induction l as [|y t IH]; intros Hs; simpl.
  - repeat constructor.
  - inversion Hs as [|? ? Ht Hhd]; subst.
    destruct (cmp x y) eqn:E.
    + constructor; [exact Hs | constructor; unfold notAfter; congruence].
    + constructor; [exact Hs | constructor; unfold notAfter; congruence].
    + constructor; [apply IH, Ht | apply insertBy_hd; [apply cmp_total, E | exact Hhd]].
Qed.

Lemma sortBy_sorted (l : list A) : Sorted notAfter (sortBy cmp l).
Proof.
  induction l as [|x t IH]; simpl.
  - constructor.
  - apply insertBy_sorted, IH.
Qed.

End SortBy.

(** ** Strings *)

Lemma compare_total (a b : string) :
  String.compare a b = Gt -> String.compare b a <> Gt.
Proof.
  intros H. rewrite String.compare_antisym, H. discriminate.
Qed.

Lemma leb_notAfter (a b : string) :
  notAfter String.compare a b <-> String.leb a b = true.
Proof.
  unfold notAfter, String.leb. destruct (String.compare a b); split; congruence.
Qed.

Lemma append_inj (p a b : string) : (p ++ a = p ++ b)%string -> a = b.
Proof.
  induction p as [|c p IH]; simpl; intros H.
  - exact H.
  - injection H as H. apply IH, H.
Qed.

Lemma append_assoc (a b c : string) : ((a ++ b) ++ c = a ++ (b ++ c))%string.
Proof.
  induction a as [|x a IH]; simpl; [reflexivity | now rewrite IH].
Qed.

Lemma append_nil_r (a : string) : (a ++ "")%string = a.
Proof.
  induction a as [|x a IH]; simpl; [reflexivity | now rewrite IH].
Qed.

Lemma length_append (a b : string) :
  String.length (a ++ b) = String.length a + String.length b.
Proof.
  induction a as [|x a IH]; simpl; [reflexivity | now rewrite IH].
Qed.

(** A duplicate-free list, decided. *)
Fixpoint nodupb (l : list string) : bool :=
  match l with
  | [] => true
  | x :: t => negb (existsb (String.eqb x) t) && nodupb t
  end.

Lemma existsb_eqb_In (x : string) (l : list string) :
  existsb (String.eqb x) l = true <-> In x l.
Proof.
  rewrite existsb_exists. split.
  - intros [y [Hy E]]. apply String.eqb_eq in E. now subst.
  - intros H. exists x. split; [exact H | apply String.eqb_refl].
Qed.

Lemma nodupb_NoDup (l : list string) : nodupb l = true -> NoDup l.
Proof.
  induction l as [|x t IH]; simpl; intros H.
  - constructor.
  - apply andb_true_iff in H as [Hx Ht]. constructor.
    + intros Hin. apply existsb_eqb_In in Hin. rewrite Hin in Hx. discriminate.
    + apply IH, Ht.
Qed.

Lemma NoDup_map_append (p : string) (l : list string) :
  NoDup l -> NoDup (map (String.append p) l).
Proof.
  induction 1 as [|x t Hx Ht IH]; simpl; constructor.
  - rewrite in_map_iff. intros [y [E Hy]]. apply append_inj in E. now subst.
  - exact IH.
Qed.

End JsFacts.

(* ================================================================== *)
(** * The path planner                                                 *)
(* ================================================================== *)

Module FolderTreeFacts.
Import Types FolderTree JsFacts.

(** The configuration with another project name. *)
Definition withProjectName (n : string) (c : ProjectConfig) : ProjectConfig :=
  {| projectName := n;
     description := description c;
     author := author c;
     initGit := initGit c;
     includeUI := includeUI c;
     includeAPI := includeAPI c;
     language := language c;
     buildTool := buildTool c;
     uiFramework := uiFramework c;
     apiFramework := apiFramework c;
     testRunner := testRunner c;
     reporting := reporting c;
     includeEnvConfig := includeEnvConfig c;
     includeCI := includeCI c;
     includeDocker := includeDocker c |}.

(** Case analysis on the fields the planner and the generator branch on. *)
Ltac by_shape c :=
  destruct c as [pn ? ? git ui api lang bt ? ? ? ? ? ci docker];
  destruct lang, bt, git, ui, api, ci, docker.

(** The paths below the root, without the project name: every planned path
    is the project name followed by one of them. *)
Definition relative (c : ProjectConfig) : list string :=
  paths (withProjectName "" c).

Lemma paths_relative (c : ProjectConfig) :
  paths c = map (String.append (projectName c)) (relative c).
Proof. by_shape c; reflexivity. Qed.

Lemma relative_nodup (c : ProjectConfig) : nodupb (relative c) = true.
Proof. by_shape c; vm_compute; reflexivity. Qed.

Lemma paths_NoDup (c : ProjectConfig) : NoDup (paths c).
Proof.
  rewrite paths_relative. apply NoDup_map_append, nodupb_NoDup, relative_nodup.
Qed.

(** ** Ancestors *)

(** The directory markers of the proper ancestors of a path: its proper
    prefixes that end in a slash. *)
Fixpoint ancestorDirs (p : string) : list string :=
  match p with
  | EmptyString => []
  | String c rest =>
      (if Ascii.eqb c "/" && negb (rest =? "")%string then [ String c "" ] else [])
      ++ map (String c) (ancestorDirs rest)
  end.

Lemma ancestorDirs_append (pn q : string) :
  Js.allChars (fun c => negb (Ascii.eqb c "/")) pn = true ->
  ancestorDirs (pn ++ q) = map (String.append pn) (ancestorDirs q).
Proof.
  induction pn as [|c pn IH]; simpl; intros H.
  - now rewrite map_id.
  - apply andb_true_iff in H as [Hc Hpn].
    apply negb_true_iff in Hc. rewrite Hc. simpl.
    rewrite (IH Hpn), map_map. reflexivity.
Qed.

Lemma endsWith_cons (c : ascii) (a : string) :
  a <> "" -> Js.endsWith (String c a) "/" = Js.endsWith a "/".
Proof.
  destruct a as [|d a']; [congruence|]. intros _.
  unfold Js.endsWith. cbn [String.length].
  replace (S (S (String.length a')) - 1) with (S (String.length a')) by lia.
  replace (S (String.length a') - 1) with (String.length a') by lia.
  reflexivity.
Qed.

Lemma ancestorDirs_nonempty (p : string) : ~ In "" (ancestorDirs p).
Proof.
  destruct p as [|c rest]; simpl; [tauto|].
  intros H. apply in_app_or in H as [H|H].
  - destruct (Ascii.eqb c "/" && negb (rest =? "")%string); simpl in H.
    + destruct H as [H|[]]. discriminate.
    + contradiction.
  - apply in_map_iff in H as [? [? _]]. discriminate.
Qed.

Lemma ancestorDirs_endsWith (p a : string) :
  In a (ancestorDirs p) -> Js.endsWith a "/" = true.
Proof.
  revert a. induction p as [|c rest IH]; simpl; intros a H.
  - contradiction.
  - apply in_app_or in H as [H|H].
    + destruct (Ascii.eqb c "/") eqn:E; simpl in H.
      * destruct (negb (rest =? "")%string); simpl in H; [|contradiction].
        destruct H as [<-|[]]. apply Ascii.eqb_eq in E. subst. reflexivity.
      * contradiction.
    + apply in_map_iff in H as [a' [<- Ha]].
      rewrite endsWith_cons.
      * apply IH, Ha.
      * intros ->. exact (ancestorDirs_nonempty _ Ha).
Qed.

(** Every ancestor of a listed path is listed, decided. *)
Definition closedb (l : list string) : bool :=
  forallb (fun q => forallb (fun a => existsb (String.eqb a) l) (ancestorDirs q)) l.

Lemma closedb_spec (l : list string) :
  closedb l = true ->
  forall q a, In q l -> In a (ancestorDirs q) -> In a l.
Proof.
  unfold closedb. rewrite forallb_forall. intros H q a Hq Ha.
  specialize (H q Hq). rewrite forallb_forall in H.
  apply existsb_eqb_In, H, Ha.
Qed.

Lemma relative_closed (c : ProjectConfig) : closedb (relative c) = true.
Proof. by_shape c; vm_compute; reflexivity. Qed.

(** The slug pattern leaves no slash in a project name. *)
Lemma slug_no_slash (s : string) :
  Js.matchesSlug s = true ->
  Js.allChars (fun c => negb (Ascii.eqb c "/")) s = true.
Proof.
  unfold Js.matchesSlug. intros H. apply andb_true_iff in H as [_ H].
  induction s as [|c s IH]; simpl in *; [reflexivity|].
  apply andb_true_iff in H as [Hc Hs]. rewrite (IH Hs), andb_true_r.
  destruct (Ascii.eqb c "/") eqn:E; [|reflexivity].
  apply Ascii.eqb_eq in E. subst c. discriminate Hc.
Qed.

Lemma validConfig_slug (c : ProjectConfig) :
  validConfig c = true -> Js.matchesSlug (projectName c) = true.
Proof.
  unfold validConfig, passesSchema, safeParse, fieldIssues. intros H.
  apply andb_true_iff in H as [H _]. simpl in H.
  destruct (Js.matchesSlug (projectName c)); [reflexivity|].
  exfalso. revert H. unfold issueWhen.
  destruct (String.length (projectName c) <? 1)%nat; [discriminate|].
  destruct (50 <? String.length (projectName c))%nat; [discriminate|].
  simpl. discriminate.
Qed.

End FolderTreeFacts.

Module PlannerFacts.
Import Types FolderTree Templates JsFacts FolderTreeFacts.

(** ** Prefixes and ancestors *)

Lemma endsWith_single (c : ascii) : Js.endsWith (String c "") "/" = true -> c = "/"%char.
Proof.
  unfold Js.endsWith. simpl. destruct (Ascii.eqb_spec c "/"); [auto | discriminate].
Qed.

(** [ancestorDirs] lists exactly the proper prefixes that end in a slash. *)
Lemma ancestorDirs_spec (p a : string) :
  In a (ancestorDirs p) <->
  exists rest, p = (a ++ rest)%string /\ rest <> "" /\ Js.endsWith a "/" = true.
Proof.
  split.
  - revert a.
    induction p as [|c p IH]; simpl; intros a H; [contradiction|].
    apply in_app_or in H as [H|H].
    + destruct (Ascii.eqb c "/") eqn:E; simpl in H; [|contradiction].
      destruct (p =? "")%string eqn:Ep; simpl in H; [contradiction|].
      destruct H as [<-|[]]. exists p.
      apply Ascii.eqb_eq in E. subst c.
      apply String.eqb_neq in Ep. repeat split; assumption.
    + apply in_map_iff in H as [a' [<- Ha]].
      destruct (IH _ Ha) as [rest (-> & Hr & He)].
      exists rest. repeat split; [exact Hr|].
      rewrite endsWith_cons; [exact He|].
      intros ->. exact (ancestorDirs_nonempty _ Ha).
  - intros [rest (-> & Hr & He)]. revert He.
    induction a as [|c a IH]; intros He; [discriminate He|].
    simpl. apply in_or_app. destruct a as [|d a].
    + left. apply endsWith_single in He. subst c. simpl.
      destruct rest; [congruence|]. simpl. now left.
    + right. apply in_map. apply IH.
      rewrite endsWith_cons in He; [exact He | discriminate].
Qed.

Lemma endsWith_append (pn q : string) :
  q <> "" -> Js.endsWith (pn ++ q) "/" = Js.endsWith q "/".
Proof.
  intros Hq. induction pn as [|c pn IH]; simpl; [reflexivity|].
  rewrite endsWith_cons; [exact IH|].
  destruct pn; simpl; [exact Hq | discriminate].
Qed.

(** ** The planned paths, through the relative ones *)

Lemma generateFolderTree_In (c : ProjectConfig) (p : string) :
  In p (generateFolderTree c) <->
  exists q, In q (relative c) /\ p = (projectName c ++ q)%string.
Proof.
  unfold generateFolderTree, Js.sort. rewrite sortBy_In, paths_relative, in_map_iff.
  split; intros [q [H1 H2]]; exists q; split; auto.
Qed.

(** The paths of the generated files, relative to the project name. *)
Definition relativeFiles (c : ProjectConfig) : list string :=
  map path (generateFiles (withProjectName "" c)).

Lemma generateFiles_relative (c : ProjectConfig) :
  map path (generateFiles c) = map (String.append (projectName c)) (relativeFiles c).
Proof. by_shape c; reflexivity. Qed.

Definition subsetb (l1 l2 : list string) : bool :=
  forallb (fun x => existsb (String.eqb x) l2) l1.

Lemma subsetb_spec (l1 l2 : list string) :
  subsetb l1 l2 = true -> forall x, In x l1 -> In x l2.
Proof.
  unfold subsetb. rewrite forallb_forall. intros H x Hx.
  apply existsb_eqb_In, H, Hx.
Qed.

Definition isFilePath (p : string) : bool := negb (Js.endsWith p "/").

(** The planner and the generator agree on a configuration, relative to the
    project name; decided. *)
Definition agreeb (c : ProjectConfig) : bool :=
  subsetb (relativeFiles c) (filter isFilePath (relative c))
  && subsetb (filter isFilePath (relative c)) (relativeFiles c).

Lemma relative_nonempty (c : ProjectConfig) :
  forallb (fun q => negb (q =? "")%string) (relative c) = true.
Proof. by_shape c; vm_compute; reflexivity. Qed.

(** Outside Java with a build tool other than Maven the two agree. *)
Lemma agreeb_except_gradle (c : ProjectConfig) :
  (language c = java -> buildTool c = maven) -> agreeb c = true.
Proof.
  by_shape c; simpl; intros H; try (vm_compute; reflexivity);
    exfalso; specialize (H eq_refl); discriminate H.
Qed.

Lemma generateFiles_consistent_except_gradle (c : ProjectConfig) (p : string) :
  (language c = java -> buildTool c = maven) ->
  In p (map path (generateFiles c)) <->
  In p (generateFolderTree c) /\ Js.endsWith p "/" = false.
Proof.
  intros Hm. pose proof (agreeb_except_gradle c Hm) as Ha.
  apply andb_true_iff in Ha as [H1 H2].
  pose proof (relative_nonempty c) as Hne. rewrite forallb_forall in Hne.
  rewrite generateFiles_relative, in_map_iff, generateFolderTree_In.
  split.
  - intros [q [<- Hq]].
    apply (subsetb_spec _ _ H1), filter_In in Hq as [Hq Hf].
    split; [exists q; auto|].
    rewrite endsWith_append.
    + apply negb_true_iff, Hf.
    + specialize (Hne q Hq). apply negb_true_iff, String.eqb_neq in Hne. exact Hne.
  - intros [[q [Hq ->]] Hf]. exists q. split; [reflexivity|].
    apply (subsetb_spec _ _ H2), filter_In. split; [exact Hq|].
    rewrite endsWith_append in Hf.
    + apply negb_true_iff, Hf.
    + specialize (Hne q Hq). apply negb_true_iff, String.eqb_neq in Hne. exact Hne.
Qed.

End PlannerFacts.

(* ================================================================== *)
(** * The claims about the planner and the generator                   *)
(* ================================================================== *)

Section PlannerClaims.
Import Types FolderTree Templates JsFacts FolderTreeFacts PlannerFacts.

(** The scenario of the specification: a Python project with both kinds of
    test. *)
Definition demoConfig : ProjectConfig :=
  {| projectName := "demo";
     description := None;
     author := None;
     initGit := true;
     includeUI := true;
     includeAPI := true;
     language := python;
     buildTool := pip;
     uiFramework := Some playwright;
     apiFramework := Some requests;
     testRunner := pytest;
     reporting := [pytest_html];
     includeEnvConfig := true;
     includeCI := true;
     includeDocker := true |}.

(** A valid Java project built with Gradle. *)
Definition gradleConfig : ProjectConfig :=
  {| projectName := "demo";
     description := None;
     author := None;
     initGit := true;
     includeUI := true;
     includeAPI := true;
     language := java;
     buildTool := gradle;
     uiFramework := Some selenium;
     apiFramework := Some rest_assured;
     testRunner := junit;
     reporting := [allure];
     includeEnvConfig := true;
     includeCI := false;
     includeDocker := false |}.

Ltac decide_In :=
  match goal with
  | |- In _ _ => apply existsb_eqb_In; vm_compute; reflexivity
  | |- ~ In _ _ =>
      let H := fresh in
      intros H; apply existsb_eqb_In in H; vm_compute in H; discriminate H
  end.

(** C1 (the code departs from the claim).  For the valid Java configuration
    built with Gradle the generator writes [pom.xml], which the planner does
    not list, and writes neither [build.gradle] nor [settings.gradle], which
    the planner lists: the two sets of file paths differ. *)
Theorem generateFiles_gradle_diverges :
  validConfig gradleConfig = true
  /\ In "demo/pom.xml" (map path (generateFiles gradleConfig))
  /\ ~ In "demo/pom.xml" (generateFolderTree gradleConfig)
  /\ In "demo/build.gradle" (generateFolderTree gradleConfig)
  /\ Js.endsWith "demo/build.gradle" "/" = false
  /\ ~ In "demo/build.gradle" (map path (generateFiles gradleConfig))
  /\ In "demo/settings.gradle" (generateFolderTree gradleConfig)
  /\ ~ In "demo/settings.gradle" (map path (generateFiles gradleConfig)).
Proof.
  split; [reflexivity|].
  repeat split; try decide_In.
Qed.

(** C2.  For every valid configuration the list [generateFolderTree]
    returns is sorted in the lexicographic order of the code units and has
    no duplicate entry. *)
Theorem generateFolderTree_sorted_nodup (c : ProjectConfig) :
  validConfig c = true ->
  Sorted (fun a b => String.leb a b = true) (generateFolderTree c)
  /\ NoDup (generateFolderTree c).
Proof.
  intros _. unfold generateFolderTree, Js.sort. split.
  - eapply Sorted_ind with (P := fun l => Sorted (fun a b => String.leb a b = true) l);
      [constructor | | apply (sortBy_sorted String.compare compare_total)].
    intros a l _ IH Hhd. constructor; [exact IH|].
    destruct Hhd; constructor. now apply leb_notAfter.
  - eapply Permutation_NoDup; [apply Permutation_sym, sortBy_perm|].
    apply paths_NoDup.
Qed.

Lemma generateFolderTree_sorted_nodup_witness :
  validConfig demoConfig = true
  /\ Sorted (fun a b => String.leb a b = true) (generateFolderTree demoConfig)
  /\ NoDup (generateFolderTree demoConfig).
Proof.
  split; [reflexivity|].
  apply (generateFolderTree_sorted_nodup demoConfig). reflexivity.
Defined.

(** C3.  For every valid configuration, every proper prefix that ends in a
    slash of a path in the output of [generateFolderTree] (a proper ancestor
    directory of the path, as its directory marker) is in the output too. *)
Theorem generateFolderTree_no_orphans (c : ProjectConfig) (p a rest : string) :
  validConfig c = true ->
  In p (generateFolderTree c) ->
  p = (a ++ rest)%string -> rest <> "" -> Js.endsWith a "/" = true ->
  In a (generateFolderTree c).
Proof.
  intros Hv Hp -> Hr He.
  apply generateFolderTree_In in Hp as [q [Hq E]].
  assert (Ha : In a (ancestorDirs (projectName c ++ q))).
  { rewrite <- E. apply ancestorDirs_spec. exists rest. auto. }
  rewrite ancestorDirs_append in Ha
    by (apply slug_no_slash, validConfig_slug, Hv).
  apply in_map_iff in Ha as [a' [<- Ha']].
  apply generateFolderTree_In. exists a'. split; [|reflexivity].
  exact (closedb_spec _ (relative_closed c) q a' Hq Ha').
Qed.

Lemma generateFolderTree_no_orphans_witness :
  In "demo/src/utils/" (generateFolderTree demoConfig).
Proof.
  apply (generateFolderTree_no_orphans demoConfig
           "demo/src/utils/config.py" "demo/src/utils/" "config.py").
  - reflexivity.
  - apply existsb_eqb_In. vm_compute. reflexivity.
  - reflexivity.
  - discriminate.
  - reflexivity.
Defined.

End PlannerClaims.

(* ================================================================== *)
(** * The claims about the generated content                           *)
(* ================================================================== *)

Section ContentClaims.
Import Types FolderTree Templates.

(** The head of the test-execution step of a workflow: its name and the
    start of the command it runs. *)
Definition runTestsStep : string :=
  "      - name: Run tests
        run: ".

(** The head of the upload step: its name, the condition under which it
    runs, and the action it uses. *)
Definition uploadStep : string :=
  "      - name: Upload test results
        if: always()
        uses: actions/upload-artifact@v4".

(** C9.  For every configuration (so for every valid one), the workflow
    [generateGitHubWorkflow] writes contains a step that runs the tests and,
    after it, a step that uploads the results under the condition
    [if: always()], which makes it run also when the tests fail.  [index n
    s t] is the first position at or after [n] where [s] occurs in [t]. *)
Theorem generateGitHubWorkflow_runs_tests_and_always_uploads (config : ProjectConfig) :
  exists i j : nat,
    index 0 runTestsStep (generateGitHubWorkflow config) = Some i
    /\ index (i + String.length runTestsStep) uploadStep
         (generateGitHubWorkflow config) = Some j.
Proof.
  destruct config as [pn ? ? git ui api lang bt ? ? ? ? ? ci docker].
  destruct lang, bt, ui;
    eexists; eexists; (split; [vm_compute; reflexivity|]);
    vm_compute; reflexivity.
Qed.

(** Two configurations that differ at most in [includeEnvConfig]. *)
Definition sameExceptEnvConfig (c1 c2 : ProjectConfig) : Prop :=
  projectName c1 = projectName c2
  /\ description c1 = description c2
  /\ author c1 = author c2
  /\ initGit c1 = initGit c2
  /\ includeUI c1 = includeUI c2
  /\ includeAPI c1 = includeAPI c2
  /\ language c1 = language c2
  /\ buildTool c1 = buildTool c2
  /\ uiFramework c1 = uiFramework c2
  /\ apiFramework c1 = apiFramework c2
  /\ testRunner c1 = testRunner c2
  /\ reporting c1 = reporting c2
  /\ includeCI c1 = includeCI c2
  /\ includeDocker c1 = includeDocker c2.

(** C10.  [includeEnvConfig] has no influence on what is generated: two
    configurations (valid or not) that differ only in that field get the
    same list of paths from [generateFolderTree] and the same list of paths
    and contents from [generateFiles]. *)
Theorem includeEnvConfig_has_no_influence (c1 c2 : ProjectConfig) :
  sameExceptEnvConfig c1 c2 ->
  generateFolderTree c1 = generateFolderTree c2
  /\ generateFiles c1 = generateFiles c2.
Proof.
  destruct c1, c2. unfold sameExceptEnvConfig. simpl.
  intros (-> & -> & -> & -> & -> & -> & -> & -> & -> & -> & -> & -> & -> & ->).
  split; reflexivity.
Qed.

Definition demoConfigNoEnv : ProjectConfig :=
  {| projectName := "demo";
     description := None;
     author := None;
     initGit := true;
     includeUI := true;
     includeAPI := true;
     language := python;
     buildTool := pip;
     uiFramework := Some playwright;
     apiFramework := Some requests;
     testRunner := pytest;
     reporting := [pytest_html];
     includeEnvConfig := false;
     includeCI := true;
     includeDocker := true |}.

Lemma includeEnvConfig_has_no_influence_witness :
  includeEnvConfig demoConfig <> includeEnvConfig demoConfigNoEnv
  /\ generateFolderTree demoConfig = generateFolderTree demoConfigNoEnv
  /\ generateFiles demoConfig = generateFiles demoConfigNoEnv.
Proof.
  split; [discriminate|].
  apply (includeEnvConfig_has_no_influence demoConfig demoConfigNoEnv).
  repeat split.
Defined.

End ContentClaims.

(* ================================================================== *)
(** * The configuration model and the wizard                           *)
(* ================================================================== *)

Module SlugFacts.
Import Js Wizard.

(** No two hyphens in a row. *)
Fixpoint noHyphenRun (s : string) : bool :=
  match s with
  | EmptyString => true
  | String c rest =>
      match rest with
      | String c' _ => negb (Ascii.eqb c "-" && Ascii.eqb c' "-")
      | EmptyString => true
      end && noHyphenRun rest
  end.

(** Some character of the string is in the class. *)
Fixpoint someChar (f : ascii -> bool) (s : string) : bool :=
  match s with
  | EmptyString => false
  | String c rest => f c || someChar f rest
  end.

Lemma toLowerCaseChar_slug (c : ascii) : isSlugChar c = true -> toLowerCaseChar c = c.
Proof.
  destruct c as [[] [] [] [] [] [] [] []]; vm_compute; intros H;
    first [discriminate H | reflexivity].
Qed.

Lemma toLowerCase_slug (s : string) : allChars isSlugChar s = true -> toLowerCase s = s.
Proof.
  induction s as [|c s IH]; simpl; intros H; [reflexivity|].
  apply andb_true_iff in H as [Hc Hs].
  unfold toLowerCase in *. simpl. now rewrite toLowerCaseChar_slug, IH.
Qed.

Lemma replaceNonSlug_slug (s : string) :
  allChars isSlugChar s = true -> replaceNonSlug s = s.
Proof.
  induction s as [|c s IH]; simpl; intros H; [reflexivity|].
  apply andb_true_iff in H as [Hc Hs].
  unfold replaceNonSlug in *. simpl. now rewrite Hc, IH.
Qed.

Lemma collapseHyphens_noRun (s : string) : noHyphenRun s = true -> collapseHyphens s = s.
Proof.
  induction s as [|c s IH]; simpl; intros H; [reflexivity|].
  apply andb_true_iff in H as [Hc Hs]. rewrite (IH Hs).
  destruct (Ascii.eqb c "-"); [|reflexivity].
  destruct s as [|c' s']; [reflexivity|].
  simpl in Hc. apply negb_true_iff in Hc. now rewrite Hc.
Qed.

Lemma replaceNonSlug_allChars (s : string) : allChars isSlugChar (replaceNonSlug s) = true.
Proof.
  induction s as [|c s IH]; simpl; [reflexivity|].
  unfold replaceNonSlug in *. rewrite IH, andb_true_r.
  destruct (isSlugChar c) eqn:E; [exact E | reflexivity].
Qed.

Lemma collapseHyphens_allChars (s : string) :
  allChars isSlugChar s = true -> allChars isSlugChar (collapseHyphens s) = true.
Proof.
  induction s as [|c s IH]; simpl; intros H; [reflexivity|].
  apply andb_true_iff in H as [Hc Hs]. specialize (IH Hs).
  destruct (Ascii.eqb c "-").
  - destruct s as [|c' s']; [simpl; now rewrite Hc|].
    destruct (Ascii.eqb c' "-"); [exact IH|].
    cbn [allChars]. now rewrite Hc, IH.
  - cbn [allChars]. now rewrite Hc, IH.
Qed.

Lemma collapseHyphens_nonempty (s : string) : s <> "" -> collapseHyphens s <> "".
Proof.
  induction s as [|c s IH]; [congruence|]. intros _. simpl.
  destruct (Ascii.eqb c "-"); [|discriminate].
  destruct s as [|c' s']; [discriminate|].
  destruct (Ascii.eqb c' "-"); [apply IH|]; discriminate.
Qed.

Definition startsWithHyphen (s : string) : bool :=
  match s with
  | String c _ => Ascii.eqb c "-"
  | EmptyString => false
  end.

Lemma collapseHyphens_cons (c : ascii) (s : string) :
  collapseHyphens (String c s) =
  if Ascii.eqb c "-" && startsWithHyphen s
  then collapseHyphens s else String c (collapseHyphens s).
Proof.
  destruct s as [|c' s']; simpl.
  - destruct (Ascii.eqb c "-"); reflexivity.
  - destruct (Ascii.eqb c "-"), (Ascii.eqb c' "-"); reflexivity.
Qed.

(** The first character of a string is the first of its collapsed form. *)
Lemma collapseHyphens_head (c : ascii) (s : string) :
  exists t, collapseHyphens (String c s) = String c t.
Proof.
  revert c. induction s as [|c' s' IH]; intros c; rewrite collapseHyphens_cons.
  - simpl. rewrite andb_false_r. eexists; reflexivity.
  - destruct (Ascii.eqb c "-" && startsWithHyphen (String c' s')) eqn:E;
      [|eexists; reflexivity].
    simpl in E. apply andb_true_iff in E as [E1 E2].
    apply Ascii.eqb_eq in E1, E2. subst. apply IH.
Qed.

Lemma collapseHyphens_noHyphenRun (s : string) : noHyphenRun (collapseHyphens s) = true.
Proof.
  induction s as [|c s IH]; [reflexivity|].
  rewrite collapseHyphens_cons.
  destruct (Ascii.eqb c "-" && startsWithHyphen s) eqn:E; [exact IH|].
  destruct s as [|c' s']; [reflexivity|].
  destruct (collapseHyphens_head c' s') as [t Et]. rewrite Et in *.
  change (negb (Ascii.eqb c "-" && Ascii.eqb c' "-") && noHyphenRun (String c' t) = true).
  simpl in E. now rewrite E, IH.
Qed.

Lemma mapString_nonempty (f : ascii -> ascii) (s : string) : s <> "" -> mapString f s <> "".
Proof. destruct s; [congruence | discriminate]. Qed.

(** Whatever is typed, a non-empty name becomes a slug. *)
Lemma slug_matches (s : string) : s <> "" -> matchesSlug (slug s) = true.
Proof.
  intros H. unfold matchesSlug, slug. apply andb_true_iff. split.
  - apply negb_true_iff, String.eqb_neq, collapseHyphens_nonempty.
    unfold replaceNonSlug. apply mapString_nonempty.
    unfold toLowerCase. apply mapString_nonempty, H.
  - apply collapseHyphens_allChars, replaceNonSlug_allChars.
Qed.

Lemma slug_fixes_slugs (s : string) :
  allChars isSlugChar s = true -> noHyphenRun s = true -> slug s = s.
Proof.
  intros Ha Hn. unfold slug.
  now rewrite toLowerCase_slug, replaceNonSlug_slug, collapseHyphens_noRun.
Qed.

(** The normalisation is idempotent on every input. *)
Lemma slug_idempotent (s : string) : slug (slug s) = slug s.
Proof.
  apply slug_fixes_slugs.
  - unfold slug. apply collapseHyphens_allChars, replaceNonSlug_allChars.
  - unfold slug. apply collapseHyphens_noHyphenRun.
Qed.

Lemma someChar_nonempty (f : ascii -> bool) (s : string) : someChar f s = true -> s <> "".
Proof. destruct s; [discriminate | discriminate]. Qed.

End SlugFacts.

Section ModelClaims.
Import Types Wizard SlugFacts.

(** C6.  The normalisation of the project name returns an already
    normalised name (one that matches [^[a-z0-9-]+$] and has no run of
    hyphens) unchanged; the result for an input with at least one allowed
    character matches [^[a-z0-9-]+$]; and ["My Project!!"] becomes
    ["my-project-"]. *)
Theorem slug_normalisation :
  (forall s : string,
      Js.matchesSlug s = true -> noHyphenRun s = true -> slug s = s)
  /\ (forall s : string,
         someChar Js.isSlugChar s = true -> Js.matchesSlug (slug s) = true)
  /\ slug "My Project!!" = "my-project-".
Proof.
  split; [|split].
  - intros s Hm Hn. apply andb_true_iff in Hm as [_ Ha].
    apply slug_fixes_slugs; assumption.
  - intros s H. apply slug_matches. exact (someChar_nonempty _ _ H).
  - reflexivity.
Qed.

Lemma slug_normalisation_witness :
  slug "my-project-" = "my-project-"
  /\ Js.matchesSlug (slug "My Project!!") = true.
Proof.
  destruct slug_normalisation as (Hfix & Hmatch & _). split.
  - apply Hfix; reflexivity.
  - apply Hmatch. reflexivity.
Defined.

(** The issue the refinement of the schema reports. *)
Definition coverageIssue : Issue :=
  {| issuePath := [ "includeUI" ];
     message := "At least one test type (UI or API) must be selected" |}.

(** An issue of the refinement makes the parse fail and is among the issues
    of the failure. *)
Lemma safeParse_refine_issue (input : ProjectConfigInput) (i : Issue) :
  In i (refineIssues (parsedData input)) ->
  exists issues : list Issue, safeParse input = Failure issues /\ In i issues.
Proof.
  intros Hi. unfold safeParse.
  assert (Hin : In i (fieldIssues input ++ refineIssues (parsedData input)))
    by (apply in_or_app; now right).
  destruct (fieldIssues input ++ refineIssues (parsedData input)) as [|x l];
    [contradiction|].
  exists (x :: l). split; [reflexivity | exact Hin].
Qed.

Lemma refineIssues_no_coverage (data : ProjectConfig) :
  includeUI data = false -> includeAPI data = false ->
  refineIssues data = [ coverageIssue ].
Proof. intros Hui Hapi. unfold refineIssues. now rewrite Hui, Hapi. Qed.


(** The wizard's own check at the coverage step reports the same field. *)
Lemma validateStep_requires_coverage (config : PartialConfig) :
  flag (includeUI_ config) = false -> flag (includeAPI_ config) = false ->
  validateStep 2 config = [ ("includeUI", "Select at least one test type") ].
Proof. intros Hui Hapi. unfold validateStep. simpl. now rewrite Hui, Hapi. Qed.

(** No configuration without coverage is valid for generation. *)
Lemma validConfig_requires_coverage (c : ProjectConfig) :
  includeUI c = false -> includeAPI c = false -> validConfig c = false.
Proof.
  intros Hui Hapi. unfold validConfig, passesSchema.
  destruct (safeParse_refine_issue (asInput c) coverageIssue) as [issues [-> _]].
  - rewrite refineIssues_no_coverage by assumption. now left.
  - reflexivity.
Qed.



(** C8.  After a change of language the merged configuration has the new
    language and the first listed (and valid) build tool, test runner and
    reporting option of that language; the UI framework (the API framework)
    is set to the first listed one when [includeUI] ([includeAPI]) is set,
    and otherwise it is not part of the update and stays as it was.  A
    TypeScript configuration with [pnpm] that switches to Java ends with
    Maven, one of Java's build tools. *)
Theorem handleLanguageChange_resets (config : PartialConfig) (newLanguage : Language) :
  let newOptions := validCombinations newLanguage in
  let updates := handleLanguageChange config newLanguage in
  let next := updateConfig config updates in
  language_ next = Some newLanguage
  /\ (exists b, buildTool_ next = Some b
                /\ hd_error (buildTools newOptions) = Some b
                /\ isValidBuildTool newLanguage b = true)
  /\ (exists r, testRunner_ next = Some r
                /\ hd_error (testRunners newOptions) = Some r
                /\ isValidTestRunner newLanguage r = true)
  /\ (exists o, reporting_ next = Some [o]
                /\ hd_error (reportingOptions newOptions) = Some o
                /\ isValidReporting newLanguage o = true)
  /\ (flag (includeUI_ config) = true ->
      exists f, uiFramework_ next = Some f
                /\ hd_error (uiFrameworks newOptions) = Some f
                /\ isValidUIFramework newLanguage f = true)
  /\ (flag (includeUI_ config) = false ->
      uiFramework_ updates = None /\ uiFramework_ next = uiFramework_ config)
  /\ (flag (includeAPI_ config) = true ->
      exists f, apiFramework_ next = Some f
                /\ hd_error (apiFrameworks newOptions) = Some f
                /\ isValidAPIFramework newLanguage f = true)
  /\ (flag (includeAPI_ config) = false ->
      apiFramework_ updates = None /\ apiFramework_ next = apiFramework_ config)
  /\ (newLanguage = java ->
      buildTool_ next = Some maven /\ buildTool_ next <> Some pnpm).
Proof.
  cbv zeta. unfold updateConfig, handleLanguageChange. cbn [language_ buildTool_
    testRunner_ reporting_ uiFramework_ apiFramework_ over].
  repeat match goal with |- _ /\ _ => split end.
  - reflexivity.
  - destruct newLanguage; eexists; repeat split.
  - destruct newLanguage; eexists; repeat split.
  - destruct newLanguage; eexists; repeat split.
  - intros ->. destruct newLanguage; eexists; repeat split.
  - intros ->. split; reflexivity.
  - intros ->. destruct newLanguage; eexists; repeat split.
  - intros ->. split; reflexivity.
  - intros ->. split; [reflexivity | discriminate].
Qed.

(** The default configuration after the user chose [pnpm]. *)
Definition pnpmConfig : PartialConfig :=
  updateConfig defaultConfig
    {| projectName_ := None; description_ := None; author_ := None;
       initGit_ := None; includeUI_ := None; includeAPI_ := None;
       language_ := None; buildTool_ := Some pnpm; uiFramework_ := None;
       apiFramework_ := None; testRunner_ := None; reporting_ := None;
       includeEnvConfig_ := None; includeCI_ := None; includeDocker_ := None |}.

Lemma handleLanguageChange_resets_witness :
  buildTool_ pnpmConfig = Some pnpm
  /\ buildTool_ (updateConfig pnpmConfig (handleLanguageChange pnpmConfig java))
     = Some maven
  /\ uiFramework_ (updateConfig pnpmConfig (handleLanguageChange pnpmConfig java))
     = Some selenium
  /\ apiFramework_ (updateConfig pnpmConfig (handleLanguageChange pnpmConfig java))
     = None.
Proof.
  pose proof (handleLanguageChange_resets pnpmConfig java) as H. cbv zeta in H.
  destruct H as (_ & _ & _ & _ & Hui & _ & _ & Hapi & Hjava).
  split; [reflexivity|]. split; [apply Hjava; reflexivity|].
  split.
  - destruct (Hui eq_refl) as [f (-> & Hf & _)]. simpl in Hf. congruence.
  - destruct (Hapi eq_refl) as [_ ->]. reflexivity.
Defined.

End ModelClaims.

(* ================================================================== *)
(** * The tree builder                                                 *)
(* ================================================================== *)

Module TreeFacts.
Import TreeView JsFacts.

(** ** Looking a node up by the segments that lead to it *)

Definition nameIs (s : string) (n : TreeNode) : bool := (name n =? s)%string.

(** The node reached from the roots by the given segments, taking at every
    level the first node of the asked name. *)
Fixpoint nodeAt (segments : list string) (nodes : list TreeNode) : option TreeNode :=
  match segments with
  | [] => None
  | s :: rest =>
      match find (nameIs s) nodes with
      | None => None
      | Some n =>
          match rest with
          | [] => Some n
          | _ :: _ => nodeAt rest (children n)
          end
      end
  end.

Definition folderAt (segments : list string) (nodes : list TreeNode) : option bool :=
  option_map isFolder (nodeAt segments nodes).

(** What one path says about the node at [segments]: nothing when the
    segments are not a non-empty prefix of its parts, and otherwise the
    [isFolder] the loop computes at that position. *)
Fixpoint flagFor (trailing : bool) (parts segments : list string) : option bool :=
  match segments, parts with
  | s :: more, part :: rest =>
      if (s =? part)%string then
        match more with
        | [] => Some (negb (Nat.eqb (List.length rest) 0) || trailing)
        | _ :: _ => flagFor trailing rest more
        end
      else None
  | _, _ => None
  end.

Definition pathFlag (path : string) (segments : list string) : option bool :=
  flagFor (Js.endsWith path "/") (pathParts path) segments.

(** The first path of the list that says something about the node. *)
Fixpoint firstFlag (segments : list string) (paths : list string) : option bool :=
  match paths with
  | [] => None
  | p :: more =>
      match pathFlag p segments with
      | Some b => Some b
      | None => firstFlag segments more
      end
  end.

Definition orFirst (a b : option bool) : option bool :=
  match a with Some x => Some x | None => b end.

Lemma flagFor_nil_parts (tr : bool) (segments : list string) :
  flagFor tr [] segments = None.
Proof. destruct segments; reflexivity. Qed.

Lemma find_visit_same (part : string) (fl : bool)
    (k : list TreeNode -> list TreeNode) (cur : list TreeNode) :
  find (nameIs part) (visit part fl k cur) =
  Some match find (nameIs part) cur with
       | Some n => Node (name n) (isFolder n) (k (children n))
       | None => Node part fl (k [])
       end.
Proof.
  induction cur as [|n more IH]; simpl.
  - unfold nameIs. simpl. now rewrite String.eqb_refl.
  - unfold nameIs at 2. destruct (name n =? part)%string eqn:E; simpl.
    + unfold nameIs. simpl. now rewrite E.
    + unfold nameIs at 1. rewrite E. exact IH.
Qed.

Lemma find_visit_other (s part : string) (fl : bool)
    (k : list TreeNode -> list TreeNode) (cur : list TreeNode) :
  s <> part ->
  find (nameIs s) (visit part fl k cur) = find (nameIs s) cur.
Proof.
  intros Hne. induction cur as [|n more IH]; simpl.
  - unfold nameIs. simpl. apply String.eqb_neq in Hne.
    rewrite String.eqb_sym. now rewrite Hne.
  - destruct (name n =? part)%string eqn:E; simpl.
    + unfold nameIs. simpl. apply String.eqb_eq in E. rewrite E.
      apply String.eqb_neq in Hne. rewrite String.eqb_sym, Hne. reflexivity.
    + now rewrite IH.
Qed.

(** A path decides the flag of the nodes it creates and leaves the nodes
    that exist as they are. *)
Lemma folderAt_addParts (tr : bool) (parts segments : list string)
    (nodes : list TreeNode) :
  folderAt segments (addParts tr parts nodes) =
  orFirst (folderAt segments nodes) (flagFor tr parts segments).
Proof.
  revert segments nodes.
  induction parts as [|part rest IH]; intros segments nodes.
  - cbn [addParts]. rewrite flagFor_nil_parts. now destruct (folderAt segments nodes).
  - destruct segments as [|s more].
    + reflexivity.
    + cbn [addParts flagFor]. unfold folderAt. cbn [nodeAt].
      destruct (String.eqb_spec s part) as [->|Hne].
      * rewrite find_visit_same.
        destruct (find (nameIs part) nodes) as [n|]; destruct more as [|s' more'].
        -- reflexivity.
        -- cbn [children]. apply IH.
        -- reflexivity.
        -- cbn [children]. specialize (IH (s' :: more') []). exact IH.
      * rewrite (find_visit_other _ _ _ _ _ Hne).
        now destruct (option_map isFolder _).
Qed.

Lemma folderAt_fold (segments : list string) (paths : list string)
    (nodes : list TreeNode) :
  folderAt segments (fold_left addPath paths nodes) =
  orFirst (folderAt segments nodes) (firstFlag segments paths).
Proof.
  revert nodes. induction paths as [|p more IH]; intros nodes; cbn [fold_left firstFlag].
  - now destruct (folderAt segments nodes).
  - rewrite IH. unfold addPath. rewrite folderAt_addParts.
    fold (pathFlag p segments).
    destruct (folderAt segments nodes); [reflexivity|].
    simpl. now destruct (pathFlag p segments).
Qed.

Lemma folderAt_insertAll (segments : list string) (paths : list string) :
  folderAt segments (insertAll paths) = firstFlag segments paths.
Proof.
  unfold insertAll. rewrite folderAt_fold.
  destruct segments; reflexivity.
Qed.

End TreeFacts.

Module TreeShape.
Import TreeView JsFacts TreeFacts.

(** ** Induction on trees *)

Lemma TreeNode_nested_ind (P : TreeNode -> Prop) :
  (forall x b l, Forall P l -> P (Node x b l)) -> forall n, P n.
Proof.
  intros step. fix IH 1. intros [x b l]. apply step.
  induction l as [|n l IHl]; constructor; [apply IH | exact IHl].
Qed.

(** Induction on a forest: a property holds of a list of nodes as soon as
    it holds of the children of each of them. *)
Lemma forest_ind (Q : list TreeNode -> Prop) :
  (forall l, Forall (fun n => Q (children n)) l -> Q l) -> forall l, Q l.
Proof.
  intros step l. apply step.
  induction l as [|n l IHl]; constructor; [|exact IHl].
  induction n as [x b ch IH] using TreeNode_nested_ind.
  simpl. apply step. exact IH.
Qed.

(** ** Sibling names are unique *)

Inductive UniqueNames : list TreeNode -> Prop :=
| unique_names (nodes : list TreeNode) :
    NoDup (map name nodes) ->
    Forall (fun n => UniqueNames (children n)) nodes ->
    UniqueNames nodes.

Lemma UniqueNames_nil : UniqueNames [].
Proof. constructor; constructor. Qed.

Lemma UniqueNames_NoDup (l : list TreeNode) : UniqueNames l -> NoDup (map name l).
Proof. now inversion 1. Qed.

Lemma UniqueNames_children (l : list TreeNode) (n : TreeNode) :
  UniqueNames l -> In n l -> UniqueNames (children n).
Proof.
  inversion 1 as [? _ Hall]; subst. rewrite Forall_forall in Hall. apply Hall.
Qed.

Lemma find_nameIs_In (s : string) (l : list TreeNode) (n : TreeNode) :
  find (nameIs s) l = Some n -> In n l /\ name n = s.
Proof.
  intros H. apply find_some in H as [Hin Hn]. split; [exact Hin|].
  now apply String.eqb_eq in Hn.
Qed.

Lemma find_nameIs_None (s : string) (l : list TreeNode) :
  find (nameIs s) l = None -> ~ In s (map name l).
Proof.
  intros H Hin. apply in_map_iff in Hin as [n [Hn Hin]].
  pose proof (find_none _ _ H n Hin) as Hf. unfold nameIs in Hf.
  rewrite Hn, String.eqb_refl in Hf. discriminate.
Qed.


Lemma map_name_visit (part : string) (fl : bool)
    (k : list TreeNode -> list TreeNode) (cur : list TreeNode) :
  map name (visit part fl k cur) =
  if existsb (nameIs part) cur then map name cur else map name cur ++ [part].
Proof.
  induction cur as [|n more IH]; simpl; [reflexivity|].
  unfold nameIs at 1. destruct (name n =? part)%string; simpl; [reflexivity|].
  rewrite IH. now destruct (existsb (nameIs part) more).
Qed.

Lemma existsb_nameIs_false (part : string) (cur : list TreeNode) :
  existsb (nameIs part) cur = false -> ~ In part (map name cur).
Proof.
  intros H Hin. apply in_map_iff in Hin as [n [Hn Hin]].
  assert (existsb (nameIs part) cur = true); [|congruence].
  apply existsb_exists. exists n. split; [exact Hin|].
  unfold nameIs. rewrite Hn. apply String.eqb_refl.
Qed.

Lemma UniqueNames_visit (part : string) (fl : bool)
    (k : list TreeNode -> list TreeNode) (cur : list TreeNode) :
  (forall l, UniqueNames l -> UniqueNames (k l)) ->
  UniqueNames cur -> UniqueNames (visit part fl k cur).
Proof.
  intros Hk Hcur. constructor.
  - rewrite map_name_visit. destruct (existsb (nameIs part) cur) eqn:E.
    + apply UniqueNames_NoDup, Hcur.
    + apply NoDup_app; [apply UniqueNames_NoDup, Hcur | repeat constructor; auto |].
      intros x Hx [<-|[]]. exact (existsb_nameIs_false _ _ E Hx).
  - inversion Hcur as [? _ Hall]; subst. clear Hcur.
    induction cur as [|n more IH]; simpl.
    + constructor; [|constructor]. simpl. apply Hk, UniqueNames_nil.
    + inversion Hall as [|? ? Hn Hmore]; subst.
      destruct (name n =? part)%string.
      * constructor; [|exact Hmore]. simpl. apply Hk, Hn.
      * constructor; [exact Hn | apply IH, Hmore].
Qed.

Lemma UniqueNames_addParts (tr : bool) (parts : list string) (nodes : list TreeNode) :
  UniqueNames nodes -> UniqueNames (addParts tr parts nodes).
Proof.
  revert nodes. induction parts as [|part rest IH]; intros nodes H; simpl.
  - exact H.
  - apply UniqueNames_visit; [exact IH | exact H].
Qed.

Lemma UniqueNames_fold (paths : list string) (nodes : list TreeNode) :
  UniqueNames nodes -> UniqueNames (fold_left addPath paths nodes).
Proof.
  revert nodes. induction paths as [|p more IH]; intros nodes H; simpl.
  - exact H.
  - apply IH. unfold addPath. apply UniqueNames_addParts, H.
Qed.

Lemma UniqueNames_insertAll (paths : list string) : UniqueNames (insertAll paths).
Proof. apply UniqueNames_fold, UniqueNames_nil. Qed.

(** ** Looking up after a permutation *)

Lemma find_nameIs_perm (s : string) (l l' : list TreeNode) :
  Permutation l l' -> NoDup (map name l) ->
  find (nameIs s) l = find (nameIs s) l'.
Proof.
  induction 1 as [|x l l' Hp IH|x y l|l l' l'' Hp1 IH1 Hp2 IH2]; intros Hnd.
  - reflexivity.
  - simpl. inversion Hnd; subst. now rewrite IH.
  - simpl. unfold nameIs.
    destruct (String.eqb_spec (name y) s) as [Ey|Ey];
      destruct (String.eqb_spec (name x) s) as [Ex|Ex]; try reflexivity.
    exfalso. simpl in Hnd. inversion Hnd as [|? ? Hy _]; subst.
    apply Hy. left. congruence.
  - rewrite IH1 by exact Hnd. apply IH2.
    eapply Permutation_NoDup; [apply Permutation_map, Hp1 | exact Hnd].
Qed.

Section Sorted.

Variable localeCompare : string -> string -> comparison.

Lemma name_sortNode (n : TreeNode) : name (sortNode localeCompare n) = name n.
Proof. now destruct n. Qed.

Lemma isFolder_sortNode (n : TreeNode) : isFolder (sortNode localeCompare n) = isFolder n.
Proof. now destruct n. Qed.

Lemma children_sortNode (n : TreeNode) :
  children (sortNode localeCompare n) = sortNodes localeCompare (children n).
Proof. now destruct n. Qed.

Lemma map_name_sortNode (l : list TreeNode) :
  map name (map (sortNode localeCompare) l) = map name l.
Proof.
  rewrite map_map. apply map_ext. exact name_sortNode.
Qed.

Lemma find_map_sortNode (s : string) (l : list TreeNode) :
  find (nameIs s) (map (sortNode localeCompare) l) =
  option_map (sortNode localeCompare) (find (nameIs s) l).
Proof.
  induction l as [|n l IH]; simpl; [reflexivity|].
  unfold nameIs at 1 3. rewrite name_sortNode.
  now destruct (name n =? s)%string.
Qed.

Lemma find_sortNodes (s : string) (l : list TreeNode) :
  NoDup (map name l) ->
  find (nameIs s) (sortNodes localeCompare l) =
  option_map (sortNode localeCompare) (find (nameIs s) l).
Proof.
  intros Hnd. unfold sortNodes. rewrite <- find_map_sortNode.
  apply find_nameIs_perm.
  - apply sortBy_perm.
  - eapply Permutation_NoDup;
      [apply Permutation_map, Permutation_sym, sortBy_perm|].
    now rewrite map_name_sortNode.
Qed.

(** Sorting moves no node to another place in the hierarchy. *)
Lemma nodeAt_sortNodes (segments : list string) (nodes : list TreeNode) :
  UniqueNames nodes ->
  nodeAt segments (sortNodes localeCompare nodes) =
  option_map (sortNode localeCompare) (nodeAt segments nodes).
Proof.
  revert nodes. induction segments as [|s rest IH]; intros nodes Hu.
  - reflexivity.
  - cbn [nodeAt]. rewrite (find_sortNodes _ _ (UniqueNames_NoDup _ Hu)).
    destruct (find (nameIs s) nodes) as [n|] eqn:E; [|reflexivity].
    cbn [option_map]. destruct rest as [|s' rest']; [reflexivity|].
    rewrite children_sortNode. apply IH.
    apply find_nameIs_In in E as [Hin _].
    exact (UniqueNames_children _ _ Hu Hin).
Qed.

Lemma folderAt_sortNodes (segments : list string) (nodes : list TreeNode) :
  UniqueNames nodes ->
  folderAt segments (sortNodes localeCompare nodes) = folderAt segments nodes.
Proof.
  intros Hu. unfold folderAt. rewrite (nodeAt_sortNodes _ _ Hu).
  destruct (nodeAt segments nodes); [|reflexivity].
  simpl. now rewrite isFolder_sortNode.
Qed.

(** The flag of every node of the built tree is the one the first path that
    reaches the node computes. *)
Lemma folderAt_buildTree (segments : list string) (paths : list string) :
  folderAt segments (buildTree localeCompare paths) = firstFlag segments paths.
Proof.
  unfold buildTree.
  rewrite (folderAt_sortNodes _ _ (UniqueNames_insertAll paths)).
  apply folderAt_insertAll.
Qed.

End Sorted.

End TreeShape.

Module SortFacts.
Import Js JsFacts.

(** ** A sorted list is determined by its elements *)


Section SortByUnique.

Context {A : Type} (cmp : A -> A -> comparison).
Hypothesis cmp_total : forall a b, cmp a b = Gt -> cmp b a <> Gt.
Hypothesis cmp_trans : forall a b c,
  notAfter cmp a b -> notAfter cmp b c -> notAfter cmp a c.



End SortByUnique.

(** ** The order of the code units is a total order *)

Lemma ascii_compare_refl (a : ascii) : Ascii.compare a a = Eq.
Proof. unfold Ascii.compare. apply N.compare_refl. Qed.



End SortFacts.

Module TreeOrder.
Import TreeView JsFacts SortFacts TreeFacts TreeShape.

(** ** What a path says about a node, in words *)

(** The path is a file path whose parts are exactly the segments. *)
Definition fileAt (path : string) (segments : list string) : Prop :=
  segments <> [] /\ pathParts path = segments /\ Js.endsWith path "/" = false.

(** The path has the segments as a directory: they are a proper prefix of
    its parts, or all of them and the path ends in a slash. *)
Definition folderAtPath (path : string) (segments : list string) : Prop :=
  segments <> []
  /\ exists post, pathParts path = segments ++ post
                  /\ (post <> [] \/ Js.endsWith path "/" = true).

Lemma length_zero_nil {A : Type} (l : list A) : Nat.eqb (List.length l) 0 = true <-> l = [].
Proof. destruct l; simpl; split; congruence. Qed.

Lemma flagFor_spec (tr : bool) (parts segments : list string) (b : bool) :
  flagFor tr parts segments = Some b <->
  segments <> [] /\
  exists post, parts = segments ++ post
               /\ b = (negb (Nat.eqb (List.length post) 0) || tr).
Proof.
  revert parts. induction segments as [|s more IH]; intros parts.
  - destruct parts; simpl; (split; [discriminate | intros [H _]; congruence]).
  - destruct parts as [|part rest].
    + simpl. split; [discriminate | intros [_ [post [H _]]]; discriminate].
    + cbn [flagFor]. destruct (String.eqb_spec s part) as [->|Hne].
      * destruct more as [|s' more'].
        -- split.
           ++ intros [= <-]. split; [discriminate|]. exists rest. split; reflexivity.
           ++ intros [_ [post [Hp ->]]]. simpl in Hp. injection Hp as <-. reflexivity.
        -- rewrite IH. split.
           ++ intros [_ [post [-> ->]]]. split; [discriminate|].
              exists post. split; reflexivity.
           ++ intros [_ [post [Hp ->]]]. simpl in Hp. injection Hp as ->.
              split; [discriminate|]. exists post. split; reflexivity.
      * split; [discriminate|]. intros [_ [post [Hp _]]]. simpl in Hp.
        injection Hp as E _. congruence.
Qed.

Lemma pathFlag_false (path : string) (segments : list string) :
  pathFlag path segments = Some false <-> fileAt path segments.
Proof.
  unfold pathFlag, fileAt. rewrite flagFor_spec. split.
  - intros [Hs [post [Hp Hb]]]. symmetry in Hb. apply orb_false_iff in Hb as [Hl Ht].
    apply negb_false_iff, length_zero_nil in Hl. subst post.
    rewrite app_nil_r in Hp. auto.
  - intros [Hs [Hp Ht]]. split; [exact Hs|]. exists []. rewrite app_nil_r, Ht.
    split; [exact Hp | reflexivity].
Qed.

Lemma pathFlag_true (path : string) (segments : list string) :
  pathFlag path segments = Some true <-> folderAtPath path segments.
Proof.
  unfold pathFlag, folderAtPath. rewrite flagFor_spec. split.
  - intros [Hs [post [Hp Hb]]]. split; [exact Hs|]. exists post. split; [exact Hp|].
    symmetry in Hb. apply orb_true_iff in Hb as [Hl|Ht]; [left|now right].
    apply negb_true_iff in Hl. intros ->. discriminate.
  - intros [Hs [post [Hp Hb]]]. split; [exact Hs|]. exists post. split; [exact Hp|].
    symmetry. apply orb_true_iff. destruct Hb as [Hb|Hb]; [left|now right].
    apply negb_true_iff. destruct post; [congruence | reflexivity].
Qed.

(** No path of the list names as a file what a path of the list has as a
    directory. *)
Definition conflictFree (paths : list string) : Prop :=
  forall p q segments,
    In p paths -> In q paths -> fileAt p segments -> ~ folderAtPath q segments.

Lemma firstFlag_Some (segments : list string) (paths : list string) (b : bool) :
  firstFlag segments paths = Some b ->
  exists p, In p paths /\ pathFlag p segments = Some b.
Proof.
  induction paths as [|p more IH]; simpl; [discriminate|].
  destruct (pathFlag p segments) as [b'|] eqn:E.
  - intros [= <-]. exists p. auto.
  - intros H. destruct (IH H) as [q [Hq Hf]]. exists q. auto.
Qed.

Lemma firstFlag_None (segments : list string) (paths : list string) :
  firstFlag segments paths = None ->
  forall p, In p paths -> pathFlag p segments = None.
Proof.
  induction paths as [|p more IH]; simpl; [contradiction|].
  destruct (pathFlag p segments) as [b'|] eqn:E; [discriminate|].
  intros H q [<-|Hq]; [exact E | apply IH; assumption].
Qed.

Lemma conflictFree_flags (paths : list string) (p q : string)
    (segments : list string) (b b' : bool) :
  conflictFree paths -> In p paths -> In q paths ->
  pathFlag p segments = Some b -> pathFlag q segments = Some b' -> b = b'.
Proof.
  intros Hc Hp Hq Hb Hb'. destruct b, b'; try reflexivity; exfalso.
  - apply (Hc q p segments Hq Hp); [apply pathFlag_false, Hb' | apply pathFlag_true, Hb].
  - apply (Hc p q segments Hp Hq); [apply pathFlag_false, Hb | apply pathFlag_true, Hb'].
Qed.


(** ** A property of the children at every level *)


Section Order.

Variable localeCompare : string -> string -> comparison.

(** The collation is a total order on names. *)
Hypothesis localeCompare_antisym :
  forall a b, localeCompare a b = CompOpp (localeCompare b a).
Hypothesis localeCompare_trans :
  forall a b c,
    localeCompare a b <> Gt -> localeCompare b c <> Gt -> localeCompare a c <> Gt.
Hypothesis localeCompare_eq :
  forall a b, localeCompare a b = Eq -> a = b.






(** *** Every level of the sorted tree is in order *)


(** *** Two forests with the same nodes sort to the same tree *)






End Order.

End TreeOrder.

(* ================================================================== *)
(** * The claims about the tree builder                                *)
(* ================================================================== *)

Section TreeClaims.
Import TreeView JsFacts SortFacts TreeFacts TreeShape TreeOrder.

Lemma firstFlag_app (segments : list string) (l1 l2 : list string) :
  firstFlag segments (l1 ++ l2) =
  orFirst (firstFlag segments l1) (firstFlag segments l2).
Proof.
  induction l1 as [|p l1 IH]; simpl; [reflexivity|].
  now destruct (pathFlag p segments).
Qed.

Lemma nodeAt_name (segments : list string) (nodes : list TreeNode) (n : TreeNode) :
  nodeAt segments nodes = Some n -> name n = last segments "".
Proof.
  revert nodes. induction segments as [|s rest IH]; intros nodes; [discriminate|].
  cbn [nodeAt]. destruct (find (nameIs s) nodes) as [m|] eqn:E; [|discriminate].
  destruct rest as [|s' rest'].
  - intros [= <-]. now apply find_nameIs_In in E.
  - intros H. apply IH in H. exact H.
Qed.

(** The decision of [conflictFree]: only the parts of a file path can be the
    segments of a conflict. *)
Definition conflictFreeb (paths : list string) : bool :=
  forallb (fun p =>
    Js.endsWith p "/"
    || forallb (fun q =>
         match pathFlag q (pathParts p) with
         | Some true => false
         | _ => true
         end) paths) paths.

Lemma conflictFreeb_spec (paths : list string) :
  conflictFreeb paths = true -> conflictFree paths.
Proof.
  unfold conflictFreeb. rewrite forallb_forall.
  intros H p q segments Hp Hq (_ & Hparts & Hfile) Hfolder.
  specialize (H p Hp). rewrite Hfile in H. simpl in H.
  rewrite forallb_forall in H. specialize (H q Hq).
  apply pathFlag_true in Hfolder. rewrite Hparts, Hfolder in H. discriminate.
Qed.




(** C5 (as amended).  A segment that is not the last part of an input path
    is a directory node of the tree, with or without a directory marker of
    its own in the input, provided no path processed earlier is a file path
    whose parts end at that segment: the node keeps the [isFolder] of the
    first path that reaches it. *)
Theorem buildTree_inner_segment_is_folder
    (localeCompare : string -> string -> comparison)
    (before after : list string) (path : string) (pre post : list string) :
  pathParts path = pre ++ post -> pre <> [] -> post <> [] ->
  (forall q, In q before -> ~ fileAt q pre) ->
  exists n,
    nodeAt pre (buildTree localeCompare (before ++ path :: after)) = Some n
    /\ isFolder n = true
    /\ name n = last pre "".
Proof.
  intros Hparts Hpre Hpost Hbefore.
  pose proof (folderAt_buildTree localeCompare pre (before ++ path :: after)) as H.
  rewrite firstFlag_app in H.
  assert (Hp : pathFlag path pre = Some true).
  { apply pathFlag_true. split; [exact Hpre|]. exists post. auto. }
  assert (Hb : firstFlag pre before <> Some false).
  { intros E. apply firstFlag_Some in E as [q [Hq Hf]].
    apply pathFlag_false in Hf. exact (Hbefore q Hq Hf). }
  cbn [firstFlag] in H. rewrite Hp in H.
  assert (Ht : folderAt pre (buildTree localeCompare (before ++ path :: after))
               = Some true).
  { rewrite H. destruct (firstFlag pre before) as [[|]|]; [reflexivity | congruence | reflexivity]. }
  unfold folderAt in Ht.
  destruct (nodeAt pre (buildTree localeCompare (before ++ path :: after)))
    as [n|] eqn:En; [|discriminate].
  exists n. repeat split.
  - now injection Ht.
  - exact (nodeAt_name _ _ _ En).
Qed.

Lemma buildTree_inner_segment_is_folder_witness :
  exists n,
    nodeAt [ "p"; "a" ] (buildTree String.compare [ "p/b.txt"; "p/a/x.txt" ]) = Some n
    /\ isFolder n = true
    /\ name n = "a".
Proof.
  apply (buildTree_inner_segment_is_folder String.compare
           [ "p/b.txt" ] [] "p/a/x.txt" [ "p"; "a" ] [ "x.txt" ]).
  - reflexivity.
  - discriminate.
  - discriminate.
  - intros q [<-|[]] (_ & H & _). vm_compute in H. discriminate H.
Defined.

(** C5 (the claim as it stands fails).  In ["a"; "a/b"] the segment [a] is
    not the last part of the path ["a/b"], and its node is a file node: the
    path ["a"], processed first, created it. *)
Lemma buildTree_file_first_counterexample :
  In "a/b" [ "a"; "a/b" ]
  /\ pathParts "a/b" = [ "a" ] ++ [ "b" ]
  /\ nodeAt [ "a" ] (buildTree String.compare [ "a"; "a/b" ])
     = Some (Node "a" false [ Node "b" false [] ]).
Proof.
  split; [simpl; tauto|]. split; reflexivity.
Qed.

End TreeClaims.

(* ================================================================== *)
(** * More on the planner and the generator                            *)
(* ================================================================== *)

Module GeneratorFacts.
Import Types FolderTree Templates JsFacts FolderTreeFacts PlannerFacts.

(** ** Membership, relative to the project name *)

(** The planner lists the path [projectName/rest]. *)
Definition planned (c : ProjectConfig) (rest : string) : Prop :=
  In (projectName c ++ "/" ++ rest)%string (generateFolderTree c).

(** The generator writes a file at the path [projectName/rest]. *)
Definition written (c : ProjectConfig) (rest : string) : Prop :=
  In (projectName c ++ "/" ++ rest)%string (map path (generateFiles c)).

Definition plannedb (c : ProjectConfig) (rest : string) : bool :=
  existsb (String.eqb ("/" ++ rest)%string) (relative c).

Definition writtenb (c : ProjectConfig) (rest : string) : bool :=
  existsb (String.eqb ("/" ++ rest)%string) (relativeFiles c).

Lemma In_map_append (pn q : string) (l : list string) :
  In (pn ++ q)%string (map (String.append pn) l) <-> In q l.
Proof.
  rewrite in_map_iff. split.
  - intros [q' [E H]]. apply append_inj in E. now subst.
  - intros H. exists q. auto.
Qed.

Lemma planned_iff (c : ProjectConfig) (rest : string) :
  planned c rest <-> plannedb c rest = true.
Proof.
  unfold planned, plannedb, generateFolderTree, Js.sort.
  rewrite sortBy_In, paths_relative, In_map_append. symmetry. apply existsb_eqb_In.
Qed.

Lemma written_iff (c : ProjectConfig) (rest : string) :
  written c rest <-> writtenb c rest = true.
Proof.
  unfold written, writtenb.
  rewrite generateFiles_relative, In_map_append. symmetry. apply existsb_eqb_In.
Qed.

(** ** Deciding by the shape of the configuration

    The planner and the paths of the generator branch on seven fields.  A
    statement about them is checked on the 576 combinations of these
    fields at once. *)

Definition ofShape (lang : Language) (bt : BuildTool) (git ui api ci docker : bool)
  : ProjectConfig :=
  {| projectName := EmptyString;
     description := None;
     author := None;
     initGit := git;
     includeUI := ui;
     includeAPI := api;
     language := lang;
     buildTool := bt;
     uiFramework := None;
     apiFramework := None;
     testRunner := playwright_test;
     reporting := [];
     includeEnvConfig := true;
     includeCI := ci;
     includeDocker := docker |}.

Definition shapeOf (c : ProjectConfig) : ProjectConfig :=
  ofShape (language c) (buildTool c) (initGit c) (includeUI c) (includeAPI c)
    (includeCI c) (includeDocker c).

Definition everyShape (P : ProjectConfig -> bool) : bool :=
  forallb (fun lang =>
  forallb (fun bt =>
  forallb (fun git =>
  forallb (fun ui =>
  forallb (fun api =>
  forallb (fun ci =>
  forallb (fun docker => P (ofShape lang bt git ui api ci docker))
    [true; false]) [true; false]) [true; false]) [true; false]) [true; false])
    [npm; pnpm; maven; gradle; pip; poetry]) [typescript; java; python].

Lemma In_bools (b : bool) : In b [true; false].
Proof. destruct b; simpl; tauto. Qed.

Lemma everyShape_spec (P : ProjectConfig -> bool) :
  everyShape P = true -> forall c, P (shapeOf c) = true.
Proof.
  unfold everyShape, shapeOf. intros H c.
  rewrite forallb_forall in H.
  assert (Hl : In (language c) [typescript; java; python])
    by (destruct (language c); simpl; tauto).
  specialize (H _ Hl). rewrite forallb_forall in H.
  assert (Hb : In (buildTool c) [npm; pnpm; maven; gradle; pip; poetry])
    by (destruct (buildTool c); simpl; tauto).
  specialize (H _ Hb). rewrite forallb_forall in H.
  specialize (H (initGit c) (In_bools _)). rewrite forallb_forall in H.
  specialize (H (includeUI c) (In_bools _)). rewrite forallb_forall in H.
  specialize (H (includeAPI c) (In_bools _)). rewrite forallb_forall in H.
  specialize (H (includeCI c) (In_bools _)). rewrite forallb_forall in H.
  exact (H (includeDocker c) (In_bools _)).
Qed.

Lemma relative_shapeOf (c : ProjectConfig) : relative (shapeOf c) = relative c.
Proof. destruct c; reflexivity. Qed.

Lemma relativeFiles_shapeOf (c : ProjectConfig) :
  relativeFiles (shapeOf c) = relativeFiles c.
Proof. by_shape c; lazy; reflexivity. Qed.

Lemma planned_by_shape (rest : string) (q : ProjectConfig -> bool) :
  everyShape (fun s => Bool.eqb (plannedb s rest) (q s)) = true ->
  forall c, q (shapeOf c) = q c -> (planned c rest <-> q c = true).
Proof.
  intros H c Hq. pose proof (everyShape_spec _ H c) as E.
  apply Bool.eqb_prop in E. rewrite Hq in E.
  unfold plannedb in E. rewrite relative_shapeOf in E.
  rewrite planned_iff. unfold plannedb. now rewrite E.
Qed.

Lemma written_by_shape (rest : string) (q : ProjectConfig -> bool) :
  everyShape (fun s => Bool.eqb (writtenb s rest) (q s)) = true ->
  forall c, q (shapeOf c) = q c -> (written c rest <-> q c = true).
Proof.
  intros H c Hq. pose proof (everyShape_spec _ H c) as E.
  apply Bool.eqb_prop in E. rewrite Hq in E.
  unfold writtenb in E. rewrite relativeFiles_shapeOf in E.
  rewrite written_iff. unfold writtenb. now rewrite E.
Qed.

(** Read a boolean condition on the fields as the proposition it stands
    for, by cases on the fields it mentions. *)
Ltac read_condition c :=
  destruct c as [? ? ? git ui api lang bt ? ? ? ? ? ci docker];
  cbn [language buildTool initGit includeUI includeAPI includeCI includeDocker];
  repeat match goal with x : _ |- _ => clear x end;
  repeat match goal with
         | x : Language |- _ => destruct x
         | x : BuildTool |- _ => destruct x
         | x : bool |- _ => destruct x
         end;
  simpl; intuition (try discriminate; try congruence).

(** [q] is the condition as a boolean. *)
Ltac by_planned q :=
  let H := fresh in
  match goal with
  | |- planned ?c ?rest <-> _ =>
      pose proof (planned_by_shape rest q ltac:(vm_compute; reflexivity) c
                    ltac:(destruct c; reflexivity)) as H;
      rewrite H; clear H; read_condition c
  end.

Ltac by_written q :=
  let H := fresh in
  match goal with
  | |- written ?c ?rest <-> _ =>
      pose proof (written_by_shape rest q ltac:(lazy; reflexivity) c
                    ltac:(destruct c; reflexivity)) as H;
      rewrite H; clear H; read_condition c
  end.

(** ** The files the generator writes *)

Definition startsWithSlash (q : string) : bool :=
  match q with
  | String c rest => Ascii.eqb c "/" && negb (rest =? "")%string
  | EmptyString => false
  end.

Lemma relativeFiles_nodup (c : ProjectConfig) : nodupb (relativeFiles c) = true.
Proof. by_shape c; lazy; reflexivity. Qed.

Lemma relativeFiles_shape (c : ProjectConfig) :
  forallb (fun q => startsWithSlash q && negb (Js.endsWith q "/")) (relativeFiles c)
  = true.
Proof. by_shape c; lazy; reflexivity. Qed.

(** ** Counting the files *)

Lemma filter_length_perm {A : Type} (f : A -> bool) (l l' : list A) :
  Permutation l l' -> List.length (filter f l) = List.length (filter f l').
Proof.
  induction 1 as [|x l l' _ IH|x y l|l l' l'' _ IH1 _ IH2]; simpl.
  - reflexivity.
  - destruct (f x); simpl; now rewrite IH.
  - destruct (f x), (f y); reflexivity.
  - now rewrite IH1.
Qed.

Lemma filter_file_map (pn : string) (l : list string) :
  forallb (fun q => negb (q =? "")%string) l = true ->
  List.length (filter (fun p => negb (Js.endsWith p "/")) (map (String.append pn) l))
  = List.length (filter (fun p => negb (Js.endsWith p "/")) l).
Proof.
  induction l as [|q l IH]; simpl; intros H; [reflexivity|].
  apply andb_true_iff in H as [Hq Hl].
  apply negb_true_iff, String.eqb_neq in Hq.
  change (String.append pn q) with (pn ++ q)%string.
  rewrite (endsWith_append pn q Hq).
  destruct (Js.endsWith q "/"); simpl; now rewrite (IH Hl).
Qed.

(** One more file is planned than written exactly for Java without Maven. *)
Definition plannedOnly (c : ProjectConfig) : nat :=
  if Language_beq (language c) java && negb (BuildTool_beq (buildTool c) maven)
  then 1 else 0.

Lemma relative_file_count (c : ProjectConfig) :
  List.length (filter (fun p => negb (Js.endsWith p "/")) (relative c))
  = List.length (generateFiles c) + plannedOnly c.
Proof. by_shape c; lazy; reflexivity. Qed.

End GeneratorFacts.

Section GeneratorProperties.
Import Types FolderTree Templates JsFacts FolderTreeFacts PlannerFacts GeneratorFacts.

(** A valid TypeScript configuration. *)
Definition typescriptConfig : ProjectConfig :=
  {| projectName := "web-suite";
     description := Some "End-to-end checks";
     author := None;
     initGit := false;
     includeUI := true;
     includeAPI := false;
     language := typescript;
     buildTool := pnpm;
     uiFramework := Some playwright;
     apiFramework := None;
     testRunner := playwright_test;
     reporting := [html];
     includeEnvConfig := true;
     includeCI := true;
     includeDocker := false |}.

(** X1 (witness).  The planner and the generator agree on the scenario of
    the specification. *)
Lemma generateFiles_consistent_except_gradle_witness :
  In "demo/requirements.txt" (map path (generateFiles demoConfig))
  <-> In "demo/requirements.txt" (generateFolderTree demoConfig)
      /\ Js.endsWith "demo/requirements.txt" "/" = false.
Proof.
  apply (generateFiles_consistent_except_gradle demoConfig "demo/requirements.txt").
  discriminate.
Defined.

(** X2.  Whatever the configuration, no two entries of [generateFiles] have
    the same path, and every path is the project name, a slash and a
    non-empty rest that does not end in a slash: a file below the root. *)
Theorem generateFiles_paths_distinct_files (c : ProjectConfig) :
  NoDup (map path (generateFiles c))
  /\ forall f, In f (generateFiles c) ->
       Js.endsWith (path f) "/" = false
       /\ exists rest, path f = (projectName c ++ "/" ++ rest)%string /\ rest <> "".
Proof.
  split.
  - rewrite generateFiles_relative.
    apply NoDup_map_append, nodupb_NoDup, relativeFiles_nodup.
  - intros f Hf. apply (in_map path) in Hf.
    rewrite generateFiles_relative in Hf. apply in_map_iff in Hf as [q [<- Hq]].
    pose proof (relativeFiles_shape c) as Hs. rewrite forallb_forall in Hs.
    specialize (Hs q Hq). apply andb_true_iff in Hs as [Hstart Hend].
    destruct q as [|ch rest]; [discriminate|]. simpl in Hstart.
    apply andb_true_iff in Hstart as [Hch Hrest].
    apply Ascii.eqb_eq in Hch. subst ch.
    apply negb_true_iff, String.eqb_neq in Hrest.
    change (String.append (projectName c) (String "/" rest))
      with (projectName c ++ String "/" rest)%string.
    split.
    + rewrite endsWith_append by discriminate. now apply negb_true_iff.
    + exists rest. split; [reflexivity | exact Hrest].
Qed.

(** X3.  The number of files the preview shows for the planned paths is the
    number of files the generator writes, except for Java with a build tool
    other than Maven, where the preview counts one file more. *)
Theorem fileCount_generateFolderTree (c : ProjectConfig) :
  Preview.fileCount (generateFolderTree c)
  = List.length (generateFiles c)
    + (if Language_beq (language c) java && negb (BuildTool_beq (buildTool c) maven)
       then 1 else 0).
Proof.
  unfold Preview.fileCount, generateFolderTree, Js.sort.
  rewrite (filter_length_perm _ _ _ (sortBy_perm String.compare (paths c))).
  rewrite paths_relative, filter_file_map by apply relative_nonempty.
  apply relative_file_count.
Qed.

(** X4.  The optional artefacts follow their switches, in the planner and in
    the generator alike: [.gitignore] is there exactly when [initGit] is
    set, the workflow exactly when [includeCI] is set, and the Dockerfile
    and the compose file exactly when [includeDocker] is set. *)
Theorem optional_artifacts_follow_switches (c : ProjectConfig) :
  (planned c ".gitignore" <-> initGit c = true)
  /\ (written c ".gitignore" <-> initGit c = true)
  /\ (planned c ".github/workflows/tests.yml" <-> includeCI c = true)
  /\ (written c ".github/workflows/tests.yml" <-> includeCI c = true)
  /\ (planned c "Dockerfile" <-> includeDocker c = true)
  /\ (written c "Dockerfile" <-> includeDocker c = true)
  /\ (planned c "docker-compose.yml" <-> includeDocker c = true)
  /\ (written c "docker-compose.yml" <-> includeDocker c = true).
Proof.
  repeat match goal with |- _ /\ _ => split end.
  - by_planned initGit.
  - by_written initGit.
  - by_planned includeCI.
  - by_written includeCI.
  - by_planned includeDocker.
  - by_written includeDocker.
  - by_planned includeDocker.
  - by_written includeDocker.
Qed.

(** X5.  The manifest the planner lists is the one of the language and of
    the build tool: [package.json] and the environment files under
    [config/] for TypeScript only, [pom.xml] for Java with Maven,
    [build.gradle] for Java with any other build tool, [requirements.txt]
    for Python, with [pyproject.toml] beside it for Poetry; and a directory
    [tests/] at the root for every language but Java. *)
Theorem planned_manifest_by_language (c : ProjectConfig) :
  (planned c "package.json" <-> language c = typescript)
  /\ (planned c "config/dev.json" <-> language c = typescript)
  /\ (planned c "pom.xml" <-> language c = java /\ buildTool c = maven)
  /\ (planned c "build.gradle" <-> language c = java /\ buildTool c <> maven)
  /\ (planned c "requirements.txt" <-> language c = python)
  /\ (planned c "pyproject.toml" <-> language c = python /\ buildTool c = poetry)
  /\ (planned c "tests/" <-> language c <> java).
Proof.
  repeat match goal with |- _ /\ _ => split end.
  - by_planned (fun c => Language_beq (language c) typescript).
  - by_planned (fun c => Language_beq (language c) typescript).
  - by_planned (fun c => Language_beq (language c) java
                         && BuildTool_beq (buildTool c) maven).
  - by_planned (fun c => Language_beq (language c) java
                         && negb (BuildTool_beq (buildTool c) maven)).
  - by_planned (fun c => Language_beq (language c) python).
  - by_planned (fun c => Language_beq (language c) python
                         && BuildTool_beq (buildTool c) poetry).
  - by_planned (fun c => negb (Language_beq (language c) java)).
Qed.

(** X6.  The two kinds of test gate their subtrees: the planner lists, and
    the generator fills, the UI tests and the page objects exactly when
    [includeUI] is set and the API tests exactly when [includeAPI] is set,
    at the places of the language. *)
Theorem coverage_gates_subtrees (c : ProjectConfig) :
  (planned c "tests/ui/" <-> includeUI c = true /\ language c <> java)
  /\ (planned c "tests/api/" <-> includeAPI c = true /\ language c <> java)
  /\ (planned c "src/pages/" <-> includeUI c = true /\ language c <> java)
  /\ (planned c "src/test/java/com/automation/pages/"
      <-> includeUI c = true /\ language c = java)
  /\ (planned c "src/test/java/com/automation/api/"
      <-> includeAPI c = true /\ language c = java)
  /\ (written c "tests/ui/login.spec.ts"
      <-> includeUI c = true /\ language c = typescript)
  /\ (written c "tests/api/users.spec.ts"
      <-> includeAPI c = true /\ language c = typescript)
  /\ (written c "tests/ui/test_login.py"
      <-> includeUI c = true /\ language c = python)
  /\ (written c "tests/api/test_users.py"
      <-> includeAPI c = true /\ language c = python)
  /\ (written c "src/test/java/com/automation/tests/LoginTest.java"
      <-> includeUI c = true /\ language c = java)
  /\ (written c "src/test/java/com/automation/api/UsersApiTest.java"
      <-> includeAPI c = true /\ language c = java).
Proof.
  repeat match goal with |- _ /\ _ => split end.
  - by_planned (fun c => includeUI c && negb (Language_beq (language c) java)).
  - by_planned (fun c => includeAPI c && negb (Language_beq (language c) java)).
  - by_planned (fun c => includeUI c && negb (Language_beq (language c) java)).
  - by_planned (fun c => includeUI c && Language_beq (language c) java).
  - by_planned (fun c => includeAPI c && Language_beq (language c) java).
  - by_written (fun c => includeUI c && Language_beq (language c) typescript).
  - by_written (fun c => includeAPI c && Language_beq (language c) typescript).
  - by_written (fun c => includeUI c && Language_beq (language c) python).
  - by_written (fun c => includeAPI c && Language_beq (language c) python).
  - by_written (fun c => includeUI c && Language_beq (language c) java).
  - by_written (fun c => includeAPI c && Language_beq (language c) java).
Qed.

End GeneratorProperties.

(* ================================================================== *)
(** * What the generated content depends on                            *)
(* ================================================================== *)

Section ContentProperties.
Import Types FolderTree Templates JsFacts FolderTreeFacts PlannerFacts GeneratorFacts.

(** [text.includes(needle)] *)
Definition mentions (needle text : string) : bool :=
  match index 0 needle text with
  | Some _ => true
  | None => false
  end.

(** X7.  The workflow sets up the toolchain of the language and no other,
    and installs the browsers exactly for TypeScript with UI tests: a Python
    or Java project gets no browser step, with or without UI tests. *)
Theorem generateGitHubWorkflow_toolchain (config : ProjectConfig) :
  (mentions "uses: actions/setup-node@v4" (generateGitHubWorkflow config) = true
   <-> language config = typescript)
  /\ (mentions "uses: actions/setup-java@v4" (generateGitHubWorkflow config) = true
      <-> language config = java)
  /\ (mentions "uses: actions/setup-python@v5" (generateGitHubWorkflow config) = true
      <-> language config = python)
  /\ (mentions "npx playwright install" (generateGitHubWorkflow config) = true
      <-> language config = typescript /\ includeUI config = true).
Proof.
  destruct config as [pn ? ? git ui api lang bt ? ? ? ? ? ci docker].
  cbn [language includeUI].
  destruct lang, bt, ui; vm_compute;
    repeat split; intros; try discriminate; try reflexivity;
    match goal with H : _ /\ _ |- _ => destruct H; discriminate end.
Qed.

(** The last line of a Dockerfile: the command that runs the tests. *)
Definition testCommand (l : Language) : string :=
  match l with
  | typescript => "CMD [" ++ Js.dq ++ "npm" ++ Js.dq ++ ", " ++ Js.dq ++ "test" ++ Js.dq ++ "]"
  | java => "CMD [" ++ Js.dq ++ "mvn" ++ Js.dq ++ ", " ++ Js.dq ++ "test" ++ Js.dq ++ "]"
  | python => "CMD [" ++ Js.dq ++ "pytest" ++ Js.dq ++ "]"
  end ++ Js.nl.

Definition baseImage (l : Language) : string :=
  match l with
  | typescript => "FROM mcr.microsoft.com/playwright:v1.40.0-jammy"
  | java => "FROM maven:3.9-eclipse-temurin-17"
  | python => "FROM python:3.11-slim"
  end ++ Js.nl.

(** X8.  The Dockerfile depends on the language alone: it starts from the
    image of the language and ends in the command that runs the tests with
    npm, Maven or pytest, whatever the build tool is (pnpm and Gradle
    projects get the npm and the Maven command). *)
Theorem generateDockerfile_by_language :
  (forall c1 c2 : ProjectConfig,
      language c1 = language c2 -> generateDockerfile c1 = generateDockerfile c2)
  /\ (forall c : ProjectConfig,
         prefix (baseImage (language c)) (generateDockerfile c) = true
         /\ Js.endsWith (generateDockerfile c) (testCommand (language c)) = true).
Proof.
  split.
  - intros c1 c2 H. unfold generateDockerfile. now rewrite H.
  - intros c. unfold generateDockerfile.
    destruct (language c); vm_compute; split; reflexivity.
Qed.

Lemma generateDockerfile_by_language_witness :
  generateDockerfile gradleConfig
  = generateDockerfile
      {| projectName := "other"; description := None; author := None;
         initGit := false; includeUI := false; includeAPI := true;
         language := java; buildTool := maven; uiFramework := None;
         apiFramework := Some rest_assured; testRunner := testng;
         reporting := [surefire]; includeEnvConfig := false;
         includeCI := true; includeDocker := true |}.
Proof.
  destruct generateDockerfile_by_language as [H _]. apply H. reflexivity.
Defined.

(** ** Fields without influence *)

Definition withTestRunner (r : TestRunner) (c : ProjectConfig) : ProjectConfig :=
  {| projectName := projectName c; description := description c;
     author := author c; initGit := initGit c; includeUI := includeUI c;
     includeAPI := includeAPI c; language := language c;
     buildTool := buildTool c; uiFramework := uiFramework c;
     apiFramework := apiFramework c; testRunner := r;
     reporting := reporting c; includeEnvConfig := includeEnvConfig c;
     includeCI := includeCI c; includeDocker := includeDocker c |}.

Definition withUIFramework (f : option UIFramework) (c : ProjectConfig) : ProjectConfig :=
  {| projectName := projectName c; description := description c;
     author := author c; initGit := initGit c; includeUI := includeUI c;
     includeAPI := includeAPI c; language := language c;
     buildTool := buildTool c; uiFramework := f;
     apiFramework := apiFramework c; testRunner := testRunner c;
     reporting := reporting c; includeEnvConfig := includeEnvConfig c;
     includeCI := includeCI c; includeDocker := includeDocker c |}.

Definition withAPIFramework (f : option APIFramework) (c : ProjectConfig) : ProjectConfig :=
  {| projectName := projectName c; description := description c;
     author := author c; initGit := initGit c; includeUI := includeUI c;
     includeAPI := includeAPI c; language := language c;
     buildTool := buildTool c; uiFramework := uiFramework c;
     apiFramework := f; testRunner := testRunner c;
     reporting := reporting c; includeEnvConfig := includeEnvConfig c;
     includeCI := includeCI c; includeDocker := includeDocker c |}.

Definition withReporting (r : list ReportingOption) (c : ProjectConfig) : ProjectConfig :=
  {| projectName := projectName c; description := description c;
     author := author c; initGit := initGit c; includeUI := includeUI c;
     includeAPI := includeAPI c; language := language c;
     buildTool := buildTool c; uiFramework := uiFramework c;
     apiFramework := apiFramework c; testRunner := testRunner c;
     reporting := r; includeEnvConfig := includeEnvConfig c;
     includeCI := includeCI c; includeDocker := includeDocker c |}.

(** X9.  The test runner has no influence on what is generated: with JUnit
    or TestNG, or any other runner, the paths and the contents are the
    same. *)
Theorem testRunner_has_no_influence (c : ProjectConfig) (r : TestRunner) :
  generateFolderTree (withTestRunner r c) = generateFolderTree c
  /\ generateFiles (withTestRunner r c) = generateFiles c.
Proof. destruct c. split; reflexivity. Qed.

(** X10.  The other selections matter for one language each.  The UI
    framework changes the content for Python only, the API framework for
    TypeScript only, and the reporting options for Java only, and there only
    through the presence of Allure; none of them changes a path. *)
Theorem selections_are_language_local (c : ProjectConfig) :
  (forall f, language c <> python ->
             generateFiles (withUIFramework f c) = generateFiles c)
  /\ (forall f, language c <> typescript ->
                generateFiles (withAPIFramework f c) = generateFiles c)
  /\ (forall r, language c <> java ->
                generateFiles (withReporting r c) = generateFiles c)
  /\ (forall r,
         Js.includes ReportingOption_beq r allure
         = Js.includes ReportingOption_beq (reporting c) allure ->
         generateFiles (withReporting r c) = generateFiles c)
  /\ (forall f, generateFolderTree (withUIFramework f c) = generateFolderTree c)
  /\ (forall f, generateFolderTree (withAPIFramework f c) = generateFolderTree c)
  /\ (forall r, generateFolderTree (withReporting r c) = generateFolderTree c).
Proof.
  destruct c as [pn d a git ui api lang bt uif apif tr rep env ci docker].
  cbn [language reporting].
  repeat match goal with |- _ /\ _ => split end.
  - intros f H. destruct lang; [reflexivity | reflexivity | congruence].
  - intros f H. destruct lang; [congruence | reflexivity | reflexivity].
  - intros r H. destruct lang; [reflexivity | congruence | reflexivity].
  - intros r H. unfold generateFiles, generateJavaPom.
    cbn [language reporting projectName description includeUI includeAPI
         initGit includeCI includeDocker buildTool withReporting].
    rewrite H. reflexivity.
  - reflexivity.
  - reflexivity.
  - reflexivity.
Qed.

Lemma selections_are_language_local_witness :
  generateFiles (withUIFramework (Some selenium) typescriptConfig)
  = generateFiles typescriptConfig
  /\ generateFiles (withReporting [junit_xml; surefire] gradleConfig)
     <> generateFiles gradleConfig.
Proof.
  destruct (selections_are_language_local typescriptConfig) as (Hui & _).
  split.
  - apply Hui. discriminate.
  - intros H. apply (f_equal (fun l => map (fun f => String.length (content f)) l)) in H.
    vm_compute in H. discriminate H.
Defined.

End ContentProperties.

(* ================================================================== *)
(** * More on the project name and on the updates of the wizard        *)
(* ================================================================== *)

Module WizardFacts.
Import Types Wizard WizardFlow Js SlugFacts.





Lemma validateStep_name (config : PartialConfig) (name : string) :
  projectName_ config = Some name -> matchesSlug name = true ->
  validateStep 1 config = [].
Proof.
  intros Hn Hm. unfold validateStep. simpl. rewrite Hn, Hm.
  destruct name; [discriminate Hm | reflexivity].
Qed.

(** ** The shallow merge *)

Lemma over_None_l {A : Type} (p : option A) : over None p = p.
Proof. reflexivity. Qed.

Lemma over_None_r {A : Type} (u : option A) : over u None = u.
Proof. now destruct u. Qed.

Lemma over_assoc {A : Type} (u2 u1 p : option A) :
  over u2 (over u1 p) = over (over u2 u1) p.
Proof. now destruct u2. Qed.

Lemma over_twice {A : Type} (u p : option A) : over u (over u p) = over u p.
Proof. now destruct u. Qed.

(** ** The reporting options *)

Lemma ReportingOption_beq_eq (a b : ReportingOption) :
  ReportingOption_beq a b = true <-> a = b.
Proof. destruct a, b; simpl; split; congruence. Qed.

Lemma includes_In (l : list ReportingOption) (o : ReportingOption) :
  Js.includes ReportingOption_beq l o = true <-> In o l.
Proof.
  unfold Js.includes. rewrite existsb_exists. split.
  - intros [x [Hx E]]. apply ReportingOption_beq_eq in E. now subst.
  - intros H. exists o. split; [exact H | now apply ReportingOption_beq_eq].
Qed.

Lemma In_without (l : list ReportingOption) (o r : ReportingOption) :
  In r (filter (fun x => negb (ReportingOption_beq x o)) l) <-> In r l /\ r <> o.
Proof.
  rewrite filter_In. split; intros [H1 H2]; split; try assumption.
  - intros ->. apply negb_true_iff in H2.
    assert (ReportingOption_beq o o = true) by now apply ReportingOption_beq_eq.
    congruence.
  - apply negb_true_iff. destruct (ReportingOption_beq r o) eqn:E; [|reflexivity].
    apply ReportingOption_beq_eq in E. contradiction.
Qed.

End WizardFacts.

Section WizardProperties.
Import Types Wizard WizardFlow SlugFacts WizardFacts.





(** X14.  The shallow merge of [updateConfig] is a monoid action: the empty
    update changes nothing, two updates in a row are the merge of the second
    into the first applied once, and an update repeated is the update
    itself; a field of the update, when present, is the field of the
    result. *)
Theorem updateConfig_merge_laws (c u1 u2 : PartialConfig) :
  updateConfig c noUpdates = c
  /\ updateConfig noUpdates u1 = u1
  /\ updateConfig (updateConfig c u1) u2 = updateConfig c (updateConfig u1 u2)
  /\ updateConfig (updateConfig c u1) u1 = updateConfig c u1
  /\ (forall b, buildTool_ u2 = Some b ->
                buildTool_ (updateConfig (updateConfig c u1) u2) = Some b).
Proof.
  repeat match goal with |- _ /\ _ => split end.
  - destruct c. reflexivity.
  - destruct u1. unfold updateConfig, noUpdates. simpl.
    now rewrite !over_None_r.
  - unfold updateConfig. simpl. now rewrite !over_assoc.
  - unfold updateConfig. simpl. now rewrite !over_twice.
  - intros b H. simpl. now rewrite H.
Qed.

(** X15.  A click on a reporting option toggles it and nothing else: the
    option is in the new list exactly when it was not in the old one, every
    other option stays in or out, and a list without duplicates stays
    without.  The one click that is ignored is the one that would leave no
    option: on a non-empty list that holds nothing but the clicked
    option. *)
Theorem toggleReporting_toggles (config : PartialConfig) (opt : ReportingOption) :
  let current := orDefault (reporting_ config) [] in
  (toggleReporting config opt = None
   <-> current <> [] /\ forall r, In r current -> r = opt)
  /\ (forall updates, toggleReporting config opt = Some updates ->
        exists updated,
          updates = only_reporting updated
          /\ updated <> []
          /\ (In opt updated <-> ~ In opt current)
          /\ (forall r, r <> opt -> (In r updated <-> In r current))
          /\ (NoDup current -> NoDup updated)).
Proof.
  cbv zeta. unfold toggleReporting.
  set (current := orDefault (reporting_ config) []).
  destruct (Js.includes ReportingOption_beq current opt) eqn:Einc.
  - (* the option is selected: it is removed *)
    apply includes_In in Einc.
    set (updated := filter (fun r => negb (ReportingOption_beq r opt)) current).
    destruct updated as [|x rest] eqn:Eu.
    + simpl. split.
      * split; [intros _|reflexivity]. split.
        -- intros E. rewrite E in Einc. contradiction.
        -- intros r Hr. destruct (ReportingOption_eq_dec r opt) as [E|E]; [exact E|].
           exfalso. assert (Hin : In r updated) by (apply In_without; auto).
           rewrite Eu in Hin. contradiction.
      * discriminate.
    + simpl. split.
      * split; [discriminate|]. intros [_ Hall]. exfalso.
        assert (Hx : In x updated) by (rewrite Eu; now left).
        apply In_without in Hx as [Hx Hne]. exact (Hne (Hall x Hx)).
      * intros updates [= <-]. exists (x :: rest). rewrite <- Eu.
        split; [now rewrite Eu|]. split; [rewrite Eu; discriminate|].
        split; [|split].
        -- split.
           ++ intros Hin. apply In_without in Hin as [_ Hne]. congruence.
           ++ intros Hout. contradiction.
        -- intros r Hr. split.
           ++ intros Hin. apply In_without in Hin as [Hin _]. exact Hin.
           ++ intros Hin. apply In_without. auto.
        -- intros Hnd. apply NoDup_filter, Hnd.
  - (* the option is not selected: it is added at the end *)
    assert (Hnot : ~ In opt current).
    { intros H. apply includes_In in H. congruence. }
    assert (Hlen : (0 <? List.length (current ++ [opt]))%nat = true).
    { apply Nat.ltb_lt. rewrite length_app. simpl. lia. }
    rewrite Hlen. split.
    + split; [discriminate|]. intros [Hne Hall]. exfalso.
      destruct current as [|x rest]; [congruence|].
      apply Hnot. rewrite <- (Hall x (or_introl eq_refl)). now left.
    + intros updates [= <-]. exists (current ++ [opt]).
      split; [reflexivity|]. split; [|split; [|split]].
      * intros E. apply app_eq_nil in E as [_ E]. discriminate.
      * split; [intros _; exact Hnot|].
        intros _. apply in_or_app. right. now left.
      * intros r Hr. split.
        -- intros Hin. apply in_app_or in Hin as [Hin|[Hin|[]]];
             [exact Hin | congruence].
        -- intros Hin. apply in_or_app. now left.
      * intros Hnd. apply NoDup_app; [exact Hnd | repeat constructor; auto |].
        intros y Hy [<-|[]]. exact (Hnot Hy).
Qed.

Lemma toggleReporting_toggles_witness :
  toggleReporting defaultConfig html = None
  /\ toggleReporting defaultConfig junit_xml = Some (only_reporting [html; junit_xml]).
Proof.
  pose proof (toggleReporting_toggles defaultConfig html) as H. cbv zeta in H.
  destruct H as [[_ H] _]. split; [|reflexivity].
  apply H. split; [discriminate|].
  intros r [<-|[]]. reflexivity.
Defined.

(** X16.  Right after a change of language the configuration the wizard
    completes for the preview and for the generation is inside the
    compatibility table, when the two coverage flags are set one way or the
    other (as they are from the default configuration on). *)
Theorem completeConfig_after_language_change
    (config : PartialConfig) (newLanguage : Language) :
  includeUI_ config <> None -> includeAPI_ config <> None ->
  let next := updateConfig config (handleLanguageChange config newLanguage) in
  language (completeConfig next) = newLanguage
  /\ compatible (completeConfig next) = true.
Proof.
  intros Hui Hapi. cbv zeta.
  destruct config as [pn d a git [ui|] [api|] lang bt uif apif tr rep env ci docker];
    simpl in Hui, Hapi; try congruence.
  split; [reflexivity|].
  destruct newLanguage, ui, api; reflexivity.
Qed.

Lemma completeConfig_after_language_change_witness :
  compatible
    (completeConfig (updateConfig defaultConfig (handleLanguageChange defaultConfig java)))
  = true.
Proof.
  apply (completeConfig_after_language_change defaultConfig java); discriminate.
Defined.

End WizardProperties.

(* ================================================================== *)
(** * The sessions of the wizard                                       *)
(* ================================================================== *)

Module SessionFacts.
Import Types Wizard WizardFlow Js WizardFacts.

(** What holds of the state after every event of a session. *)
Definition Settled (s : WizardState) : Prop :=
  match config s with
  | {| projectName_ := Some n; includeUI_ := Some ui; includeAPI_ := Some api;
       language_ := Some l; buildTool_ := Some bt; testRunner_ := Some tr;
       reporting_ := Some rep |} =>
      (1 <= currentStep s <= 5)
      /\ (2 <= currentStep s -> matchesSlug n = true)
      /\ (3 <= currentStep s -> ui || api = true)
      /\ isValidBuildTool l bt = true
      /\ isValidTestRunner l tr = true
      /\ rep <> []
      /\ forallb (isValidReporting l) rep = true
      /\ NoDup rep
  | _ => False
  end.

Lemma Settled_initialState : Settled initialState.
Proof.
  unfold Settled. simpl. repeat split; try lia; try discriminate.
  repeat constructor. simpl. tauto.
Qed.

Lemma toggleReporting_keeps (config : PartialConfig) (opt : ReportingOption)
    (valid : ReportingOption -> bool) (updates : PartialConfig) :
  toggleReporting config opt = Some updates ->
  valid opt = true ->
  forallb valid (orDefault (reporting_ config) []) = true ->
  NoDup (orDefault (reporting_ config) []) ->
  exists updated,
    updates = only_reporting updated
    /\ updated <> []
    /\ forallb valid updated = true
    /\ NoDup updated.
Proof.
  unfold toggleReporting.
  set (current := orDefault (reporting_ config) []).
  intros H Hopt Hall Hnd.
  match type of H with
  | (if (0 <? List.length ?u)%nat then _ else _) = _ => set (updated := u) in *
  end.
  destruct (0 <? List.length updated)%nat eqn:Elen; [|discriminate].
  injection H as <-. exists updated. split; [reflexivity|].
  split; [|split].
  - intros E. rewrite E in Elen. discriminate.
  - unfold updated. destruct (includes ReportingOption_beq current opt).
    + rewrite forallb_forall in *. intros x Hx.
      apply filter_In in Hx as [Hx _]. auto.
    + rewrite forallb_app, Hall. simpl. now rewrite Hopt.
  - unfold updated. destruct (includes ReportingOption_beq current opt) eqn:E.
    + apply NoDup_filter, Hnd.
    + apply NoDup_app; [exact Hnd | repeat constructor; auto |].
      intros y Hy [<-|[]]. apply includes_In in Hy. congruence.
Qed.

Ltac settle Hname Hcov :=
  unfold Settled; cbn -[matchesSlug];
  repeat match goal with |- _ /\ _ => split end;
  try assumption; try lia;
  intros; try (apply Hname; lia); try (apply Hcov; lia).

Lemma Settled_dispatch (s : WizardState) (e : Event) :
  Settled s -> Settled (dispatch s e).
Proof.
  destruct s as [step [pn d a git ui api lang bt uif apif tr rep env ci docker] errs].
  unfold Settled at 1. cbn.
  destruct pn as [n|]; [|tauto]. destruct ui as [ui|]; [|tauto].
  destruct api as [api|]; [|tauto]. destruct lang as [l|]; [|tauto].
  destruct bt as [bt|]; [|tauto]. destruct tr as [tr|]; [|tauto].
  destruct rep as [rep|]; [|tauto].
  intros (Hstep & Hname & Hcov & Hbt & Htr & Hne & Hrep & Hnd).
  assert (Hcases : step = 1 \/ step = 2 \/ step = 3 \/ step = 4 \/ step = 5) by lia.
  assert (Hkeep : Settled
            {| currentStep := step;
               config :=
                 {| projectName_ := Some n; description_ := d; author_ := a;
                    initGit_ := git; includeUI_ := Some ui; includeAPI_ := Some api;
                    language_ := Some l; buildTool_ := Some bt; uiFramework_ := uif;
                    apiFramework_ := apif; testRunner_ := Some tr;
                    reporting_ := Some rep; includeEnvConfig_ := env;
                    includeCI_ := ci; includeDocker_ := docker |};
               errors := errs |}).
  { unfold Settled. cbn. repeat split; try assumption; lia. }
  destruct e; unfold dispatch;
    cbn -[handleNameChange toggleReporting validateStep Nat.leb Nat.ltb].
  - (* NameChange *)
    destruct (Nat.eqb step 1) eqn:E; [|exact Hkeep].
    apply Nat.eqb_eq in E. subst step. settle Hname Hcov.
  - destruct (Nat.eqb step 1) eqn:E; [|exact Hkeep]. settle Hname Hcov.
  - destruct (Nat.eqb step 1) eqn:E; [|exact Hkeep]. settle Hname Hcov.
  - destruct (Nat.eqb step 1) eqn:E; [|exact Hkeep]. settle Hname Hcov.
  - (* ToggleUI *)
    destruct (Nat.eqb step 2) eqn:E; [|exact Hkeep].
    apply Nat.eqb_eq in E. subst step. settle Hname Hcov.
  - (* ToggleAPI *)
    destruct (Nat.eqb step 2) eqn:E; [|exact Hkeep].
    apply Nat.eqb_eq in E. subst step. settle Hname Hcov.
  - (* LanguageClick *)
    destruct (Nat.eqb step 3) eqn:E; [|exact Hkeep].
    destruct l0; settle Hname Hcov; try discriminate;
      repeat constructor; simpl; tauto.
  - (* BuildToolClick *)
    match goal with |- Settled (if ?b then _ else _) => destruct b eqn:E; [|exact Hkeep] end.
    apply andb_true_iff in E as [_ E]. settle Hname Hcov.
  - (* UIFrameworkClick *)
    match goal with |- Settled (if ?b then _ else _) => destruct b; [|exact Hkeep] end.
    settle Hname Hcov.
  - (* APIFrameworkClick *)
    match goal with |- Settled (if ?b then _ else _) => destruct b; [|exact Hkeep] end.
    settle Hname Hcov.
  - (* TestRunnerClick *)
    match goal with |- Settled (if ?b then _ else _) => destruct b eqn:E; [|exact Hkeep] end.
    apply andb_true_iff in E as [_ E]. settle Hname Hcov.
  - (* ReportingClick *)
    match goal with |- Settled (if ?b then _ else _) => destruct b eqn:E; [|exact Hkeep] end.
    apply andb_true_iff in E as [_ E].
    match goal with |- context [toggleReporting ?c opt] =>
      destruct (toggleReporting c opt) as [updates|] eqn:Et; [|exact Hkeep];
      destruct (toggleReporting_keeps c opt (isValidReporting l) updates Et E Hrep Hnd)
        as (updated & -> & Hu1 & Hu2 & Hu3)
    end.
    settle Hname Hcov.
  - destruct (Nat.eqb step 4) eqn:E; [|exact Hkeep]. settle Hname Hcov.
  - destruct (Nat.eqb step 4) eqn:E; [|exact Hkeep]. settle Hname Hcov.
  - destruct (Nat.eqb step 4) eqn:E; [|exact Hkeep]. settle Hname Hcov.
  - (* ContinueClick *)
    match goal with |- Settled (if ?b then _ else _) => destruct b eqn:E; [|exact Hkeep] end.
    apply andb_true_iff in E as [E1 E2]. apply Nat.ltb_lt in E1.
    unfold handleNext, canProceed in *. cbn -[matchesSlug] in *.
    destruct Hcases as [-> | [-> | [-> | [-> | -> ]]]]; cbn -[matchesSlug] in *; try lia.
    + apply andb_true_iff in E2 as [E2 E3]. apply andb_true_iff in E2 as [_ E2].
      destruct n as [|ch n']; [discriminate E2|].
      cbn -[matchesSlug]. rewrite E3. cbn -[matchesSlug]. settle Hname Hcov.
    + destruct ui, api; cbn in *; try discriminate; settle Hname Hcov.
    + settle Hname Hcov.
    + settle Hname Hcov.
  - (* BackClick *)
    match goal with |- Settled (if ?b then _ else _) => destruct b eqn:E; [|exact Hkeep] end.
    unfold handleBack. cbn.
    destruct Hcases as [-> | [-> | [-> | [-> | -> ]]]]; cbn in *; try discriminate;
      settle Hname Hcov.
  - (* StepperClick *)
    match goal with |- Settled (if ?b then _ else _) => destruct b eqn:E; [|exact Hkeep] end.
    apply andb_true_iff in E as [E E3]. apply andb_true_iff in E as [E1 E2].
    apply Nat.leb_le in E1, E2. unfold handleStepClick.
    cbn -[Nat.ltb]. rewrite E3.
    apply Nat.ltb_lt in E3. settle Hname Hcov.
Qed.

Lemma Settled_run (events : list Event) (s : WizardState) :
  Settled s -> Settled (run events s).
Proof.
  revert s. induction events as [|e events IH]; intros s H; [exact H|].
  apply IH, Settled_dispatch, H.
Qed.

Lemma run_app (events more : list Event) (s : WizardState) :
  run (events ++ more) s = run more (run events s).
Proof. apply fold_left_app. Qed.

Lemma matchesSlug_truthy (n : string) : matchesSlug n = true -> truthy n = true.
Proof. unfold matchesSlug. intros H. apply andb_true_iff in H as [H _]. exact H. Qed.

(** The button Continue, when it is enabled and the step has no error. *)
Lemma dispatch_ContinueClick (s : WizardState) :
  currentStep s < 5 -> canProceed s = true ->
  validateStep (currentStep s) (config s) = [] ->
  dispatch s ContinueClick
  = {| currentStep := currentStep s + 1; config := config s; errors := [] |}.
Proof.
  intros Hlt Hcan Hval. unfold dispatch, handleNext.
  apply Nat.ltb_lt in Hlt. rewrite Hlt, Hcan, Hval. reflexivity.
Qed.

(** Four times Continue. *)
Definition fourTimesContinue : list Event :=
  [ ContinueClick; ContinueClick; ContinueClick; ContinueClick ].

(** From step 1 with a project name of the pattern and the UI tests
    selected, four times Continue lead to step 5 with the configuration
    unchanged. *)
Lemma run_fourTimesContinue (cfg : PartialConfig) (errs : list (string * string))
    (n : string) :
  projectName_ cfg = Some n -> matchesSlug n = true ->
  flag (includeUI_ cfg) = true ->
  run fourTimesContinue {| currentStep := 1; config := cfg; errors := errs |}
  = {| currentStep := 5; config := cfg; errors := [] |}.
Proof.
  intros Hn Hm Hui. unfold run, fourTimesContinue. cbn [fold_left].
  rewrite (dispatch_ContinueClick {| currentStep := 1; config := cfg; errors := errs |});
    cbn [currentStep config Nat.add].
  - rewrite (dispatch_ContinueClick {| currentStep := 2; config := cfg; errors := [] |});
      cbn [currentStep config Nat.add].
    + rewrite (dispatch_ContinueClick {| currentStep := 3; config := cfg; errors := [] |});
        cbn [currentStep config Nat.add]; [|lia|reflexivity|reflexivity].
      rewrite (dispatch_ContinueClick {| currentStep := 4; config := cfg; errors := [] |});
        cbn [currentStep config Nat.add]; [|lia|reflexivity|reflexivity].
      reflexivity.
    + lia.
    + unfold canProceed. cbn [currentStep config Nat.eqb]. now rewrite Hui.
    + unfold validateStep. cbn [Nat.eqb]. now rewrite Hui.
  - lia.
  - unfold canProceed. cbn [currentStep config Nat.eqb]. rewrite Hn, Hm.
    rewrite (matchesSlug_truthy n Hm).
    destruct n; [discriminate Hm | reflexivity].
  - apply (validateStep_name cfg n Hn Hm).
Qed.

End SessionFacts.

Section SessionProperties.
Import Types Wizard WizardFlow Js SlugFacts WizardFacts SessionFacts.

(** X17.  Whatever the user does, in any order, the step stays between 1
    and 5, and the configuration completed for the preview and for the
    generation has a build tool and a test runner of the row of its
    language, a non-empty list of reporting options of that row without
    duplicates, and a UI or API framework exactly when the kind of test is
    selected; from step 2 on the project name matches the pattern, and from
    step 3 on a kind of test is selected. *)
Theorem session_invariant (events : list Event) :
  let s := run events initialState in
  let c := completeConfig (config s) in
  (1 <= currentStep s <= 5)
  /\ (2 <= currentStep s -> matchesSlug (projectName c) = true)
  /\ (3 <= currentStep s -> includeUI c || includeAPI c = true)
  /\ isValidBuildTool (language c) (buildTool c) = true
  /\ isValidTestRunner (language c) (testRunner c) = true
  /\ reporting c <> []
  /\ forallb (isValidReporting (language c)) (reporting c) = true
  /\ NoDup (reporting c)
  /\ (uiFramework c <> None <-> includeUI c = true)
  /\ (apiFramework c <> None <-> includeAPI c = true).
Proof.
  cbv zeta. pose proof (Settled_run events initialState Settled_initialState) as H.
  destruct (run events initialState)
    as [step [pn d a git ui api lang bt uif apif tr rep env ci docker] errs].
  unfold Settled in H. cbn in H.
  destruct pn as [n|]; [|tauto]. destruct ui as [ui|]; [|tauto].
  destruct api as [api|]; [|tauto]. destruct lang as [l|]; [|tauto].
  destruct bt as [bt|]; [|tauto]. destruct tr as [tr|]; [|tauto].
  destruct rep as [rep|]; [|tauto].
  destruct H as (Hstep & Hname & Hcov & Hbt & Htr & Hne & Hrep & Hnd).
  cbn. repeat match goal with |- _ /\ _ => split end;
    try assumption; try lia.
  - intros H2. specialize (Hname H2). now rewrite (matchesSlug_truthy n Hname).
  - destruct ui; cbn; [|split; [congruence | discriminate]].
    split; [reflexivity|]. intros _. destruct uif; [discriminate|].
    destruct l; discriminate.
  - destruct api; cbn; [|split; [congruence | discriminate]].
    split; [reflexivity|]. intros _. destruct apif; [discriminate|].
    destruct l; discriminate.
Qed.

(** X18.  The invariant cannot be strengthened to the compatibility table:
    a session reaches the last step with a completed configuration whose UI
    framework does not belong to the row of its language.  The framework is
    reset on a change of language only while the kind of test is selected,
    and is shown again, unchanged, when the kind of test is selected
    later. *)
Theorem session_reaches_stale_framework :
  exists events,
    let s := run events initialState in
    currentStep s = 5
    /\ language (completeConfig (config s)) = java
    /\ uiFramework (completeConfig (config s)) = Some playwright
    /\ isValidUIFramework java playwright = false
    /\ compatible (completeConfig (config s)) = false.
Proof.
  exists [ NameChange "demo"; ContinueClick;
           ToggleAPI; ToggleUI; ContinueClick;
           LanguageClick java; BackClick;
           ToggleUI; ContinueClick; ContinueClick; ContinueClick ].
  vm_compute. repeat split.
Qed.

(** X19.  The check of step 1 has no upper bound on the length of the
    project name, the schema has one: a name whose normal form is longer
    than 50 characters takes the session to the last step, where the
    completed configuration has that name and does not pass the schema. *)
Theorem session_reaches_long_name (value : string) :
  50 < String.length (slug value) ->
  let s := run (NameChange value :: fourTimesContinue) initialState in
  currentStep s = 5
  /\ projectName (completeConfig (config s)) = slug value
  /\ passesSchema (completeConfig (config s)) = false.
Proof.
  intros Hlen. cbv zeta.
  assert (Hv : value <> "") by (intros ->; simpl in Hlen; lia).
  pose proof (slug_matches value Hv) as Hm.
  pose proof (matchesSlug_truthy _ Hm) as Ht.
  change (run (NameChange value :: fourTimesContinue) initialState)
    with (run fourTimesContinue
            {| currentStep := 1;
               config := updateConfig defaultConfig (handleNameChange value);
               errors := [] |}).
  rewrite (run_fourTimesContinue
             (updateConfig defaultConfig (handleNameChange value)) []
             (slug value) eq_refl Hm eq_refl).
  cbn [currentStep config].
  assert (Hname : projectName
                    (completeConfig (updateConfig defaultConfig (handleNameChange value)))
                  = slug value).
  { change (orElse (Some (slug value)) "my-project" = slug value).
    unfold orElse. now rewrite Ht. }
  split; [reflexivity|]. split; [exact Hname|].
  unfold passesSchema, safeParse, fieldIssues.
  cbn [asInput in_projectName]. rewrite Hname.
  assert (Hfifty : (50 <? String.length (slug value))%nat = true)
    by (apply Nat.ltb_lt; lia).
  rewrite Hfifty.
  destruct (String.length (slug value) <? 1)%nat; reflexivity.
Qed.

Definition longName : string :=
  "an-extremely-long-project-name-that-goes-on-and-on-and-on".

Lemma session_reaches_long_name_witness :
  50 < String.length (slug longName)
  /\ passesSchema
       (completeConfig
          (config (run (NameChange longName :: fourTimesContinue) initialState)))
     = false.
Proof.
  assert (H : 50 < String.length (slug longName)) by (vm_compute; lia).
  split; [exact H|].
  exact (proj2 (proj2 (session_reaches_long_name longName H))).
Defined.

End SessionProperties.

(* ================================================================== *)
(** * More on the tree of the preview                                  *)
(* ================================================================== *)

Module PreviewFacts.
Import Types FolderTree TreeView Js JsFacts FolderTreeFacts PlannerFacts.
Import TreeFacts TreeShape TreeOrder GeneratorFacts.

(** ** Sorting keeps the names apart *)

Lemma UniqueNames_sortNodes (cmp : string -> string -> comparison)
    (l : list TreeNode) :
  UniqueNames l -> UniqueNames (sortNodes cmp l).
Proof.
  induction l as [l IH] using forest_ind. intros Hu.
  pose proof (UniqueNames_NoDup l Hu) as Hnd.
  unfold sortNodes. constructor.
  - apply (Permutation_NoDup (l := map name (map (sortNode cmp) l))).
    + apply Permutation_map, Permutation_sym, sortBy_perm.
    + now rewrite map_name_sortNode.
  - apply Forall_forall. intros x Hx.
    apply sortBy_In in Hx. apply in_map_iff in Hx as [n [<- Hn]].
    rewrite children_sortNode.
    rewrite Forall_forall in IH. apply (IH n Hn).
    apply (UniqueNames_children l n Hu Hn).
Qed.

(** ** A path whose nodes are all there *)

(** The nodes of [parts], one below the other, are in the forest. *)
Fixpoint reaches (parts : list string) (nodes : list TreeNode) : Prop :=
  match parts with
  | [] => True
  | s :: rest =>
      match find (nameIs s) nodes with
      | Some n => reaches rest (children n)
      | None => False
      end
  end.

Lemma visit_found (part : string) (fl : bool)
    (k : list TreeNode -> list TreeNode) (cur : list TreeNode) (n : TreeNode) :
  find (nameIs part) cur = Some n -> k (children n) = children n ->
  visit part fl k cur = cur.
Proof.
  induction cur as [|m more IH]; simpl; [discriminate|].
  unfold nameIs at 1. destruct (name m =? part)%string.
  - intros [= ->] Hk. rewrite Hk. now destruct n.
  - intros Hf Hk. now rewrite (IH Hf Hk).
Qed.

Lemma addParts_reached (tr : bool) (parts : list string) (nodes : list TreeNode) :
  reaches parts nodes -> addParts tr parts nodes = nodes.
Proof.
  revert nodes. induction parts as [|s rest IH]; intros nodes H; [reflexivity|].
  cbn [addParts]. cbn [reaches] in H.
  destruct (find (nameIs s) nodes) as [n|] eqn:E; [|contradiction].
  apply (visit_found _ _ _ _ n E). apply IH, H.
Qed.

Lemma reaches_addParts (tr : bool) (parts : list string) (nodes : list TreeNode) :
  reaches parts (addParts tr parts nodes).
Proof.
  revert nodes. induction parts as [|s rest IH]; intros nodes; [exact I|].
  cbn [addParts reaches]. rewrite find_visit_same.
  destruct (find (nameIs s) nodes); apply IH.
Qed.

Lemma reaches_kept (parts : list string) :
  forall (tr : bool) (others : list string) (nodes : list TreeNode),
    reaches parts nodes -> reaches parts (addParts tr others nodes).
Proof.
  induction parts as [|s rest IH]; intros tr others nodes H; [exact I|].
  destruct others as [|s' rest']; [exact H|].
  cbn [addParts reaches] in *.
  destruct (find (nameIs s) nodes) as [n|] eqn:E; [|contradiction].
  destruct (String.eqb_spec s s') as [<-|Hne].
  - rewrite find_visit_same, E. cbn [children]. apply IH, H.
  - rewrite (find_visit_other _ _ _ _ _ Hne), E. exact H.
Qed.

Lemma reaches_fold (parts : list string) (paths : list string) (nodes : list TreeNode) :
  reaches parts nodes -> reaches parts (fold_left addPath paths nodes).
Proof.
  revert nodes. induction paths as [|q more IH]; intros nodes H; [exact H|].
  cbn [fold_left]. apply IH. unfold addPath. apply reaches_kept, H.
Qed.

Lemma reaches_listed (p : string) (paths : list string) (nodes : list TreeNode) :
  In p paths -> reaches (pathParts p) (fold_left addPath paths nodes).
Proof.
  revert nodes. induction paths as [|q more IH]; intros nodes Hin; [contradiction|].
  cbn [fold_left]. destruct Hin as [->|Hin].
  - apply reaches_fold. unfold addPath. apply reaches_addParts.
  - apply IH, Hin.
Qed.

(** ** The parts of a planned path *)

Definition noSlash (s : string) : bool :=
  Js.allChars (fun c => negb (Ascii.eqb c "/")) s.

Lemma split_append (pn rest : string) :
  noSlash pn = true ->
  Js.split "/" (pn ++ String "/" rest) = pn :: Js.split "/" rest.
Proof.
  unfold noSlash. induction pn as [|c pn IH]; simpl; intros H; [reflexivity|].
  apply andb_true_iff in H as [Hc Hpn]. apply negb_true_iff in Hc.
  rewrite Hc, (IH Hpn). reflexivity.
Qed.

Definition fromRoot (q : string) : bool :=
  match q with
  | String c _ => Ascii.eqb c "/"
  | EmptyString => false
  end.

Lemma pathParts_append (pn q : string) :
  noSlash pn = true -> pn <> "" -> fromRoot q = true ->
  pathParts (pn ++ q) = pn :: pathParts q.
Proof.
  intros Hs Hne Hq. destruct q as [|c rest]; [discriminate|].
  simpl in Hq. apply Ascii.eqb_eq in Hq. subst c.
  unfold pathParts. rewrite (split_append pn rest Hs). simpl.
  destruct pn; [congruence | reflexivity].
Qed.

Lemma fromRoot_nonempty (q : string) : fromRoot q = true -> q <> "".
Proof. destruct q; [discriminate | discriminate]. Qed.

(** ** The planner never lists a file where it lists a folder *)

Lemma conflictFree_rename (pn pn' : string) (l : list string) :
  noSlash pn = true -> pn <> "" -> noSlash pn' = true -> pn' <> "" ->
  forallb fromRoot l = true ->
  conflictFree (map (String.append pn) l) ->
  conflictFree (map (String.append pn') l).
Proof.
  intros Hs Hne Hs' Hne' Hl H p q segments Hp Hq Hfile Hfolder.
  rewrite forallb_forall in Hl.
  apply in_map_iff in Hp as [rp [<- Hrp]]. apply in_map_iff in Hq as [rq [<- Hrq]].
  pose proof (Hl rp Hrp) as Frp. pose proof (Hl rq Hrq) as Frq.
  destruct Hfile as (_ & Hparts & Hends).
  destruct Hfolder as (_ & post & Hq & Hor).
  rewrite (pathParts_append pn' rp Hs' Hne' Frp) in Hparts. subst segments.
  rewrite (pathParts_append pn' rq Hs' Hne' Frq) in Hq. simpl in Hq.
  injection Hq as Hq.
  rewrite (endsWith_append pn' rp (fromRoot_nonempty rp Frp)) in Hends.
  rewrite (endsWith_append pn' rq (fromRoot_nonempty rq Frq)) in Hor.
  apply (H (pn ++ rp)%string (pn ++ rq)%string (pn :: pathParts rp)).
  - apply in_map, Hrp.
  - apply in_map, Hrq.
  - split; [discriminate|]. split.
    + apply (pathParts_append pn rp Hs Hne Frp).
    + now rewrite (endsWith_append pn rp (fromRoot_nonempty rp Frp)).
  - split; [discriminate|]. exists post. split.
    + rewrite (pathParts_append pn rq Hs Hne Frq). simpl. now rewrite Hq.
    + now rewrite (endsWith_append pn rq (fromRoot_nonempty rq Frq)).
Qed.

(** The check on the 576 shapes, with the project name [x]. *)
Definition plannedApart (s : ProjectConfig) : bool :=
  forallb fromRoot (relative s)
  && conflictFreeb (map (String.append "x") (relative s)).

Lemma plannedApart_everyShape : everyShape plannedApart = true.
Proof. vm_compute. reflexivity. Qed.

Lemma conflictFree_In (l l' : list string) :
  (forall p, In p l' -> In p l) -> conflictFree l -> conflictFree l'.
Proof.
  intros Hsub H p q segments Hp Hq. apply H; auto.
Qed.

Lemma generateFolderTree_conflictFree (c : ProjectConfig) :
  matchesSlug (projectName c) = true -> conflictFree (generateFolderTree c).
Proof.
  intros Hm.
  pose proof (everyShape_spec _ plannedApart_everyShape c) as H.
  unfold plannedApart in H. rewrite relative_shapeOf in H.
  apply andb_true_iff in H as [Hroot Hfree].
  apply conflictFreeb_spec in Hfree.
  apply (conflictFree_In (map (String.append (projectName c)) (relative c))).
  - intros p Hp. apply generateFolderTree_In in Hp as [q [Hq ->]].
    apply in_map, Hq.
  - apply (conflictFree_rename "x"); try reflexivity; try discriminate; try assumption.
    + apply slug_no_slash, Hm.
    + intros E. rewrite E in Hm. discriminate.
Qed.

End PreviewFacts.

Section PreviewProperties.
Import Types FolderTree TreeView Js JsFacts FolderTreeFacts PlannerFacts.
Import TreeFacts TreeShape TreeOrder PreviewFacts.

(** X20.  In the tree of the preview no two nodes of one level have the
    same name, at any depth, whatever the input paths and the collation. *)
Theorem buildTree_unique_names
    (localeCompare : string -> string -> comparison) (paths : list string) :
  UniqueNames (buildTree localeCompare paths).
Proof.
  unfold buildTree. apply UniqueNames_sortNodes, UniqueNames_insertAll.
Qed.

(** X21.  The nodes of the tree are the non-empty prefixes of the lists of
    parts of the input paths: there is a node at a sequence of names exactly
    when some input path starts with these parts, and then the node has the
    last of them as its name and is a folder or not as one of these paths
    has it (by a part after it or a trailing slash). *)
Theorem buildTree_nodes_are_prefixes
    (localeCompare : string -> string -> comparison)
    (paths : list string) (segments : list string) :
  ((exists n, nodeAt segments (buildTree localeCompare paths) = Some n)
   <-> segments <> []
       /\ exists p post, In p paths /\ pathParts p = segments ++ post)
  /\ (forall n, nodeAt segments (buildTree localeCompare paths) = Some n ->
        name n = last segments ""
        /\ exists p post,
             In p paths /\ pathParts p = segments ++ post
             /\ isFolder n = (negb (Nat.eqb (List.length post) 0)
                              || Js.endsWith p "/")).
Proof.
  pose proof (folderAt_buildTree localeCompare segments paths) as Hf.
  unfold folderAt in Hf.
  assert (Hnode : forall n,
             nodeAt segments (buildTree localeCompare paths) = Some n ->
             segments <> []
             /\ exists p post,
                  In p paths /\ pathParts p = segments ++ post
                  /\ isFolder n = (negb (Nat.eqb (List.length post) 0)
                                   || Js.endsWith p "/")).
  { intros n Hn. rewrite Hn in Hf. simpl in Hf. symmetry in Hf.
    apply firstFlag_Some in Hf as [p [Hp Hflag]].
    apply flagFor_spec in Hflag as [Hne [post [Hparts Hb]]].
    split; [exact Hne|]. exists p, post. auto. }
  split; [split|].
  - intros [n Hn]. destruct (Hnode n Hn) as [Hne [p [post [Hp [Hparts _]]]]].
    split; [exact Hne|]. exists p, post. auto.
  - intros [Hne [p [post [Hp Hparts]]]].
    destruct (nodeAt segments (buildTree localeCompare paths)) as [n|] eqn:E;
      [now exists n|].
    exfalso. simpl in Hf. symmetry in Hf.
    pose proof (firstFlag_None segments paths Hf p Hp) as Hnone.
    assert (Hsome : pathFlag p segments
                    = Some (negb (Nat.eqb (List.length post) 0) || Js.endsWith p "/")).
    { apply flagFor_spec. split; [exact Hne|]. exists post. auto. }
    congruence.
  - intros n Hn. split; [apply (nodeAt_name _ _ _ Hn)|].
    apply (Hnode n Hn).
Qed.

(** X22.  A path that is listed again changes nothing: the tree of a list
    in which a path occurs a second time is the tree of the list without
    the second occurrence. *)
Theorem buildTree_ignores_repeated_path
    (localeCompare : string -> string -> comparison)
    (before after : list string) (p : string) :
  In p before ->
  buildTree localeCompare (before ++ p :: after)
  = buildTree localeCompare (before ++ after).
Proof.
  intros Hin. unfold buildTree, insertAll. f_equal.
  rewrite !fold_left_app. cbn [fold_left]. f_equal.
  unfold addPath at 2. apply addParts_reached, reaches_listed, Hin.
Qed.

Lemma buildTree_ignores_repeated_path_witness :
  buildTree String.compare ([ "p/a/"; "p/b.txt" ] ++ "p/a/" :: [ "p/a/x.txt" ])
  = buildTree String.compare ([ "p/a/"; "p/b.txt" ] ++ [ "p/a/x.txt" ]).
Proof.
  apply (buildTree_ignores_repeated_path String.compare). simpl. tauto.
Defined.

(** X23.  The preview of a plan: when the project name matches the
    pattern, the planner lists no path as a file that it also lists as a
    folder or above another path, and the tree built from its list has, for
    every listed path, a node at the parts of the path, named by the last
    part, that is a folder exactly when the path ends in a slash. *)
Theorem buildTree_of_generateFolderTree
    (localeCompare : string -> string -> comparison)
    (c : ProjectConfig) :
  Js.matchesSlug (projectName c) = true ->
  conflictFree (generateFolderTree c)
  /\ forall p, In p (generateFolderTree c) ->
       exists n,
         nodeAt (pathParts p) (buildTree localeCompare (generateFolderTree c)) = Some n
         /\ name n = last (pathParts p) ""
         /\ isFolder n = Js.endsWith p "/".
Proof.
  intros Hm. pose proof (generateFolderTree_conflictFree c Hm) as Hfree.
  split; [exact Hfree|]. intros p Hp.
  assert (Hparts : pathParts p <> []).
  { apply generateFolderTree_In in Hp as [q [Hq ->]].
    pose proof (GeneratorFacts.everyShape_spec _ plannedApart_everyShape c) as H.
    unfold plannedApart in H. rewrite GeneratorFacts.relative_shapeOf in H.
    apply andb_true_iff in H as [Hroot _]. rewrite forallb_forall in Hroot.
    rewrite (pathParts_append (projectName c) q).
    - discriminate.
    - apply slug_no_slash, Hm.
    - intros E. rewrite E in Hm. discriminate.
    - apply Hroot, Hq. }
  assert (Hown : pathFlag p (pathParts p) = Some (Js.endsWith p "/")).
  { apply flagFor_spec. split; [exact Hparts|]. exists []. split.
    - now rewrite app_nil_r.
    - reflexivity. }
  pose proof (folderAt_buildTree localeCompare (pathParts p) (generateFolderTree c)) as Hf.
  unfold folderAt in Hf.
  destruct (nodeAt (pathParts p) (buildTree localeCompare (generateFolderTree c)))
    as [n|] eqn:E; simpl in Hf; symmetry in Hf.
  - exists n. split; [reflexivity|]. split; [apply (nodeAt_name _ _ _ E)|].
    apply firstFlag_Some in Hf as [q [Hq Hflag]].
    apply (conflictFree_flags _ q p (pathParts p) _ _ Hfree Hq Hp Hflag Hown).
  - exfalso. pose proof (firstFlag_None _ _ Hf p Hp). congruence.
Qed.

Lemma buildTree_of_generateFolderTree_witness :
  conflictFree (generateFolderTree demoConfig)
  /\ forall p, In p (generateFolderTree demoConfig) ->
       exists n,
         nodeAt (pathParts p) (buildTree String.compare (generateFolderTree demoConfig))
         = Some n
         /\ name n = last (pathParts p) ""
         /\ isFolder n = Js.endsWith p "/".
Proof.
  apply (buildTree_of_generateFolderTree String.compare demoConfig). reflexivity.
Defined.



End PreviewProperties.

(* ================================================================== *)
(** * The schema and the last step                                     *)
(* ================================================================== *)

Section GenerateProperties.
Import Types FolderTree Templates Wizard WizardFlow Generate Js.
Import FolderTreeFacts PlannerFacts GeneratorFacts SlugFacts WizardFacts SessionFacts.


(** X26.  The command the last step shows for the installation belongs to
    a manifest the generator wrote, for every build tool of the table but
    Gradle: there the command installs from [requirements.txt], which is
    not among the files, and neither is [build.gradle]. *)
Theorem installCommand_and_manifest (c : ProjectConfig) :
  compatible c = true ->
  (buildTool c = npm \/ buildTool c = pnpm ->
     installCommand c = (BuildTool_str (buildTool c) ++ " install")%string
     /\ written c "package.json")
  /\ (buildTool c = maven ->
        installCommand c = "mvn clean install -DskipTests" /\ written c "pom.xml")
  /\ (buildTool c = pip \/ buildTool c = poetry ->
        installCommand c = "pip install -r requirements.txt"
        /\ written c "requirements.txt")
  /\ (buildTool c = gradle ->
        installCommand c = "pip install -r requirements.txt"
        /\ ~ written c "requirements.txt"
        /\ ~ written c "build.gradle").
Proof.
  intros Hc.
  assert (Hts : written c "package.json" <-> language c = typescript)
    by (by_written (fun c => Language_beq (language c) typescript)).
  assert (Hjava : written c "pom.xml" <-> language c = java)
    by (by_written (fun c => Language_beq (language c) java)).
  assert (Hpy : written c "requirements.txt" <-> language c = python)
    by (by_written (fun c => Language_beq (language c) python)).
  assert (Hgradle : written c "build.gradle" <-> False)
    by (by_written (fun _ : ProjectConfig => false)).
  assert (Hbt : isValidBuildTool (language c) (buildTool c) = true).
  { unfold compatible in Hc. repeat (apply andb_true_iff in Hc as [Hc _]). exact Hc. }
  unfold installCommand.
  rewrite Hts, Hjava, Hpy, Hgradle.
  destruct (language c), (buildTool c); try discriminate Hbt;
    repeat match goal with |- _ /\ _ => split end;
    intros; repeat match goal with H : _ \/ _ |- _ => destruct H end;
    try discriminate;
    repeat match goal with |- _ /\ _ => split end;
    try reflexivity; try tauto; try (intros ?; discriminate).
Qed.

Lemma installCommand_and_manifest_witness :
  installCommand gradleConfig = "pip install -r requirements.txt"
  /\ ~ written gradleConfig "requirements.txt"
  /\ ~ written gradleConfig "build.gradle".
Proof.
  apply (installCommand_and_manifest gradleConfig); reflexivity.
Defined.

(** X27.  From step 3 on, whatever the session, the completed
    configuration passes the schema exactly when the three texts are within
    their lengths: the pattern of the name and the selection of a kind of
    test, which the schema also asks for, were checked by the steps before;
    the lengths are checked nowhere in the wizard. *)
Theorem session_passes_schema_iff (events : list Event) :
  let s := run events initialState in
  let c := completeConfig (config s) in
  3 <= currentStep s ->
  (passesSchema c = true
   <-> String.length (projectName c) <= 50
       /\ optionalLength (description c) <= 200
       /\ optionalLength (author c) <= 50).
Proof.
  cbv zeta. pose proof (Settled_run events initialState Settled_initialState) as H.
  destruct (run events initialState)
    as [step [pn d a git ui api lang bt uif apif tr rep env ci docker] errs].
  unfold Settled in H. cbn in H.
  destruct pn as [n|]; [|tauto]. destruct ui as [ui|]; [|tauto].
  destruct api as [api|]; [|tauto]. destruct lang as [l|]; [|tauto].
  destruct bt as [bt|]; [|tauto]. destruct tr as [tr|]; [|tauto].
  destruct rep as [rep|]; [|tauto].
  destruct H as (_ & Hname & Hcov & _).
  cbn [currentStep config]. intros Hstep.
  assert (Hm : matchesSlug n = true) by (apply Hname; lia).
  assert (Hc : ui || api = true) by (apply Hcov; lia).
  assert (Hpn : projectName
                  (completeConfig
                     {| projectName_ := Some n; description_ := d; author_ := a;
                        initGit_ := git; includeUI_ := Some ui;
                        includeAPI_ := Some api; language_ := Some l;
                        buildTool_ := Some bt; uiFramework_ := uif;
                        apiFramework_ := apif; testRunner_ := Some tr;
                        reporting_ := Some rep; includeEnvConfig_ := env;
                        includeCI_ := ci; includeDocker_ := docker |}) = n).
  { cbn. now rewrite (matchesSlug_truthy n Hm). }
  unfold passesSchema, safeParse, fieldIssues, refineIssues, issueWhen.
  cbn [asInput parsedData in_projectName in_description in_author
       in_includeUI in_includeAPI includeUI includeAPI].
  rewrite Hpn.
  set (c := completeConfig _).
  assert (Hui : includeUI c || includeAPI c = true) by exact Hc.
  rewrite Hui, Hm.
  assert (H1 : (String.length n <? 1)%nat = false).
  { apply Nat.ltb_ge. destruct n; [discriminate Hm | simpl; lia]. }
  rewrite H1. cbn [negb app].
  destruct (50 <? String.length n)%nat eqn:E2;
  destruct (200 <? optionalLength (description c))%nat eqn:E4;
  destruct (50 <? optionalLength (author c))%nat eqn:E5;
  repeat match goal with
         | H : (_ <? _)%nat = true |- _ => apply Nat.ltb_lt in H
         | H : (_ <? _)%nat = false |- _ => apply Nat.ltb_ge in H
         end;
  cbn [app]; split; try discriminate; try (intros; exfalso; lia);
  intros _; try reflexivity; repeat split; lia.
Qed.

Lemma session_passes_schema_iff_witness :
  passesSchema
    (completeConfig
       (config (run (NameChange "demo" :: fourTimesContinue) initialState)))
  = true.
Proof.
  apply (session_passes_schema_iff (NameChange "demo" :: fourTimesContinue)).
  - vm_compute. lia.
  - vm_compute. repeat split; lia.
Defined.

End GenerateProperties.
